(** * raigra: the adaptive scoring and classification engine

    A shallow embedding of [app/questions.py], [app/scoring.py] and of the
    "change since last assessment" block of [app/app.py], followed by the
    properties of the engine.

    Python values are embedded as follows.
    - [str] is [string]; a [dict] with [str] keys is an association list kept
      in insertion order ([Py.dict]), because [sum(weights.values())] and
      [category_scores.items()] iterate in that order.
    - [int] is [Z].
    - [float] is any type with the operations of [Py.PyFloat].  The code is
      written once over that interface and read at two instances:
      [Py.binary64], the IEEE 754 double precision numbers the interpreter
      really uses (Rocq's primitive floats), and [Py.exact], the rationals,
      which is the arithmetic the specification speaks in.
    - The built-in [sum] adds floats one after the other up to CPython 3.11
      and with a compensation term from CPython 3.12 on; the functions that
      call it take the interpreter, [Py.CPython], as an argument.
    - An operation that can raise returns a [Py.result]. *)

From Stdlib Require Import ZArith QArith Qabs Bool List String Ascii Lia Lqa.
From Stdlib Require Import Floats.
Import ListNotations.

Set Implicit Arguments.
Set Warnings "-inexact-float".

Open Scope string_scope.
Open Scope Z_scope.

(* ================================================================== *)
(** * The Python runtime the engine relies on *)

Module Py.

(** The exceptions the engine's operations can raise. *)
Inductive exn : Type :=
| KeyError (key : string)
| IndexError
| ZeroDivisionError.

Inductive result (A : Type) : Type :=
| Ok (a : A)
| Raise (e : exn).
Arguments Ok {A} a.
Arguments Raise {A} e.

Definition bind {A B : Type} (m : result A) (k : A -> result B) : result B :=
  match m with
  | Ok a => k a
  | Raise e => Raise e
  end.

Definition returns {A : Type} (m : result A) : Prop := exists a, m = Ok a.

(** [for x in xs: st = body(st, x)] *)
Fixpoint for_each {A S : Type} (xs : list A) (body : S -> A -> result S) (st : S)
  : result S :=
  match xs with
  | [] => Ok st
  | x :: xs' => bind (body st x) (for_each xs' body)
  end.

(** [xs[i]] *)
Definition index {A : Type} (xs : list A) (i : nat) : result A :=
  match nth_error xs i with
  | Some x => Ok x
  | None => Raise IndexError
  end.

(** ** Dictionaries with string keys, in insertion order *)

Definition dict (V : Type) : Type := list (string * V).

Section Dict.
Context {V : Type}.

Definition empty : dict V := [].

(** [d.get(k)] *)
Fixpoint get (d : dict V) (k : string) : option V :=
  match d with
  | [] => None
  | (k', v) :: d' => if String.eqb k' k then Some v else get d' k
  end.

(** [k in d] *)
Definition contains (d : dict V) (k : string) : bool :=
  match get d k with
  | Some _ => true
  | None => false
  end.

(** [d[k]] *)
Definition getitem (d : dict V) (k : string) : result V :=
  match get d k with
  | Some v => Ok v
  | None => Raise (KeyError k)
  end.

(** [d.get(k, default)] *)
Definition get_default (d : dict V) (k : string) (default : V) : V :=
  match get d k with
  | Some v => v
  | None => default
  end.

(** [d[k] = v]: an existing key keeps its position, a new key goes last. *)
Fixpoint setitem (d : dict V) (k : string) (v : V) : dict V :=
  match d with
  | [] => [(k, v)]
  | (k', v') :: d' =>
      if String.eqb k' k then (k', v) :: d' else (k', v') :: setitem d' k v
  end.

Definition keys (d : dict V) : list string := map fst d.
Definition values (d : dict V) : list V := map snd d.
Definition items (d : dict V) : list (string * V) := d.

(** A dictionary display [{k1: v1, ..., kn: vn}]. *)
Definition display (kvs : list (string * V)) : dict V :=
  fold_left (fun d kv => setitem d (fst kv) (snd kv)) kvs empty.
End Dict.

(** ** Floating-point numbers *)

Class PyFloat (F : Type) : Type := {
  of_int : Z -> F;            (* float(n) *)
  fadd : F -> F -> F;
  fsub : F -> F -> F;
  fmul : F -> F -> F;
  fquot : F -> F -> F;        (* the quotient, for a divisor that is not zero *)
  fabs : F -> F;              (* abs(x) *)
  is_finite : F -> bool;      (* neither an infinity nor a NaN *)
  fleb : F -> F -> bool;      (* x <= y *)
  fltb : F -> F -> bool;      (* x < y *)
  feqb : F -> F -> bool       (* x == y *)
}.

Section Float.
Context {F : Type} {PF : PyFloat F}.

(** The decimal literal [m * 10^-e]: [lit 30 2] is [0.30], [lit 4 0] is
    [4.0].  One correctly rounded division of two exactly converted
    integers is the correctly rounded literal. *)
Definition lit (m : Z) (e : nat) : F :=
  match e with
  | O => of_int m
  | _ => fquot (of_int m) (of_int (10 ^ Z.of_nat e))
  end.

(** [x / y] *)
Definition truediv (x y : F) : result F :=
  if feqb y (of_int 0) then Raise ZeroDivisionError else Ok (fquot x y).

(** [x >= y] *)
Definition fgeb (x y : F) : bool := fleb y x.

(** [sum(xs)] up to CPython 3.11: the items are added left to right,
    starting from the integer 0. *)
Definition sum_plain (xs : list F) : F := fold_left fadd xs (of_int 0).

(** [sum(xs)] from CPython 3.12 on, for a list of floats: the first item is
    added to the integer 0, the others by Neumaier's compensated summation,
    and the compensation [c] is added at the end when it is finite and not
    zero. *)
Definition neumaier_step (st : F * F) (x : F) : F * F :=
  let '(f_result, c) := st in
  let t := fadd f_result x in
  if fgeb (fabs f_result) (fabs x) then
    (t, fadd c (fadd (fsub f_result t) x))
  else
    (t, fadd c (fadd (fsub x t) f_result)).

Definition sum_compensated (xs : list F) : F :=
  match xs with
  | [] => of_int 0
  | x :: rest =>
      let '(f_result, c) :=
        fold_left neumaier_step rest (fadd (of_int 0) x, lit 0 0) in
      if negb (feqb c (of_int 0)) && is_finite c then fadd f_result c
      else f_result
  end.

(** The interpreters the engine runs on differ, for this code, in the
    built-in [sum] only. *)
Inductive CPython : Type := Before_3_12 | From_3_12.

(** [sum(xs)] *)
Definition sum (py : CPython) (xs : list F) : F :=
  match py with
  | Before_3_12 => sum_plain xs
  | From_3_12 => sum_compensated xs
  end.
End Float.

(** IEEE 754 binary64, what CPython's [float] is.  [of_int] rounds to the
    nearest float; the integers of the engine are small and convert
    exactly. *)
#[export] Instance binary64 : PyFloat float := {|
  of_int := fun z => SF2Prim (binary_normalize prec emax z 0 false);
  fadd := PrimFloat.add;
  fsub := PrimFloat.sub;
  fmul := PrimFloat.mul;
  fquot := PrimFloat.div;
  fabs := PrimFloat.abs;
  is_finite := PrimFloat.is_finite;
  fleb := PrimFloat.leb;
  fltb := PrimFloat.ltb;
  feqb := PrimFloat.eqb
|}.

(** Exact rational arithmetic. *)
#[export] Instance exact : PyFloat Q := {|
  of_int := inject_Z;
  fadd := Qplus;
  fsub := Qminus;
  fmul := Qmult;
  fquot := Qdiv;
  fabs := Qabs;
  is_finite := fun _ => true;
  fleb := Qle_bool;
  fltb := fun x y => negb (Qle_bool y x);
  feqb := Qeq_bool
|}.

(** ** Strings *)

Definition lower_ascii (c : ascii) : ascii :=
  let n := nat_of_ascii c in
  if (65 <=? n)%nat && (n <=? 90)%nat then ascii_of_nat (n + 32) else c.

(** [s.isascii()]: every character is below 128. *)
Fixpoint isascii (s : string) : bool :=
  match s with
  | EmptyString => true
  | String c s' => (nat_of_ascii c <? 128)%nat && isascii s'
  end.

(** [s.lower()] for a string of ASCII characters, where it changes the
    letters A-Z only.  Python lowers the other characters by the Unicode
    tables (the Kelvin sign becomes "k"), which is not modelled: a character
    outside ASCII is left as it is here.  A property that depends on what
    [lower] returns is therefore stated for strings with [isascii]; the
    properties of the weight resolver that are proved for every outcome of
    the keyword tests hold whatever [lower] does. *)
Fixpoint lower (s : string) : string :=
  match s with
  | EmptyString => EmptyString
  | String c s' => String (lower_ascii c) (lower s')
  end.

(** [k in s] for strings: [k] occurs in [s] as a substring. *)
Fixpoint str_in (k s : string) : bool :=
  String.prefix k s ||
  match s with
  | EmptyString => false
  | String _ s' => str_in k s'
  end.

(** [any(k in s for k in ks)] *)
Definition any_in (ks : list string) (s : string) : bool :=
  existsb (fun k => str_in k s) ks.

(** [s or ""] for an optional string. *)
Definition or_empty (s : option string) : string :=
  match s with
  | Some s => s
  | None => ""
  end.

End Py.

Import Py.

Declare Scope py_scope.
Delimit Scope py_scope with py.
Notation "x <- m ;; k" := (bind m (fun x => k))
  (at level 61, m at next level, right associativity) : py_scope.
Open Scope py_scope.

(* ================================================================== *)
(** * app/questions.py *)

Module Questions.

Inductive QType : Type := likert | yesno.

Record Question : Type := {
  id : string;
  text : string;
  category : string;
  qtype : QType;
  help_text : string
}.

Definition CATEGORIES : list string := [
  "Governance & Policy";
  "Data Privacy & Protection";
  "Technical Controls & Monitoring";
  "Ethics & Societal Impact";
  "Organisational Readiness & Capability"
].

Definition LIKERT_OPTIONS : dict Z := [
  ("Not at all", 1);
  ("Limited", 2);
  ("Developing", 3);
  ("Established", 4);
  ("Best practice", 5)
].

Definition YESNO_OPTIONS : dict Z := [
  ("No", 0);
  ("Yes", 1)
].

Definition QUESTIONS : list Question := [
  (* Governance & Policy *)
  {| id := "gov_policy";
     category := "Governance & Policy";
     qtype := yesno;
     text := "Do you have a documented AI governance policy approved by senior leadership?";
     help_text := "" |};
  {| id := "gov_owner";
     category := "Governance & Policy";
     qtype := yesno;
     text := "Is there a named accountable owner for AI systems and their outcomes?";
     help_text := "" |};
  {| id := "gov_vendor";
     category := "Governance & Policy";
     qtype := likert;
     text := "To what extent are third-party AI vendors assessed for governance and risk?";
     help_text := "" |};
  (* Data Privacy & Protection *)
  {| id := "dp_minimisation";
     category := "Data Privacy & Protection";
     qtype := likert;
     text := "To what extent is data minimisation applied to AI training and inference data?";
     help_text := "" |};
  {| id := "dp_dpia";
     category := "Data Privacy & Protection";
     qtype := yesno;
     text := "Are Data Protection Impact Assessments (DPIAs) conducted for AI use cases involving personal data?";
     help_text := "" |};
  (* Technical Controls & Monitoring *)
  {| id := "tech_versioning";
     category := "Technical Controls & Monitoring";
     qtype := likert;
     text := "How mature is your model and dataset version control (e.g. registries, dataset tracking)?";
     help_text := "" |};
  {| id := "tech_monitoring";
     category := "Technical Controls & Monitoring";
     qtype := likert;
     text := "How systematically do you monitor AI systems in production for drift, failures, or misuse?";
     help_text := "" |};
  (* Ethics & Societal Impact *)
  {| id := "eth_impact";
     category := "Ethics & Societal Impact";
     qtype := likert;
     text := "To what extent are ethical impact assessments integrated into AI project approval?";
     help_text := "" |};
  {| id := "eth_stakeholders";
     category := "Ethics & Societal Impact";
     qtype := likert;
     text := "How regularly are affected stakeholders consulted for high-impact AI systems?";
     help_text := "" |};
  (* Organisational Readiness & Capability *)
  {| id := "org_training";
     category := "Organisational Readiness & Capability";
     qtype := likert;
     text := "How widely is responsible AI training provided to staff involved in AI development or procurement?";
     help_text := "" |};
  {| id := "org_roles";
     category := "Organisational Readiness & Capability";
     qtype := yesno;
     text := "Are roles and responsibilities clearly defined across the AI lifecycle (e.g. product owner, data steward)?";
     help_text := "" |}
].

End Questions.

Import Questions.

(* ================================================================== *)
(** * app/scoring.py *)

Module Scoring.

Section Engine.
Context {F : Type} {PF : PyFloat F}.

(** The interpreter the engine runs on. *)
Variable py : CPython.

Definition normalise_category_score (raw_sum max_sum : F) : F :=
  if feqb max_sum (of_int 0) then lit 0 0
  else fmul (fquot raw_sum max_sum) (lit 100 0).

(** Map a numeric score to a qualitative band. *)
Definition classify_band (overall_score : F) : string * string :=
  if fgeb overall_score (of_int 80) then
    ("AI Ready", "Strong governance and controls; low regulatory risk.")
  else if fgeb overall_score (of_int 60) then
    ("Near Ready", "Solid foundation with clear areas to strengthen.")
  else if fgeb overall_score (of_int 40) then
    ("Emerging", "Foundational elements in place but significant weaknesses.")
  else
    ("High Risk", "Limited governance; urgent remediation required.").

(** [weights[CATEGORIES[i]] += x] *)
Definition cat_add (weights : dict F) (i : nat) (x : F) : result (dict F) :=
  k <- index CATEGORIES i ;;
  v <- getitem weights k ;;
  Ok (setitem weights k (fadd v x)).

(** [weights[CATEGORIES[i]] -= x] *)
Definition cat_sub (weights : dict F) (i : nat) (x : F) : result (dict F) :=
  k <- index CATEGORIES i ;;
  v <- getitem weights k ;;
  Ok (setitem weights k (fsub v x)).

(** Lines 43-50: the base weights. *)
Definition base_weights : result (dict F) :=
  c0 <- index CATEGORIES 0 ;;
  c1 <- index CATEGORIES 1 ;;
  c2 <- index CATEGORIES 2 ;;
  c3 <- index CATEGORIES 3 ;;
  c4 <- index CATEGORIES 4 ;;
  Ok (display [
    (c0, lit 30 2);   (* Governance *)
    (c1, lit 25 2);   (* Privacy *)
    (c2, lit 20 2);   (* Technical controls *)
    (c3, lit 15 2);   (* Ethics & impact *)
    (c4, lit 10 2)    (* Org readiness *)
  ]).

(** Lines 43-107 of [get_category_weights]: the base weights with the
    adjustments of every matching keyword group added, before they are
    normalised. *)
Definition adjusted_weights (org_type industry : option string)
  : result (dict F) :=
  weights <- base_weights ;;
  let t := lower (or_empty org_type) in
  let ind := lower (or_empty industry) in
  (* 1. Organisation type adjustments *)
  (* Public sector / government / NGO *)
  weights <-
    (if any_in ["public"; "government"; "gov"; "ngo"; "non-profit"; "charity"] t
     then
       weights <- cat_add weights 0 (lit 5 2) ;;  (* governance *)
       weights <- cat_add weights 1 (lit 5 2) ;;  (* privacy *)
       weights <- cat_sub weights 2 (lit 5 2) ;;  (* technical *)
       weights <- cat_sub weights 4 (lit 5 2) ;;  (* org capability *)
       Ok weights
     else Ok weights) ;;
  (* Startup / scaleup *)
  weights <-
    (if any_in ["startup"; "scaleup"; "scale-up"; "high growth"] t then
       weights <- cat_add weights 2 (lit 5 2) ;;  (* technical *)
       weights <- cat_add weights 4 (lit 5 2) ;;  (* org readiness *)
       weights <- cat_sub weights 0 (lit 3 2) ;;  (* governance *)
       weights <- cat_sub weights 3 (lit 2 2) ;;  (* ethics *)
       Ok weights
     else Ok weights) ;;
  (* 2. Industry-specific adjustments *)
  (* Healthcare / life sciences *)
  weights <-
    (if str_in "health" ind || str_in "life science" ind || str_in "pharma" ind
     then
       weights <- cat_add weights 1 (lit 6 2) ;;  (* privacy *)
       weights <- cat_add weights 3 (lit 4 2) ;;  (* ethics *)
       weights <- cat_sub weights 2 (lit 5 2) ;;  (* technical *)
       weights <- cat_sub weights 4 (lit 5 2) ;;  (* org *)
       Ok weights
     else Ok weights) ;;
  (* Financial services *)
  weights <-
    (if str_in "financ" ind || str_in "bank" ind || str_in "insur" ind
        || str_in "asset" ind
     then
       weights <- cat_add weights 0 (lit 5 2) ;;  (* governance *)
       weights <- cat_add weights 1 (lit 5 2) ;;  (* privacy *)
       weights <- cat_sub weights 2 (lit 5 2) ;;
       weights <- cat_sub weights 3 (lit 5 2) ;;
       Ok weights
     else Ok weights) ;;
  (* Retail / e-commerce *)
  weights <-
    (if str_in "retail" ind || str_in "commerce" ind || str_in "e-commerce" ind
        || str_in "ecommerce" ind
     then
       weights <- cat_add weights 2 (lit 6 2) ;;  (* technical *)
       weights <- cat_add weights 4 (lit 4 2) ;;  (* org *)
       weights <- cat_sub weights 0 (lit 5 2) ;;
       weights <- cat_sub weights 3 (lit 5 2) ;;
       Ok weights
     else Ok weights) ;;
  (* Education *)
  weights <-
    (if str_in "educat" ind || str_in "school" ind || str_in "university" ind
        || str_in "college" ind
     then
       weights <- cat_add weights 0 (lit 4 2) ;;  (* governance *)
       weights <- cat_add weights 3 (lit 4 2) ;;  (* ethics *)
       weights <- cat_add weights 4 (lit 2 2) ;;  (* org *)
       weights <- cat_sub weights 1 (lit 5 2) ;;
       weights <- cat_sub weights 2 (lit 5 2) ;;
       Ok weights
     else Ok weights) ;;
  (* Technology / AI / software vendors *)
  weights <-
    (if str_in "tech" ind || str_in "software" ind || str_in "ai" ind
        || str_in "digital" ind
     then
       weights <- cat_add weights 2 (lit 5 2) ;;  (* technical *)
       weights <- cat_add weights 0 (lit 3 2) ;;  (* governance *)
       weights <- cat_sub weights 3 (lit 3 2) ;;
       weights <- cat_sub weights 1 (lit 5 2) ;;
       Ok weights
     else Ok weights) ;;
  Ok weights.

(** Lines 109-116 of [get_category_weights]: normalise back to sum to 1.0,
    with the equal split as the fallback. *)
Definition renormalise (weights : dict F) : result (dict F) :=
  let total := sum py (values weights) in
  if fleb total (of_int 0) then
    let n := Z.of_nat (List.length CATEGORIES) in
    for_each CATEGORIES
      (fun d cat => v <- truediv (lit 1 0) (of_int n) ;; Ok (setitem d cat v))
      empty
  else
    for_each (items weights)
      (fun d kv => q <- truediv (snd kv) total ;; Ok (setitem d (fst kv) q))
      empty.

(** Return category weights that adapt to organisation type AND sector. *)
Definition get_category_weights (org_type industry : option string)
  : result (dict F) :=
  weights <- adjusted_weights org_type industry ;;
  renormalise weights.

(** Lines 131-136 of [compute_scores]: aggregate responses per category. *)
Definition aggregate (responses : dict F) (questions : list Question)
    (category_totals : dict F) (category_counts : dict Z)
  : result (dict F * dict Z) :=
  for_each questions
    (fun st q =>
       let '(category_totals, category_counts) := st in
       if contains responses (id q) then
         t <- getitem category_totals (category q) ;;
         r <- getitem responses (id q) ;;
         let category_totals := setitem category_totals (category q) (fadd t r) in
         c <- getitem category_counts (category q) ;;
         let category_counts := setitem category_counts (category q) (c + 1) in
         Ok (category_totals, category_counts)
       else Ok (category_totals, category_counts))
    (category_totals, category_counts).

(** Lines 138-146 of [compute_scores]: average scores per category. *)
Definition average_scores (category_totals : dict F) (category_counts : dict Z)
  : result (dict F) :=
  for_each CATEGORIES
    (fun category_scores cat =>
       c <- getitem category_counts cat ;;
       if 0 <? c then
         t <- getitem category_totals cat ;;
         avg <- truediv t (of_int c) ;;
         q <- truediv avg (lit 4 0) ;;
         Ok (setitem category_scores cat (fmul q (lit 100 0)))
       else Ok (setitem category_scores cat (lit 0 0)))
    empty.

(** Lines 151-154 of [compute_scores]: the weighted overall score. *)
Definition weighted_overall (category_scores weights : dict F) : result F :=
  for_each CATEGORIES
    (fun overall cat =>
       s <- getitem category_scores cat ;;
       Ok (fadd overall (fmul s (get_default weights cat (lit 0 0)))))
    (lit 0 0).

(** Lines 127-146 of [compute_scores]: the category scores of a response
    set. *)
Definition category_scores_of (responses : dict F) : result (dict F) :=
  (* Initialise totals per category *)
  let category_totals := display (map (fun cat => (cat, lit 0 0)) CATEGORIES) in
  let category_counts := display (map (fun cat => (cat, 0)) CATEGORIES) in
  (* Aggregate responses per category *)
  st <- aggregate responses QUESTIONS category_totals category_counts ;;
  let '(category_totals, category_counts) := st in
  (* Average scores per category *)
  average_scores category_totals category_counts.

(** Compute per-category scores and an overall readiness score. *)
Definition compute_scores (responses : dict F) (org_type industry : option string)
  : result (F * dict F * (string * string)) :=
  category_scores <- category_scores_of responses ;;
  (* Dynamic weights based on org_type / industry *)
  weights <- get_category_weights org_type industry ;;
  (* Weighted overall score *)
  overall <- weighted_overall category_scores weights ;;
  let '(band_label, band_desc) := classify_band overall in
  Ok (overall, category_scores, (band_label, band_desc)).

Definition rec_maintain : string :=
  "Maintain current practices and document them clearly for internal and external audits.".
Definition rec_strengthen : string :=
  "Strengthen governance and monitoring processes to move from 'near ready' to 'ready'.".
Definition rec_basics : string :=
  "Prioritise building basic policies, controls, and clear ownership in this area.".
Definition rec_urgent : string :=
  "Treat this as a high-risk area and establish minimum compliant processes in the next 3–6 months.".

Definition generate_recommendations (category_scores : dict F) : dict string :=
  fold_left
    (fun recs item =>
       let '(cat, score) := item in
       if fgeb score (of_int 80) then setitem recs cat rec_maintain
       else if fgeb score (of_int 60) then setitem recs cat rec_strengthen
       else if fgeb score (of_int 40) then setitem recs cat rec_basics
       else setitem recs cat rec_urgent)
    (items category_scores) empty.

End Engine.

End Scoring.

Import Scoring.
(* ================================================================== *)
(** * More of the Python runtime: strings, [min], tables *)

Module Builtins.

(** [s.replace(a, b)] for one-character [a] and [b]. *)
Fixpoint replace_char (a b : ascii) (s : string) : string :=
  match s with
  | EmptyString => EmptyString
  | String c s' => String (if Ascii.eqb c a then b else c) (replace_char a b s')
  end.

(** [sep.join(xs)] *)
Definition join (sep : string) (xs : list string) : string := String.concat sep xs.

(** [xs[:n]] *)
Definition slice_to {A : Type} (n : nat) (xs : list A) : list A := firstn n xs.

(** [xs[-k]] for [k >= 1]. *)
Definition index_from_end {A : Type} (xs : list A) (k : nat) : result A :=
  match k with
  | O => Raise IndexError
  | S k' => index (rev xs) k'
  end.

Section Floats.
Context {F : Type} {PF : PyFloat F}.

(** The scan of [min(xs, key=key)] once a first item is the best so far: an
    item replaces it when its key is strictly smaller. *)
Fixpoint min_scan {A : Type} (key : A -> F) (best : A) (rest : list A) : A :=
  match rest with
  | [] => best
  | x :: rest' =>
      if fltb (key x) (key best) then min_scan key x rest'
      else min_scan key best rest'
  end.

(** [min(xs, key=key)]; [None] stands for the [ValueError] of an empty
    iterable. *)
Definition min_by {A : Type} (key : A -> F) (xs : list A) : option A :=
  match xs with
  | [] => None
  | x :: rest => Some (min_scan key x rest)
  end.

(** [pd.notna(x)] for a float: it is not a NaN. *)
Definition notna (x : F) : bool := feqb x x.

(** [np.clip(x, lo, hi)]: [lo] below [lo], [hi] above [hi], [x] (a NaN
    included) otherwise. *)
Definition clip (x lo hi : F) : F :=
  if fltb x lo then lo else if fltb hi x then hi else x.
End Floats.

End Builtins.

Import Builtins.

(* ================================================================== *)
(** * app/app.py *)

Module App.

Section History.
Context {F : Type} {PF : PyFloat F}.

(** A row of [docs/assessments.csv] as [store_assessment] writes it: the
    columns the history block reads, and the flattened [cat_...] columns. *)
Record Assessment : Type := {
  timestamp : string;
  overall_score : F;
  band : string;
  category_columns : dict F
}.

Fixpoint insert_row (r : Assessment) (rows : list Assessment) : list Assessment :=
  match rows with
  | [] => [r]
  | r' :: rest =>
      if String.leb (timestamp r) (timestamp r') then r :: rows
      else r' :: insert_row r rest
  end.

(** [df.sort_values("timestamp")], for a column that [read_csv] has read as
    strings, which are compared as strings: this is the case of the ISO 8601
    timestamps that [store_assessment] writes, not of a column of numerals,
    which pandas reads and sorts as numbers.  Rows with equal timestamps
    keep their order here.  The properties of the trend are stated for
    histories of ISO 8601 timestamps, and where the order matters for
    histories without ties. *)
Definition sort_values_timestamp (df : list Assessment) : list Assessment :=
  fold_right insert_row [] df.

(** [df.tail(n)] *)
Definition tail (n : nat) (df : list Assessment) : list Assessment :=
  skipn (List.length df - n) df.

(** What the "Change since last assessment" metric shows. *)
Record Change : Type := {
  latest_score : F;
  prev_score : F;
  delta : F
}.

(** Lines 644-666 of [main]: the change in the overall score between the
    last two assessments of the organisation, when there are two. *)
Definition change_since_last (df_org : list Assessment) : result (option Change) :=
  if (0 <? List.length df_org)%nat then
    (* Sort by timestamp *)
    let df_org := sort_values_timestamp df_org in
    if (2 <=? List.length df_org)%nat then
      let last_two := tail 2 df_org in
      prev_score <- index (map overall_score last_two) 0 ;;
      latest_score <- index (map overall_score last_two) 1 ;;
      let delta := fsub latest_score prev_score in
      Ok (Some {| latest_score := latest_score;
                  prev_score := prev_score;
                  delta := delta |})
    else Ok None
  else Ok None.

End History.

Arguments Assessment F : clear implicits.
Arguments Change F : clear implicits.

(** ** Storing an assessment *)

(** [f"cat_{cat.replace(' ', '_').lower()}"], the column of a category in
    [docs/assessments.csv]; the trend code of [main] and of the PDF report
    builds the same name to read it back. *)
Definition category_column (cat : string) : string :=
  "cat_" ++ lower (replace_char " " "_" cat).

(** A cell of a row: a string or a number. *)
Inductive Cell (F : Type) : Type :=
| text (s : string)
| number (x : F).
Arguments text {F} s.
Arguments number {F} x.

Section Store.
Context {F : Type} {PF : PyFloat F}.

(** Lines 75-89 of [store_assessment]: the row appended to the file.  [now]
    is [datetime.utcnow().isoformat()]. *)
Definition assessment_row (now : string)
    (org_name org_type industry country email : option string)
    (overall_score : F) (band_label : string) (category_scores : dict F)
  : dict (Cell F) :=
  let row := display [
    ("timestamp", text now);
    ("org_name", text (or_empty org_name));
    ("org_type", text (or_empty org_type));
    ("industry", text (or_empty industry));
    ("country", text (or_empty country));
    ("email", text (or_empty email));
    ("overall_score", number overall_score);
    ("band", text band_label)
  ] in
  (* Flatten per-category scores *)
  fold_left
    (fun row item =>
       let '(cat, score) := item in
       let col_name := category_column cat in
       setitem row col_name (number score))
    (items category_scores) row.

(** Line 575 of [main]: [min(category_scores, key=category_scores.get)],
    the "weakest area". *)
Definition weakest_cat (category_scores : dict F) : option string :=
  min_by (fun cat => get_default category_scores cat (lit 0 0))
         (keys category_scores).
End Store.

(** ** The form *)

(** The list [CAT_LIST] at the top of [app.py]. *)
Definition CAT_LIST : list string := [
  "Governance & Policy";
  "Data Privacy & Protection";
  "Technical Controls & Monitoring";
  "Ethics & Societal Impact";
  "Organisational Readiness & Capability"
].

(** Lines 459-479 of [main]: the answers of the form.  [label q] is the
    option the widget of question [q] returns. *)
Definition form_responses (label : Question -> string) : result (dict Z) :=
  for_each CAT_LIST
    (fun responses cat =>
       for_each (filter (fun q => String.eqb (category q) cat) QUESTIONS)
         (fun responses q =>
            match qtype q with
            | likert =>
                v <- getitem LIKERT_OPTIONS (label q) ;;
                Ok (setitem responses (id q) v)
            | yesno =>
                v <- getitem YESNO_OPTIONS (label q) ;;
                Ok (setitem responses (id q) v)
            end)
         responses)
    empty.

(** ** Text signals *)

(** The dictionary [CAT_LIST] local to [analyse_text_signals]. *)
Definition SIGNAL_KEYWORDS : dict (list string) := [
  ("Governance & accountability",
   ["governance"; "board"; "oversight"; "committee"; "risk"; "policy"; "framework"]);
  ("Data protection & privacy",
   ["gdpr"; "data protection"; "dpo"; "privacy"; "dpi"; "dpia"; "consent";
    "data minimisation"; "retention"]);
  ("Technical controls & monitoring",
   ["monitoring"; "drift"; "versioning"; "mlflow"; "alert"; "testing"; "logging";
    "audit log"]);
  ("Ethics & societal impact",
   ["ethics"; "ethical"; "fairness"; "bias"; "inclusion"; "impact assessment";
    "human rights"]);
  ("Organisational readiness & skills",
   ["training"; "capability"; "upskilling"; "roles"; "accountabilities";
    "centre of excellence"; "playbook"])
].

Definition red_flag_phrases : list string := [
  "no policy";
  "not compliant";
  "no governance";
  "no oversight";
  "no consent"
].

(** [f"Mentions {cat.lower()} (e.g. {', '.join(hits[:3])})."] *)
Definition strength_message (cat : string) (hits : list string) : string :=
  "Mentions " ++ lower cat ++ " (e.g. " ++ join ", " (slice_to 3 hits) ++ ").".

(** [f"No explicit mention of {cat.lower()} – consider documenting how this
    is handled."] *)
Definition gap_message (cat : string) : string :=
  "No explicit mention of " ++ lower cat ++
  " – consider documenting how this is handled.".

(** [f"Potential red flag phrase detected: '{phrase}' – this area may need
    urgent review."] *)
Definition red_flag_message (phrase : string) : string :=
  "Potential red flag phrase detected: '" ++ phrase ++
  "' – this area may need urgent review.".

(** Very simple rule-based extraction of strengths and potential gaps from
    free text. *)
Definition analyse_text_signals (text : string) : dict (list string) :=
  let text_l := lower text in
  let CAT_LIST := SIGNAL_KEYWORDS in
  let '(strengths, present) :=
    fold_left
      (fun st item =>
         let '(strengths, present) := st in
         let '(cat, keywords) := item in
         let hits := filter (fun kw => str_in kw text_l) keywords in
         let present := setitem present cat (0 <? List.length hits)%nat in
         match hits with
         | [] => (strengths, present)
         | _ => ((strengths ++ [strength_message cat hits])%list, present)
         end)
      (items CAT_LIST) ([], empty) in
  let gaps :=
    fold_left
      (fun gaps item =>
         let '(cat, has_signal) := item in
         if negb has_signal then (gaps ++ [gap_message cat])%list else gaps)
      (items present) [] in
  let red_hits := filter (fun p => str_in p text_l) red_flag_phrases in
  let gaps :=
    fold_left (fun gaps phrase => (gaps ++ [red_flag_message phrase])%list)
              red_hits gaps in
  display [("strengths", strengths); ("gaps", gaps)].

End App.

Import App.

(* ================================================================== *)
(** * app/config.py *)

Module Config.

Section Weights.
Context {F : Type} {PF : PyFloat F}.

Definition CATEGORY_WEIGHTS : dict F := display [
  ("Governance & Policy", lit 30 2);
  ("Data Privacy & Protection", lit 25 2);
  ("Technical Controls & Monitoring", lit 20 2);
  ("Ethics & Societal Impact", lit 15 2);
  ("Organisational Readiness & Capability", lit 10 2)
].
End Weights.

Definition READINESS_BANDS : list (Z * Z * string * string) := [
  (80, 100, "AI Ready", "Strong governance and controls; low regulatory risk.");
  (60, 79, "Near Ready", "Solid foundation with some gaps to close.");
  (40, 59, "Emerging", "Foundational elements in place but significant weaknesses.");
  (0, 39, "High Risk", "Limited governance; urgent remediation required.")
].

End Config.

Import Config.

(* ================================================================== *)
(** * app/pdf_report.py *)

Module PdfReport.

Definition CAT_LIST : list string := [
  "Governance & Policy";
  "Data Privacy & Protection";
  "Technical Controls & Monitoring";
  "Ethics & Societal Impact";
  "Organisational Readiness & Capability"
].

(** Colours are named as the source names them. *)
Definition BAND_STYLES : dict (dict string) := [
  ("High risk", [("colour", "red"); ("label", "High risk")]);
  ("Emerging", [("colour", "orange"); ("label", "Emerging")]);
  ("Near-ready", [("colour", "#FFC107"); ("label", "Near-ready")]);
  ("Ready", [("colour", "green"); ("label", "Ready")])
].

(** Lines 74-75 of [build_pdf_report]: the colour of the band badge. *)
Definition band_colour (band_label : string) : result string :=
  let band_style := get_default BAND_STYLES band_label [("colour", "grey")] in
  getitem band_style "colour".

Section Report.
Context {F : Type} {PF : PyFloat F}.

(** Lines 149-165 of [build_pdf_report]: the rows of the category table
    after the header, each with the score it shows (before it is formatted
    to one decimal) and its status, and the background of each row. *)
Definition category_table (category_scores : dict F)
  : list (string * F * string) * list (nat * string) :=
  fst (fold_left
    (fun st item =>
       let '(table_data, row_styles, idx) := st in
       let '(cat, score) := item in
       let status :=
         if fgeb score (of_int 75) then "Strength"
         else if fgeb score (of_int 50) then "Developing"
         else "Priority gap" in
       let table_data := (table_data ++ [(cat, score, status)])%list in
       (* Row colour: light green / amber / red based on status *)
       let bg :=
         if fgeb score (of_int 75) then "#E6F4EA"
         else if fgeb score (of_int 50) then "#FFF4E5"
         else "#FDECEA" in
       (table_data, (row_styles ++ [(idx, bg)])%list, S idx))
    (items category_scores) ([], [], 1%nat)).

(** What the trend section of the report shows: the change of the overall
    score and the category rows (category, latest score, change), with the
    numbers before they are formatted to one decimal. *)
Record Trend : Type := {
  prev_overall : F;
  latest_overall : F;
  delta_overall : F;
  table_data : list (string * F * F)
}.

(** [df.columns] for the category columns: the columns some row has. *)
Definition has_column (df : list (Assessment F)) (col_name : string) : bool :=
  existsb (fun r => contains (category_columns r) col_name) df.

(** Lines 199-220 of [build_pdf_report] draw the chart of the overall score
    over time with [pd.to_datetime] and matplotlib, before any number of the
    section is computed.  What these libraries do with the rows is outside
    this model: [chart df] tells whether they complete on the sorted rows
    ([true]) or raise ([false]), as [pd.to_datetime] does on timestamps it
    cannot read in one format. *)
Variable chart : list (Assessment F) -> bool.

(** Lines 222-257: the numbers of the section, for the sorted rows. *)
Definition trend_numbers (df_org : list (Assessment F)) : result Trend :=
  (* Overall change since last assessment *)
  let last_two := tail 2 df_org in
  prev_overall <- index (map overall_score last_two) 0 ;;
  latest_overall <- index (map overall_score last_two) 1 ;;
  let delta_overall := fsub latest_overall prev_overall in
  (* Category trend summary table (latest vs previous) *)
  latest <- index_from_end df_org 1 ;;
  previous <- index_from_end df_org 2 ;;
  let table_data :=
    fold_left
      (fun table_data cat =>
         let col_name := "cat_" ++ lower (replace_char " " "_" cat) in
         if has_column df_org col_name then
           let latest_val := get (category_columns latest) col_name in
           let prev_val := get (category_columns previous) col_name in
           match latest_val, prev_val with
           | Some latest_val, Some prev_val =>
               if notna latest_val && notna prev_val then
                 let delta_cat := fsub latest_val prev_val in
                 (table_data ++ [(cat, latest_val, delta_cat)])%list
               else table_data
           | _, _ => table_data
           end
         else table_data)
      CAT_LIST [] in
  Ok {| prev_overall := prev_overall;
        latest_overall := latest_overall;
        delta_overall := delta_overall;
        table_data := table_data |}.

(** Lines 190-282, for the rows [df_org] of one email, whose score columns
    hold numbers or nothing (a cell that is missing from a row is what
    pandas reads as NaN): what the trend section shows, or [None] when the
    report has no such section.  The [try ... except Exception: pass] around
    the lines leaves the report without the section when the chart or the
    numbers raise. *)
Definition historical_trend (df_org : list (Assessment F)) : option Trend :=
  if (2 <=? List.length df_org)%nat then
    let df_org := sort_values_timestamp df_org in
    if chart df_org then
      match trend_numbers df_org with
      | Ok trend => Some trend
      | Raise _ => None
      end
    else None
  else None.
End Report.

Arguments Trend F : clear implicits.

End PdfReport.

Import PdfReport.

(* ================================================================== *)
(** * model/ml_prototype.py *)

Module Model.

Section Synthetic.
Context {F : Type} {PF : PyFloat F}.

(** Lines 27-35 of [generate_synthetic_data], for one row of the frame: the
    score before the noise is added. *)
Definition score (governance privacy technical ethics org_capability : Z) : F :=
  let base_score :=
    fadd (fadd (fadd (fadd (fmul (lit 30 2) (of_int governance))
                           (fmul (lit 25 2) (of_int privacy)))
                     (fmul (lit 20 2) (of_int technical)))
               (fmul (lit 15 2) (of_int ethics)))
         (fmul (lit 10 2) (of_int org_capability)) in
  fmul (fquot base_score (lit 5 0)) (lit 100 0).

(** Line 37: [np.clip(score + noise, 0, 100)]. *)
Definition readiness_score (governance privacy technical ethics org_capability : Z)
    (noise : F) : F :=
  clip (fadd (score governance privacy technical ethics org_capability) noise)
       (of_int 0) (of_int 100).
End Synthetic.

End Model.

Import Model.

(* ================================================================== *)
(** * Rounding in binary64: vocabulary

    The arithmetic of Python floats is that of the primitive floats, which
    the library specifies by the functions of [SpecFloat].  The order facts
    about sums and products are proved from that specification. *)

Module Rounding.

(** [m / 2^n] rounded to the nearest integer, a tie to the even one. *)
Definition rne (m n : Z) : Z :=
  let P := 2 ^ n in
  let q := m / P in
  let r := m mod P in
  match 2 * r ?= P with
  | Lt => q
  | Gt => q + 1
  | Eq => if Z.even q then q else q + 1
  end.

(** The binary64 number nearest to [m * 2^e], as the specification of the
    primitive floats computes it. *)
Definition round64 (m : positive) (e : Z) : spec_float :=
  binary_round_aux prec emax false (Zpos m) e loc_Exact.

(** The exponent [e] is not above the exponent the format gives a number
    of the size of [m * 2^e]. *)
Definition aligned (m : positive) (e : Z) : Prop :=
  e <= fexp prec emax (Zpos (digits2_pos m) + e).

(** Zero, a positive finite number or plus infinity. *)
Definition is_nonneg (x : spec_float) : bool :=
  match x with
  | S754_zero _ | S754_finite false _ _ | S754_infinity false => true
  | _ => false
  end.

(** Zero or a finite number. *)
Definition is_fin (x : spec_float) : bool :=
  match x with
  | S754_zero _ | S754_finite _ _ _ => true
  | _ => false
  end.

(** The value in units of [2^-1074], of which every finite binary64 number
    is a multiple. *)
Definition units (x : spec_float) : Z :=
  match x with
  | S754_finite false m e => Zpos m * 2 ^ (e + 1074)
  | _ => 0
  end.

End Rounding.

Import Rounding.

(* ================================================================== *)
(** * Properties: vocabulary *)

Module Props.

(** ** Inputs that stand for every input of the weight resolver

    [get_category_weights] looks at its two strings through seven keyword
    tests only.  [representatives] lists, for each of the 128 outcomes of
    the seven tests, a pair of strings with that outcome. *)

Definition org_type_of (public startup : bool) : string :=
  (if public then "Public " else "") ++ (if startup then "Startup" else "").

Definition industry_of (health finance retail education tech : bool) : string :=
  (if health then "Health " else "") ++ (if finance then "Bank " else "") ++
  (if retail then "Commerce " else "") ++ (if education then "School " else "") ++
  (if tech then "Tech" else "").

Definition representatives : list (option string * option string) :=
  let bs := [false; true] in
  flat_map (fun b1 => flat_map (fun b2 => flat_map (fun b3 => flat_map (fun b4 =>
  flat_map (fun b5 => flat_map (fun b6 => map (fun b7 =>
    (Some (org_type_of b1 b2), Some (industry_of b3 b4 b5 b6 b7)))
  bs) bs) bs) bs) bs) bs) bs.

(** ** The four score levels of the band and recommendation tables *)

Inductive Level : Type := Top | Upper | Lower | Bottom.

Definition band_label (lv : Level) : string :=
  match lv with
  | Top => "AI Ready"
  | Upper => "Near Ready"
  | Lower => "Emerging"
  | Bottom => "High Risk"
  end.

Definition band_description (lv : Level) : string :=
  match lv with
  | Top => "Strong governance and controls; low regulatory risk."
  | Upper => "Solid foundation with clear areas to strengthen."
  | Lower => "Foundational elements in place but significant weaknesses."
  | Bottom => "Limited governance; urgent remediation required."
  end.

(** The recommendation tiers: maintain and document, strengthen, prioritise
    basics, urgent remediation. *)
Definition recommendation (lv : Level) : string :=
  match lv with
  | Top => rec_maintain
  | Upper => rec_strengthen
  | Lower => rec_basics
  | Bottom => rec_urgent
  end.

Section Vocabulary.
Context {F : Type} {PF : PyFloat F}.

(** [score >= 80], [60 <= score < 80], [40 <= score < 60], [score < 40]. *)
Definition at_level (lv : Level) (score : F) : bool :=
  match lv with
  | Top => fleb (of_int 80) score
  | Upper => fleb (of_int 60) score && fltb score (of_int 80)
  | Lower => fleb (of_int 40) score && fltb score (of_int 60)
  | Bottom => fltb score (of_int 40)
  end.

(** The level the chain [if s >= 80 ... elif s >= 60 ... elif s >= 40 ...
    else ...] of [classify_band] and of [generate_recommendations] selects. *)
Definition level_of (score : F) : Level :=
  if fgeb score (of_int 80) then Top
  else if fgeb score (of_int 60) then Upper
  else if fgeb score (of_int 40) then Lower
  else Bottom.

(** What the thresholds 40, 60 and 80 need of the order at a score: [<] is
    the negation of [>=], and [>=] goes down from a threshold to the next. *)
Definition ordered_at (x : F) : Prop :=
  (forall c, In c [40; 60; 80] -> fltb x (of_int c) = negb (fleb (of_int c) x)) /\
  (fleb (of_int 80) x = true -> fleb (of_int 60) x = true) /\
  (fleb (of_int 60) x = true -> fleb (of_int 40) x = true).

(** [|x - y| <= tol] *)
Definition within (tol x y : F) : bool :=
  fleb (fsub x y) tol && fleb (fsub y x) tol.

Definition nonnegative (x : F) : bool := fleb (of_int 0) x.
Definition negative (x : F) : bool := fltb x (of_int 0).

(** A number that is at least zero and finite. *)
Definition in_range (x : F) : bool := nonnegative x && is_finite x.

(** The equal split of the fallback branch. *)
Definition equal_split : dict F :=
  map (fun cat => (cat, fquot (lit 1 0) (of_int 5))) CATEGORIES.

(** The answers a response set gives to the questions of a category, in
    catalog order. *)
Definition answers (responses : dict F) (cat : string) (questions : list Question)
  : list F :=
  flat_map
    (fun q =>
       if String.eqb (category q) cat then
         match get responses (id q) with
         | Some v => [v]
         | None => []
         end
       else [])
    questions.

(** [((sum / count) / 4.0) * 100.0], and 0 when nothing was answered. *)
Definition mean_score (xs : list F) : F :=
  match xs with
  | [] => lit 0 0
  | _ =>
      fmul (fquot (fquot (sum_plain xs) (of_int (Z.of_nat (List.length xs)))) (lit 4 0))
           (lit 100 0)
  end.

Definition formula_scores (responses : dict F) : dict F :=
  map (fun cat => (cat, mean_score (answers responses cat QUESTIONS))) CATEGORIES.

(** Every catalog question at its maximal value: 5 for a graded question,
    1 ("Yes") for a boolean one. *)
Definition all_max : dict F :=
  map (fun q =>
         (id q, match qtype q with
                | likert => of_int 5
                | yesno => of_int 1
                end))
      QUESTIONS.

(** The declared domains: a graded answer is a value of [LIKERT_OPTIONS],
    a boolean answer a value of [YESNO_OPTIONS]; a question may be left
    unanswered. *)
Definition domain (t : QType) : list Z :=
  match t with
  | likert => values LIKERT_OPTIONS
  | yesno => values YESNO_OPTIONS
  end.

Definition in_domain (responses : dict F) : bool :=
  forallb
    (fun q =>
       match get responses (id q) with
       | Some v => existsb (fun z => feqb v (of_int z)) (domain (qtype q))
       | None => true
       end)
    QUESTIONS.

(** [s] has the shape of [pattern], in which [d] stands for a digit and
    every other character for itself. *)
Fixpoint matches (pattern s : string) : bool :=
  match pattern, s with
  | EmptyString, EmptyString => true
  | String p pattern', String c s' =>
      (if Ascii.eqb p "d"
       then (48 <=? nat_of_ascii c)%nat && (nat_of_ascii c <=? 57)%nat
       else Ascii.eqb p c)
      && matches pattern' s'
  | _, _ => false
  end.

(** The two shapes of [datetime.utcnow().isoformat()]: date and time, and
    the microseconds unless they are zero. *)
Definition isoformat (s : string) : bool :=
  matches "dddd-dd-ddTdd:dd:dd" s || matches "dddd-dd-ddTdd:dd:dd.dddddd" s.

(** Two response sets agree on the catalog. *)
Definition agree_on_catalog (r1 r2 : dict F) : Prop :=
  forall q, In q QUESTIONS -> get r1 (id q) = get r2 (id q).


(** Every timestamp of the history has a shape of [datetime.isoformat()],
    as [store_assessment] writes it. *)
Definition dated (df : list (Assessment F)) : bool :=
  forallb (fun r => isoformat (timestamp r)) df.


End Vocabulary.

(** A loop [for k, x in d.items(): out[k] = f(x)] over a dictionary. *)
Definition store_each {V W : Type} (f : W -> V) (d : dict W) (out : dict V) : dict V :=
  fold_left (fun out item => setitem out (fst item) (f (snd item))) d out.

(** ** Two histories that differ in a category column only *)

Definition history_a : list (Assessment float) := [
  {| timestamp := "2024-01-10T09:00:00.000000";
     overall_score := 50%float;
     band := "Emerging";
     category_columns := [("cat_governance_&_policy", 40%float)] |};
  {| timestamp := "2024-06-10T09:00:00.000000";
     overall_score := 65%float;
     band := "Near Ready";
     category_columns := [("cat_governance_&_policy", 60%float)] |}
].



(** ** Decidable checks on the weights of one pair of inputs *)

(** [list(d.keys()) == ks] *)
Definition keys_are (ks : list string) {V : Type} (d : dict V) : bool :=
  if list_eq_dec string_dec (keys d) ks then true else false.

(** The vector returned for adjusted weights [a] has the five categories as
    keys and sums to 1.0 within 1e-9. *)
Definition normalised_ok (py : CPython) (a : result (dict float)) : bool :=
  match bind a (renormalise py) with
  | Ok w =>
      keys_are CATEGORIES w &&
      within (lit 1 9) (sum_plain (values w)) (lit 1 0) &&
      within (lit 1 9) (sum_compensated (values w)) (lit 1 0)
  | Raise _ => false
  end.

(** The adjusted weights exist, are keyed by the five categories and none of
    them is below zero. *)
Definition adjusted_ok (a : result (dict float)) : bool :=
  match a with
  | Ok pre =>
      keys_are CATEGORIES pre &&
      forallb nonnegative (values pre) &&
      forallb (fun v => negb (negative v)) (values pre)
  | Raise _ => false
  end.

(** The sum of the adjusted weights is within 1e-15 of 1.0 or of 1.05 and
    above zero, and no weight of the vector returned is below zero. *)
Definition resolver_ok (py : CPython) (a : result (dict float)) : bool :=
  match a with
  | Ok pre =>
      let total := sum py (values pre) in
      (within (lit 1 15) total (lit 1 0) || within (lit 1 15) total (lit 105 2)) &&
      negb (fleb total (of_int 0)) &&
      match renormalise py pre with
      | Ok w => forallb nonnegative (values w)
      | Raise _ => false
      end
  | Raise _ => false
  end.

(** In exact arithmetic the sum of the adjusted weights is 1 or 21/20. *)
Definition exact_total_ok (a : result (dict Q)) : bool :=
  match a with
  | Ok pre =>
      forallb (fun py => Qeq_bool (sum py (values pre)) 1 ||
                         Qeq_bool (sum py (values pre)) (21 # 20))
              [Before_3_12; From_3_12]
  | Raise _ => false
  end.

End Props.

Import Props.

(* ================================================================== *)
(** * Further properties: vocabulary *)

Module MoreProps.

Section Vocabulary.
Context {F : Type} {PF : PyFloat F}.

(** Every answer given to a catalog question is a value of the options of
    its kind. *)
Definition answers_in_domain (responses : dict F) : Prop :=
  forall q v,
    In q QUESTIONS -> get responses (id q) = Some v ->
    exists z, In z (domain (qtype q)) /\ v = of_int z.

(** No question of the category is answered. *)
Definition unanswered (responses : dict F) (cat : string) : Prop :=
  forall q, In q QUESTIONS -> category q = cat -> get responses (id q) = None.

(** The weights a vector gives to the five categories, added up. *)
Definition weight_total (weights : dict F) : F :=
  fold_left (fun total cat => fadd total (get_default weights cat (lit 0 0)))
            CATEGORIES (lit 0 0).

(** [lo <= x <= hi] *)
Definition between (lo hi x : F) : bool := fleb lo x && fleb x hi.
End Vocabulary.

(** None of the seven keyword tests of [get_category_weights] succeeds. *)
Definition no_keyword (org_type industry : option string) : bool :=
  let t := lower (or_empty org_type) in
  let ind := lower (or_empty industry) in
  negb (any_in ["public"; "government"; "gov"; "ngo"; "non-profit"; "charity"] t) &&
  negb (any_in ["startup"; "scaleup"; "scale-up"; "high growth"] t) &&
  negb (str_in "health" ind || str_in "life science" ind || str_in "pharma" ind) &&
  negb (str_in "financ" ind || str_in "bank" ind || str_in "insur" ind
        || str_in "asset" ind) &&
  negb (str_in "retail" ind || str_in "commerce" ind || str_in "e-commerce" ind
        || str_in "ecommerce" ind) &&
  negb (str_in "educat" ind || str_in "school" ind || str_in "university" ind
        || str_in "college" ind) &&
  negb (str_in "tech" ind || str_in "software" ind || str_in "ai" ind
        || str_in "digital" ind).

(** In exact arithmetic the vector returned for adjusted weights [a] has no
    weight below zero and gives the five categories a total of 1. *)
Definition exact_weights_ok (py : CPython) (a : result (dict Q)) : bool :=
  match bind a (renormalise py) with
  | Ok w =>
      forallb (fun cat => Qle_bool (lit 0 0) (get_default w cat (lit 0 0)))
              CATEGORIES &&
      Qeq_bool (weight_total w) (lit 1 0)
  | Raise _ => false
  end.

(** The keywords of a list that occur in a text, whatever its case. *)
Definition hits (text : string) (keywords : list string) : list string :=
  filter (fun kw => str_in kw (lower text)) keywords.

(** One message for each category of [SIGNAL_KEYWORDS] with a keyword in
    the text, in order. *)
Definition strengths_of (text : string) : list string :=
  flat_map
    (fun item =>
       match hits text (snd item) with
       | [] => []
       | _ => [strength_message (fst item) (hits text (snd item))]
       end)
    SIGNAL_KEYWORDS.

(** One message for each category without a keyword in the text. *)
Definition category_gaps (text : string) : list string :=
  flat_map
    (fun item =>
       match hits text (snd item) with
       | [] => [gap_message (fst item)]
       | _ => []
       end)
    SIGNAL_KEYWORDS.

(** The red-flag phrases that occur in the text. *)
Definition red_flags (text : string) : list string :=
  filter (fun p => str_in p (lower text)) red_flag_phrases.

(** The red-flag phrases that contain a keyword of a category, with that
    category. *)
Definition red_flag_topics : list (string * string) := [
  ("no policy", "Governance & accountability");
  ("no governance", "Governance & accountability");
  ("no oversight", "Governance & accountability");
  ("no consent", "Data protection & privacy")
].

(** The columns [store_assessment] always writes, in order. *)
Definition fixed_columns : list string :=
  ["timestamp"; "org_name"; "org_type"; "industry"; "country"; "email";
   "overall_score"; "band"].

(** The status and the background the loop of the category table gives a
    score. *)
Definition table_status {F : Type} {PF : PyFloat F} (score : F) : string :=
  if fgeb score (of_int 75) then "Strength"
  else if fgeb score (of_int 50) then "Developing"
  else "Priority gap".

Definition table_background {F : Type} {PF : PyFloat F} (score : F) : string :=
  if fgeb score (of_int 75) then "#E6F4EA"
  else if fgeb score (of_int 50) then "#FFF4E5"
  else "#FDECEA".


(** The option table of a kind of question. *)
Definition options (t : QType) : dict Z :=
  match t with
  | likert => LIKERT_OPTIONS
  | yesno => YESNO_OPTIONS
  end.

(** The integer answers of the form as the numbers the engine adds up. *)
Definition as_numbers {F : Type} {PF : PyFloat F} (responses : dict Z) : dict F :=
  map (fun item => (fst item, of_int (snd item))) responses.

(** Every question of the catalog is answered. *)
Definition complete {F : Type} (responses : dict F) : Prop :=
  forall q, In q QUESTIONS -> get responses (id q) <> None.

(** The interval of the score of each category when every question is
    answered with a value of its options: two boolean questions and a graded
    one for the first category, a graded and a boolean one for the second
    and the fifth, two graded ones for the third and the fourth. *)
Definition complete_ranges : dict (float * float) := [
  ("Governance & Policy", (lit 83 1, lit 584 1));
  ("Data Privacy & Protection", (lit 125 1, lit 75 0));
  ("Technical Controls & Monitoring", (lit 25 0, lit 125 0));
  ("Ethics & Societal Impact", (lit 25 0, lit 125 0));
  ("Organisational Readiness & Capability", (lit 125 1, lit 75 0))
].

(** The ways of answering a list of questions, each with a value of its
    options. *)
Fixpoint combos (qs : list Question) : list (list Z) :=
  match qs with
  | [] => [[]]
  | q :: qs' => flat_map (fun z => map (cons z) (combos qs')) (domain (qtype q))
  end.

(** The scores a category can get when all its questions are answered. *)
Definition complete_scores : list (string * float) :=
  flat_map
    (fun cat =>
       map (fun zs => (cat, mean_score (map of_int zs)))
           (combos (filter (fun q => String.eqb (category q) cat) QUESTIONS)))
    CATEGORIES.

(** The dictionary that gives every category the score [x]. *)
Definition all_at {F : Type} (x : F) : dict F := map (fun cat => (cat, x)) CATEGORIES.

(** Two upper bounds of the category scores, 100 and the 125 that the
    normaliser reaches, each with the bound of the overall score: two units
    in the last place above it. *)
Definition scale_bounds : list (float * float) :=
  [(100%float, 100.00000000000003%float); (125%float, 125.00000000000003%float)].

(** The weights returned for adjusted weights [a] are finite and at least
    zero, and with them five scores at an upper bound give an overall score
    of at most the bound that goes with it. *)
Definition overall_scale_ok (py : CPython) (a : result (dict float)) : bool :=
  match bind a (renormalise py) with
  | Ok w =>
      forallb (fun cat => in_range (get_default w cat (lit 0 0))) CATEGORIES &&
      forallb
        (fun hb =>
           match weighted_overall (all_at (fst hb)) w with
           | Ok overall => fleb overall (snd hb)
           | Raise _ => false
           end)
        scale_bounds
  | Raise _ => false
  end.

(** The integers [lo], [lo + 1], ..., [hi]. *)
Definition zrange (lo hi : Z) : list Z :=
  map (fun k => lo + Z.of_nat k) (seq 0 (Z.to_nat (hi + 1 - lo))).

(** A property holds of every row the generator can draw: each of the five
    inputs is one of 1..5. *)
Definition all_graded (f : Z -> Z -> Z -> Z -> Z -> bool) : bool :=
  forallb (fun g => forallb (fun p => forallb (fun t => forallb (fun e =>
  forallb (fun o => f g p t e o)
  (zrange 1 5)) (zrange 1 5)) (zrange 1 5)) (zrange 1 5)) (zrange 1 5).

(** The synthetic score of a row is in [20,100] and the clipping alone
    leaves it as it is. *)
Definition synthetic_score_ok (g p t e o : Z) : bool :=
  between (of_int 20) (of_int 100) (score g p t e o : float) &&
  PrimFloat.Leibniz.eqb (readiness_score g p t e o (lit 0 0)) (score g p t e o).

(** [classify_band] gives every integer score of a row of [READINESS_BANDS]
    the label of the row, and its description unless the row is "Near
    Ready". *)
Definition row_agrees (row : Z * Z * string * string) : bool :=
  let '(lo, hi, label, desc) := row in
  forallb
    (fun n =>
       String.eqb (fst (classify_band (of_int n : float))) label &&
       Bool.eqb (String.eqb (snd (classify_band (of_int n : float))) desc)
                (negb (String.eqb label "Near Ready")))
    (zrange lo hi).

End MoreProps.

Import MoreProps.

(* ================================================================== *)
(** * Dictionaries and loops *)

Section DictFacts.
Context {V : Type}.
Implicit Types (d : dict V) (k : string) (v : V).

Lemma get_setitem_eq d k v : get (setitem d k v) k = Some v.
Proof.
  induction d as [|[k' v'] d IH]; simpl.
  - now rewrite String.eqb_refl.
  - destruct (String.eqb k' k) eqn:E; simpl; rewrite E; auto.
Qed.

Lemma get_setitem_neq d k k' v : k <> k' -> get (setitem d k v) k' = get d k'.
Proof.
  intros Hne. induction d as [|[k0 v0] d IH]; simpl.
  - apply String.eqb_neq in Hne. now rewrite Hne.
  - destruct (String.eqb k0 k) eqn:E; simpl.
    + apply String.eqb_eq in E. subst k0.
      apply String.eqb_neq in Hne. now rewrite Hne.
    + now rewrite IH.
Qed.

Lemma keys_setitem_present d k v v0 :
  get d k = Some v0 -> keys (setitem d k v) = keys d.
Proof.
  unfold keys. induction d as [|[k0 v1] d IH]; simpl; [discriminate|].
  destruct (String.eqb k0 k) eqn:E; simpl; [reflexivity|].
  intros Hg. now rewrite IH.
Qed.

Lemma get_in_values d k v : get d k = Some v -> In v (values d).
Proof.
  unfold values. induction d as [|[k0 v0] d IH]; simpl; [discriminate|].
  destruct (String.eqb k0 k); intros Hg; [left; congruence | right; auto].
Qed.

Lemma getitem_get d k v : getitem d k = Ok v <-> get d k = Some v.
Proof.
  unfold getitem. destruct (get d k); split; congruence.
Qed.

Lemma contains_get d k : contains d k = true <-> exists v, get d k = Some v.
Proof.
  unfold contains. destruct (get d k) as [v|]; split; intros H; eauto.
  - discriminate.
  - destruct H; discriminate.
Qed.
Lemma get_absent d k : ~ In k (keys d) -> get d k = None.
Proof.
  unfold keys. induction d as [|[k0 v0] d IH]; simpl; [reflexivity|].
  intros Hn. destruct (String.eqb k0 k) eqn:E.
  - apply String.eqb_eq in E. tauto.
  - apply IH. tauto.
Qed.

Lemma setitem_absent d k v :
  ~ In k (keys d) -> setitem d k v = (d ++ [(k, v)])%list.
Proof.
  unfold keys. induction d as [|[k0 v0] d IH]; simpl; [reflexivity|].
  intros Hn. destruct (String.eqb k0 k) eqn:E.
  - apply String.eqb_eq in E. tauto.
  - rewrite IH; tauto.
Qed.
End DictFacts.

(* ================================================================== *)
(** * Literals *)

(** The decimal constants of the engine, written with [lit], are the
    binary64 numbers nearest to them. *)
Lemma literals_binary64 :
  map (fun m => lit m 2) [30; 25; 20; 15; 10; 6; 5; 4; 3; 2] =
  [0.30; 0.25; 0.20; 0.15; 0.10; 0.06; 0.05; 0.04; 0.03; 0.02]%float /\
  map (fun m => lit m 0) [0; 1; 4; 40; 60; 80; 100] =
  [0; 1; 4; 40; 60; 80; 100]%float /\
  (lit 79999 3, lit 39999 3, lit 1 9, lit 1 15) =
  (79.999, 39.999, 1e-9, 1e-15)%float.
Proof. repeat split; vm_compute; reflexivity. Qed.

(* ================================================================== *)
(** * The weight resolver *)

Section Representatives.
Context {F : Type} {PF : PyFloat F}.

(** The adjusted weights of any two strings are those of the pair of
    strings built from the outcomes of the seven keyword tests. *)
Lemma adjusted_weights_flags (org_type industry : option string) :
  exists b1 b2 b3 b4 b5 b6 b7 : bool,
    adjusted_weights (F:=F) org_type industry =
    adjusted_weights (Some (org_type_of b1 b2)) (Some (industry_of b3 b4 b5 b6 b7)).
Proof.
  unfold adjusted_weights at 1.
  set (t := lower (or_empty org_type)).
  set (ind := lower (or_empty industry)).
  set (c1 := any_in _ t). set (c2 := any_in _ t).
  set (c3 := (str_in "health" ind || _ || _)%bool).
  set (c4 := (str_in "financ" ind || _ || _ || _)%bool).
  set (c5 := (str_in "retail" ind || _ || _ || _)%bool).
  set (c6 := (str_in "educat" ind || _ || _ || _)%bool).
  set (c7 := (str_in "tech" ind || _ || _ || _)%bool).
  exists c1, c2, c3, c4, c5, c6, c7.
  clearbody c1 c2 c3 c4 c5 c6 c7.
  destruct c1, c2, c3, c4, c5, c6, c7; reflexivity.
Qed.

Lemma in_bools (b : bool) : In b [false; true].
Proof. destruct b; simpl; auto. Qed.

Lemma flags_in_representatives (b1 b2 b3 b4 b5 b6 b7 : bool) :
  In (Some (org_type_of b1 b2), Some (industry_of b3 b4 b5 b6 b7)) representatives.
Proof.
  unfold representatives.
  apply in_flat_map; exists b1; split; [apply in_bools|].
  apply in_flat_map; exists b2; split; [apply in_bools|].
  apply in_flat_map; exists b3; split; [apply in_bools|].
  apply in_flat_map; exists b4; split; [apply in_bools|].
  apply in_flat_map; exists b5; split; [apply in_bools|].
  apply in_flat_map; exists b6; split; [apply in_bools|].
  apply in_map_iff; exists b7; split; [reflexivity | apply in_bools].
Qed.

(** A decidable property of the adjusted weights holds for all strings
    once it holds on the representatives. *)
Lemma by_representatives (P : result (dict F) -> bool) :
  forallb (fun r => P (adjusted_weights (fst r) (snd r))) representatives = true ->
  forall org_type industry, P (adjusted_weights org_type industry) = true.
Proof.
  intros Hall org_type industry.
  destruct (adjusted_weights_flags org_type industry)
    as (b1 & b2 & b3 & b4 & b5 & b6 & b7 & ->).
  rewrite forallb_forall in Hall.
  apply (Hall _ (flags_in_representatives b1 b2 b3 b4 b5 b6 b7)).
Qed.
End Representatives.

Lemma keys_are_true ks V (d : dict V) : keys_are ks d = true -> keys d = ks.
Proof. unfold keys_are. destruct (list_eq_dec string_dec (keys d) ks); congruence. Qed.

(** C3. For every organisation type and sector the weight resolver returns,
    without raising, a vector whose keys are the five categories and whose
    values sum to 1.0 within 1e-9 (in binary64, under either summation); and
    weights whose sum before the normalisation is zero or negative are
    replaced by the equal 1/5 split. *)
Theorem weights_sum_to_one (py : CPython) :
  (forall org_type industry : option string,
      exists w : dict float,
        get_category_weights py org_type industry = Ok w /\
        keys w = CATEGORIES /\
        within (lit 1 9) (sum_plain (values w)) (lit 1 0) = true /\
        within (lit 1 9) (sum_compensated (values w)) (lit 1 0) = true) /\
  (forall weights : dict float,
      fleb (sum py (values weights)) (of_int 0) = true ->
      renormalise py weights = Ok equal_split).
Proof.
  split.
  - intros org_type industry.
    assert (H : normalised_ok py (adjusted_weights org_type industry) = true)
      by (apply by_representatives; destruct py; vm_compute; reflexivity).
    unfold normalised_ok in H.
    change (bind (adjusted_weights org_type industry) (renormalise py))
      with (get_category_weights (F:=float) py org_type industry) in H.
    destruct (get_category_weights py org_type industry) as [w|e]; [|discriminate].
    rewrite !andb_true_iff in H. destruct H as [[Hk Hs] Hc].
    exists w. auto using keys_are_true.
  - intros weights Hle. unfold renormalise. rewrite Hle. reflexivity.
Qed.

Lemma weights_sum_to_one_witness :
  renormalise (F:=float) From_3_12 [("a", (-1)%float); ("b", 0.5%float)] =
  Ok equal_split.
Proof.
  apply (proj2 (weights_sum_to_one From_3_12)). reflexivity.
Defined.

Lemma adjusted_weights_ok (org_type industry : option string) :
  adjusted_ok (adjusted_weights org_type industry) = true.
Proof. apply by_representatives. vm_compute. reflexivity. Qed.

(** C6, refuted as stated: no organisation type and sector drive any weight
    strictly below zero before the normalisation. *)
Lemma no_negative_adjusted_weight :
  ~ exists (org_type industry : option string) (pre : dict float) (cat : string)
      (v : float),
      adjusted_weights org_type industry = Ok pre /\
      get pre cat = Some v /\
      negative v = true.
Proof.
  intros (org_type & industry & pre & cat & v & Hpre & Hget & Hneg).
  pose proof (adjusted_weights_ok org_type industry) as H.
  rewrite Hpre in H. unfold adjusted_ok in H.
  apply andb_true_iff in H. destruct H as [_ H].
  rewrite forallb_forall in H.
  specialize (H v (get_in_values _ _ Hget)).
  apply negb_true_iff in H. congruence.
Qed.

(** C6, amended. For every organisation type and sector each of the five
    weights is at least zero before the normalisation, and zero is reached:
    "Public" with "Health" leaves organisational readiness at exactly 0, and
    "Startup" with a sector matching finance, retail and technology leaves
    ethics at exactly 0. *)
Theorem adjusted_weights_reach_zero_only :
  (forall org_type industry : option string,
      exists pre : dict float,
        adjusted_weights org_type industry = Ok pre /\
        keys pre = CATEGORIES /\
        Forall (fun v => nonnegative v = true /\ negative v = false) (values pre)) /\
  (exists pre : dict float,
      adjusted_weights (Some "Public") (Some "Health") = Ok pre /\
      get pre "Organisational Readiness & Capability" = Some (lit 0 0)) /\
  (exists pre : dict float,
      adjusted_weights (Some "Startup") (Some "Retail bank software") = Ok pre /\
      get pre "Ethics & Societal Impact" = Some (lit 0 0)).
Proof.
  split; [|split].
  - intros org_type industry.
    pose proof (adjusted_weights_ok org_type industry) as H.
    destruct (adjusted_weights org_type industry) as [pre|e]; [|discriminate].
    unfold adjusted_ok in H. rewrite !andb_true_iff in H. destruct H as [[Hk Hn] Hm].
    exists pre. split; [reflexivity|]. split; [now apply keys_are_true|].
    rewrite forallb_forall in Hn, Hm. apply Forall_forall. intros v Hv.
    split; [auto|]. specialize (Hm v Hv). now apply negb_true_iff.
  - eexists. split; vm_compute; reflexivity.
  - eexists. split; vm_compute; reflexivity.
Qed.

(** C9, refuted as stated: for a public sector startup in health insurance
    technology (the public, startup, healthcare, finance and technology
    rules apply) the binary64 sum of the five weights before the
    normalisation is 1.0499999999999998 under either summation, neither 1.0
    nor 1.05; for the sector "Education" alone the plain sum is
    1.0000000000000002. *)
Lemma total_is_rounded :
  (forall py : CPython,
      exists pre : dict float,
        adjusted_weights (Some "Public sector startup")
                         (Some "Health insurance technology") = Ok pre /\
        sum py (values pre) = 1.0499999999999998%float /\
        feqb (sum py (values pre)) (lit 1 0) = false /\
        feqb (sum py (values pre)) (lit 105 2) = false) /\
  (exists pre : dict float,
      adjusted_weights None (Some "Education") = Ok pre /\
      sum Before_3_12 (values pre) = 1.0000000000000002%float).
Proof.
  split.
  - intros py. eexists. split; [vm_compute; reflexivity|].
    destruct py; repeat split; vm_compute; reflexivity.
  - eexists. split; vm_compute; reflexivity.
Qed.

(** C9, amended. For every organisation type and sector: no weight is below
    zero before the normalisation, and exactly zero is reached; the sum of
    the five weights before the normalisation is 1.0 or 1.05 up to rounding
    (within 1e-15 in binary64, and exactly 1 or 21/20 in exact arithmetic);
    it is never zero or negative, so the equal-split branch is not taken; and
    every weight returned is at least zero. *)
Theorem weights_never_negative (py : CPython) :
  (forall org_type industry : option string,
      exists pre w : dict float,
        adjusted_weights org_type industry = Ok pre /\
        Forall (fun v => nonnegative v = true) (values pre) /\
        (within (lit 1 15) (sum py (values pre)) (lit 1 0) = true \/
         within (lit 1 15) (sum py (values pre)) (lit 105 2) = true) /\
        fleb (sum py (values pre)) (of_int 0) = false /\
        get_category_weights py org_type industry = Ok w /\
        Forall (fun v => nonnegative v = true) (values w)) /\
  (exists pre : dict float,
      adjusted_weights (Some "Public") (Some "Health") = Ok pre /\
      In (lit 0 0) (values pre)) /\
  (forall org_type industry : option string,
      exists pre : dict Q,
        adjusted_weights org_type industry = Ok pre /\
        (sum py (values pre) == 1 \/ sum py (values pre) == 21 # 20)%Q).
Proof.
  split; [|split].
  - intros org_type industry.
    assert (H : resolver_ok py (adjusted_weights org_type industry) = true)
      by (apply by_representatives; destruct py; vm_compute; reflexivity).
    pose proof (adjusted_weights_ok org_type industry) as Hadj.
    unfold get_category_weights.
    destruct (adjusted_weights org_type industry) as [pre|e]; [|discriminate].
    unfold resolver_ok in H. unfold adjusted_ok in Hadj. unfold bind.
    rewrite !andb_true_iff in H, Hadj. destruct H as [[Hs Hpos] Hw].
    destruct Hadj as [[_ Hn] _].
    destruct (renormalise py pre) as [w|e]; [|discriminate].
    exists pre, w. split; [reflexivity|].
    split; [now apply Forall_forall; rewrite forallb_forall in Hn|].
    split; [now apply orb_true_iff|].
    split; [now apply negb_true_iff|].
    split; [reflexivity|].
    apply Forall_forall. now rewrite forallb_forall in Hw.
  - eexists. split; [vm_compute; reflexivity|]. vm_compute. tauto.
  - intros org_type industry.
    assert (H : exact_total_ok (adjusted_weights org_type industry) = true)
      by (apply by_representatives; vm_compute; reflexivity).
    destruct (adjusted_weights org_type industry) as [pre|e]; [|discriminate].
    exists pre. split; [reflexivity|].
    unfold exact_total_ok in H. rewrite forallb_forall in H.
    assert (Hpy : In py [Before_3_12; From_3_12]) by (destruct py; simpl; auto).
    specialize (H py Hpy). apply orb_true_iff in H.
    destruct H as [H|H]; apply Qeq_bool_iff in H; auto.
Qed.

(* ================================================================== *)
(** * Bands and recommendation tiers *)

Section Levels.
Context {F : Type} {PF : PyFloat F}.

Lemma classify_band_level (x : F) :
  classify_band x = (band_label (level_of x), band_description (level_of x)).
Proof.
  unfold classify_band, level_of.
  destruct (fgeb x (of_int 80)); [reflexivity|].
  destruct (fgeb x (of_int 60)); [reflexivity|].
  destruct (fgeb x (of_int 40)); reflexivity.
Qed.

Lemma level_of_iff (x : F) (lv : Level) :
  ordered_at x -> level_of x = lv <-> at_level lv x = true.
Proof.
  intros (Hlt & H86 & H64).
  pose proof (Hlt 40 (or_introl eq_refl)) as L40.
  pose proof (Hlt 60 (or_intror (or_introl eq_refl))) as L60.
  pose proof (Hlt 80 (or_intror (or_intror (or_introl eq_refl)))) as L80.
  unfold level_of, fgeb, at_level. rewrite L40, L60, L80.
  destruct (fleb (of_int 80) x) eqn:E80.
  - rewrite (H64 (H86 eq_refl)), (H86 eq_refl).
    destruct lv; simpl; split; congruence.
  - destruct (fleb (of_int 60) x) eqn:E60.
    + rewrite (H64 eq_refl). destruct lv; simpl; split; congruence.
    + destruct (fleb (of_int 40) x) eqn:E40;
        destruct lv; simpl; split; congruence.
Qed.

Lemma band_label_inj (a b : Level) : band_label a = band_label b -> a = b.
Proof. destruct a, b; simpl; intros H; reflexivity || discriminate H. Qed.

Lemma recommendation_inj (a b : Level) : recommendation a = recommendation b -> a = b.
Proof. destruct a, b; simpl; intros H; reflexivity || discriminate H. Qed.

(** [generate_recommendations] stores, for each item, the text of the level
    of its score. *)
Lemma generate_recommendations_fold (category_scores : dict F) :
  generate_recommendations category_scores =
  fold_left (fun recs item => setitem recs (fst item) (recommendation (level_of (snd item))))
            category_scores empty.
Proof.
  unfold generate_recommendations, items. generalize (@empty string).
  induction category_scores as [|[cat score] d IH]; intros recs; simpl; [reflexivity|].
  rewrite IH. f_equal. unfold level_of.
  destruct (fgeb score (of_int 80)); [reflexivity|].
  destruct (fgeb score (of_int 60)); [reflexivity|].
  destruct (fgeb score (of_int 40)); reflexivity.
Qed.
End Levels.

Section DictLoops.
Context {V W : Type}.

Lemma store_each_get (f : W -> V) (d : dict W) (out : dict V) (k : string) :
  NoDup (keys d) ->
  get (store_each f d out) k =
  match get d k with
  | Some x => Some (f x)
  | None => get out k
  end.
Proof.
  unfold store_each. revert out.
  induction d as [|[k0 x0] d IH]; intros out Hnd; simpl; [reflexivity|].
  inversion Hnd as [|? ? Hnotin Hnd']; subst.
  rewrite (IH _ Hnd').
  destruct (String.eqb k0 k) eqn:E.
  - apply String.eqb_eq in E. subst k0.
    rewrite get_absent by exact Hnotin. apply get_setitem_eq.
  - destruct (get d k); [reflexivity|].
    apply get_setitem_neq. now apply String.eqb_neq.
Qed.

Lemma store_each_keys (f : W -> V) (d : dict W) (out : dict V) :
  NoDup (keys out ++ keys d)%list ->
  keys (store_each f d out) = (keys out ++ keys d)%list.
Proof.
  unfold store_each. revert out.
  induction d as [|[k0 x0] d IH]; intros out Hnd; simpl.
  - now rewrite app_nil_r.
  - assert (Hk : ~ In k0 (keys out)).
    { intros Hin. apply NoDup_remove_2 in Hnd. apply Hnd.
      apply in_or_app. now left. }
    simpl in Hnd. rewrite setitem_absent by exact Hk.
    rewrite IH; unfold keys in *; rewrite map_app; simpl; rewrite <- app_assoc; auto.
Qed.
End DictLoops.

(* ================================================================== *)
(** * The order of binary64 at the thresholds *)

Lemma not_nan_spec (x : float) : is_nan x = false -> Prim2SF x <> S754_nan.
Proof.
  unfold is_nan. rewrite eqb_spec. intros H E. rewrite E in H. discriminate.
Qed.

Lemma SFcompare_positive (m1 : positive) (e1 : Z) (m2 : positive) (e2 : Z) :
  SFcompare (S754_finite false m1 e1) (S754_finite false m2 e2) =
  Some match e1 ?= e2 with
       | Eq => (m1 ?= m2)%positive
       | Lt => Lt
       | Gt => Gt
       end.
Proof. reflexivity. Qed.

(** Below a positive finite threshold is the negation of at or above it,
    for every float that is a number. *)
Lemma ltb_negb_leb (c x : float) (m : positive) (e : Z) :
  Prim2SF c = S754_finite false m e ->
  is_nan x = false ->
  PrimFloat.ltb x c = negb (PrimFloat.leb c x).
Proof.
  intros Hc Hx. apply not_nan_spec in Hx.
  rewrite ltb_spec, leb_spec, Hc. unfold SFltb, SFleb.
  destruct (Prim2SF x) as [s | s | | s m' e']; try congruence.
  - reflexivity.
  - destruct s; reflexivity.
  - destruct s; [reflexivity|].
    rewrite !SFcompare_positive.
    rewrite (Z.compare_antisym e e'). destruct (e ?= e'); simpl; try reflexivity.
    rewrite (Pos.compare_antisym m m'). destruct (m ?= m')%positive; reflexivity.
Qed.

(** At or above a positive finite threshold is at or above a smaller one. *)
Lemma leb_lower_threshold (c1 c2 x : float) (m1 : positive) (e1 : Z)
    (m2 : positive) (e2 : Z) :
  Prim2SF c1 = S754_finite false m1 e1 ->
  Prim2SF c2 = S754_finite false m2 e2 ->
  e2 < e1 \/ (e2 = e1 /\ (m2 <= m1)%positive) ->
  PrimFloat.leb c1 x = true -> PrimFloat.leb c2 x = true.
Proof.
  intros H1 H2 Hlt. rewrite !leb_spec, H1, H2. unfold SFleb.
  destruct (Prim2SF x) as [s | s | | s m' e']; try (simpl; congruence).
  destruct s; [simpl; congruence|].
  rewrite !SFcompare_positive.
  destruct (Z.compare_spec e1 e'), (Z.compare_spec e2 e'); try lia; try congruence.
  destruct (Pos.compare_spec m1 m'), (Pos.compare_spec m2 m'); try lia; congruence.
Qed.

Lemma threshold_40 : Prim2SF (of_int 40) = S754_finite false 5629499534213120 (-47).
Proof. vm_compute. reflexivity. Qed.

Lemma threshold_60 : Prim2SF (of_int 60) = S754_finite false 8444249301319680 (-47).
Proof. vm_compute. reflexivity. Qed.

Lemma threshold_80 : Prim2SF (of_int 80) = S754_finite false 5629499534213120 (-46).
Proof. vm_compute. reflexivity. Qed.

Lemma binary64_ordered_at (x : float) : is_nan x = false -> ordered_at x.
Proof.
  intros Hx. split; [|split].
  - intros c [<-|[<-|[<-|[]]]].
    + eapply ltb_negb_leb; [exact threshold_40 | exact Hx].
    + eapply ltb_negb_leb; [exact threshold_60 | exact Hx].
    + eapply ltb_negb_leb; [exact threshold_80 | exact Hx].
  - eapply leb_lower_threshold; [exact threshold_80 | exact threshold_60 | lia].
  - eapply leb_lower_threshold; [exact threshold_60 | exact threshold_40 | lia].
Qed.

Lemma exact_ordered_at (x : Q) : ordered_at x.
Proof.
  split; [|split].
  - reflexivity.
  - simpl. rewrite !Qle_bool_iff. intros H.
    apply Qle_trans with (y := inject_Z 80); [|exact H]. now compute.
  - simpl. rewrite !Qle_bool_iff. intros H.
    apply Qle_trans with (y := inject_Z 60); [|exact H]. now compute.
Qed.

(** In exact arithmetic every score falls in the level of its interval. *)
Lemma classify_band_exact (overall : Q) (lv : Level) :
  fst (classify_band overall) = band_label lv <-> at_level lv overall = true.
Proof.
  rewrite classify_band_level. simpl fst.
  rewrite <- (@level_of_iff _ _ overall lv (exact_ordered_at overall)).
  split; [apply band_label_inj | congruence].
Qed.

(** C4. [classify_band] is a function of the score alone (it cannot raise).
    For every binary64 score that is a number, inside [0,100] or not, the
    label is "AI Ready" iff overall >= 80, "Near Ready" iff 60 <= overall <
    80, "Emerging" iff 40 <= overall < 60 and "High Risk" iff overall < 40,
    and the label comes with its fixed description; 80.0 is "AI Ready",
    79.999 "Near Ready", 40.0 "Emerging", 39.999 "High Risk", and -5 and 250
    are classified by the same thresholds. *)
Theorem classify_band_thresholds :
  (forall overall : float,
      is_nan overall = false ->
      (forall lv, fst (classify_band overall) = band_label lv <->
                  at_level lv overall = true) /\
      (forall lv, fst (classify_band overall) = band_label lv ->
                  snd (classify_band overall) = band_description lv) /\
      (exists lv, classify_band overall = (band_label lv, band_description lv))) /\
  fst (classify_band (lit 80 0 : float)) = "AI Ready" /\
  fst (classify_band (lit 79999 3 : float)) = "Near Ready" /\
  fst (classify_band (lit 40 0 : float)) = "Emerging" /\
  fst (classify_band (lit 39999 3 : float)) = "High Risk" /\
  fst (classify_band (lit (-5) 0 : float)) = "High Risk" /\
  fst (classify_band (lit 250 0 : float)) = "AI Ready".
Proof.
  split; [|repeat split; vm_compute; reflexivity].
  intros overall Hnum. rewrite classify_band_level. simpl fst. simpl snd.
  pose proof (@binary64_ordered_at overall Hnum) as Hord.
  split; [|split].
  - intros lv. rewrite <- (@level_of_iff _ _ overall lv Hord).
    split; [apply band_label_inj | congruence].
  - intros lv Hl. apply band_label_inj in Hl. congruence.
  - now exists (level_of overall).
Qed.

Lemma classify_band_thresholds_witness :
  fst (classify_band (lit 80 0 : float)) = band_label Top.
Proof.
  apply (proj1 classify_band_thresholds (lit 80 0)); vm_compute; reflexivity.
Defined.

(** C8. [generate_recommendations] looks at nothing but the category scores.
    For a dictionary of binary64 scores that are numbers it returns one text
    per category, from the four fixed texts: "maintain and document" iff
    score >= 80, "strengthen" iff 60 <= score < 80, "prioritise basics" iff
    40 <= score < 60, "urgent remediation" iff score < 40.  The text of a
    category is decided by that category's score alone: any other dictionary
    with the same score there, under any category name, gets the same text. *)
Theorem recommendations_by_tier (category_scores : dict float) :
  NoDup (keys category_scores) ->
  Forall (fun score => is_nan score = false) (values category_scores) ->
  keys (generate_recommendations category_scores) = keys category_scores /\
  forall cat score,
    get category_scores cat = Some score ->
    (exists lv, get (generate_recommendations category_scores) cat =
                Some (recommendation lv)) /\
    (forall lv, get (generate_recommendations category_scores) cat =
                Some (recommendation lv) <-> at_level lv score = true) /\
    (forall (other : dict float) (cat' : string),
        NoDup (keys other) -> get other cat' = Some score ->
        get (generate_recommendations other) cat' =
        get (generate_recommendations category_scores) cat).
Proof.
  intros Hnd Hnum.
  assert (Hget : forall (d : dict float) k s, NoDup (keys d) -> get d k = Some s ->
            get (generate_recommendations d) k = Some (recommendation (level_of s))).
  { intros d k s Hd Hs. rewrite generate_recommendations_fold.
    fold (store_each (fun s => recommendation (level_of s)) d empty).
    rewrite store_each_get by exact Hd. now rewrite Hs. }
  split.
  - rewrite generate_recommendations_fold.
    fold (store_each (fun s : float => recommendation (level_of s)) category_scores empty).
    now rewrite store_each_keys.
  - intros cat score Hs. rewrite (Hget _ _ _ Hnd Hs).
    assert (Hord : ordered_at score).
    { apply binary64_ordered_at. rewrite Forall_forall in Hnum.
      apply Hnum. eapply get_in_values; eauto. }
    split; [now exists (level_of score)|]. split.
    + intros lv. rewrite <- (@level_of_iff _ _ score lv Hord).
      split; [intros H; injection H; apply recommendation_inj | congruence].
    + intros other cat' Hd' Hs'. now apply Hget.
Qed.

Lemma recommendations_by_tier_witness :
  get (generate_recommendations [("Governance & Policy", 85%float);
                                 ("Ethics & Societal Impact", 12.5%float)])
      "Ethics & Societal Impact" = Some (recommendation Bottom).
Proof.
  refine (proj2 (proj1 (proj2 (proj2
    (@recommendations_by_tier
       [("Governance & Policy", 85%float); ("Ethics & Societal Impact", 12.5%float)] _ _)
    "Ethics & Societal Impact" 12.5%float eq_refl)) Bottom) eq_refl).
  - repeat constructor; simpl; intuition discriminate.
  - repeat constructor.
Defined.

(* ================================================================== *)
(** * The response normaliser *)

Section Normaliser.
Context {F : Type} {PF : PyFloat F}.

Lemma get_present (V : Type) (d : dict V) (k : string) :
  In k (keys d) -> exists v, get d k = Some v.
Proof.
  unfold keys. induction d as [|[k0 v0] d IH]; simpl; [tauto|].
  intros [->|Hin].
  - rewrite String.eqb_refl. eauto.
  - destruct (String.eqb k0 k); eauto.
Qed.

Lemma answers_cons (responses : dict F) (cat : string) (q : Question)
    (qs : list Question) :
  answers responses cat (q :: qs) =
  ((if String.eqb (category q) cat then
      match get responses (id q) with
      | Some v => [v]
      | None => []
      end
    else []) ++ answers responses cat qs)%list.
Proof. reflexivity. Qed.

(** The aggregation loop: every category's total grows by its answers, in
    catalog order, and its count by their number. *)
Lemma aggregate_spec (responses : dict F) (qs : list Question) :
  forall (totals : dict F) (counts : dict Z),
    keys totals = keys counts ->
    (forall q, In q qs -> In (category q) (keys totals)) ->
    exists totals' counts',
      aggregate responses qs totals counts = Ok (totals', counts') /\
      keys totals' = keys totals /\
      keys counts' = keys counts /\
      forall cat t c,
        get totals cat = Some t -> get counts cat = Some c ->
        get totals' cat = Some (fold_left fadd (answers responses cat qs) t) /\
        get counts' cat = Some (c + Z.of_nat (List.length (answers responses cat qs))).
Proof.
  unfold aggregate.
  induction qs as [|q qs IH]; intros totals counts Hk Hcat.
  - exists totals, counts. simpl. split; [reflexivity|].
    split; [reflexivity|]. split; [reflexivity|].
    intros cat t c Ht Hc. rewrite Z.add_0_r. auto.
  - simpl for_each.
    assert (Hq : In (category q) (keys totals)) by (apply Hcat; now left).
    destruct (get_present _ _ Hq) as [t0 Ht0].
    rewrite Hk in Hq. destruct (get_present _ _ Hq) as [c0 Hc0].
    unfold contains, getitem.
    destruct (get responses (id q)) as [r|] eqn:Hr.
    + rewrite Ht0, Hc0. simpl bind.
      destruct (IH (setitem totals (category q) (fadd t0 r))
                   (setitem counts (category q) (c0 + 1)))
        as (totals' & counts' & Hrun & Hkt & Hkc & Hget).
      { now rewrite (keys_setitem_present _ _ _ Ht0), (keys_setitem_present _ _ _ Hc0). }
      { intros q' Hq'. rewrite (keys_setitem_present _ _ _ Ht0). apply Hcat. now right. }
      exists totals', counts'. split; [exact Hrun|].
      rewrite Hkt, Hkc, (keys_setitem_present _ _ _ Ht0), (keys_setitem_present _ _ _ Hc0).
      split; [reflexivity|]. split; [reflexivity|].
      intros cat t c Ht Hc. rewrite answers_cons, Hr.
      destruct (String.eqb (category q) cat) eqn:E.
      * apply String.eqb_eq in E. subst cat.
        assert (t = t0) by congruence. assert (c = c0) by congruence. subst.
        destruct (Hget (category q) (fadd t0 r) (c0 + 1)) as [H1 H2];
          try apply get_setitem_eq.
        rewrite H1, H2. simpl. split; [reflexivity|]. f_equal. lia.
      * apply String.eqb_neq in E.
        destruct (Hget cat t c) as [H1 H2];
          try (rewrite get_setitem_neq by exact E; assumption).
        rewrite H1, H2. split; reflexivity.
    + simpl bind.
      destruct (IH totals counts Hk) as (totals' & counts' & Hrun & Hkt & Hkc & Hget).
      { intros q' Hq'. apply Hcat. now right. }
      exists totals', counts'. split; [exact Hrun|].
      split; [exact Hkt|]. split; [exact Hkc|].
      intros cat t c Ht Hc. rewrite answers_cons, Hr.
      destruct (String.eqb (category q) cat); simpl; auto.
Qed.

(** The aggregation reads the responses at the ids of the questions only. *)
Lemma aggregate_agree (r1 r2 : dict F) (qs : list Question) :
  (forall q, In q qs -> get r1 (id q) = get r2 (id q)) ->
  forall totals counts,
    aggregate r1 qs totals counts = aggregate r2 qs totals counts.
Proof.
  unfold aggregate. induction qs as [|q qs IH]; intros Hagree totals counts.
  - reflexivity.
  - simpl for_each. unfold contains, getitem.
    rewrite (Hagree q (or_introl eq_refl)).
    destruct (get r2 (id q)); simpl bind.
    + destruct (get totals (category q)); simpl; [|reflexivity].
      destruct (get counts (category q)); simpl; [|reflexivity].
      apply IH. intros q' Hq'. apply Hagree. now right.
    + apply IH. intros q' Hq'. apply Hagree. now right.
Qed.

(** A loop that stores one value per key into a dictionary without these
    keys appends them in order. *)
Lemma for_each_store (V : Type) (g : string -> V) (ks : list string)
    (body : dict V -> string -> result (dict V)) :
  forall out : dict V,
    (forall out' k, In k ks -> body out' k = Ok (setitem out' k (g k))) ->
    NoDup (keys out ++ ks)%list ->
    for_each ks body out = Ok (out ++ map (fun k => (k, g k)) ks)%list.
Proof.
  induction ks as [|k ks IH]; intros out Hbody Hnd; simpl.
  - now rewrite app_nil_r.
  - rewrite Hbody by now left. simpl bind.
    assert (Hk : ~ In k (keys out)).
    { intros Hin. apply NoDup_remove_2 in Hnd. apply Hnd. apply in_or_app. now left. }
    rewrite setitem_absent by exact Hk.
    rewrite IH.
    + now rewrite <- app_assoc.
    + intros out' k' Hk'. apply Hbody. now right.
    + unfold keys in *. rewrite map_app. simpl. now rewrite <- app_assoc.
Qed.

Lemma for_each_returns (A S : Type) (xs : list A) (body : S -> A -> result S) :
  (forall st x, In x xs -> returns (body st x)) ->
  forall st, returns (for_each xs body st).
Proof.
  induction xs as [|x xs IH]; intros Hbody st; simpl.
  - now exists st.
  - destruct (Hbody st x (or_introl eq_refl)) as [st' ->]. simpl.
    apply IH. intros st0 x0 Hx0. apply Hbody. now right.
Qed.

Lemma categories_nodup : NoDup CATEGORIES.
Proof. repeat constructor; simpl; intuition discriminate. Qed.

(** The integers the normaliser divides by are not zero as floats. *)
Hypothesis divisors_nonzero :
  forall c : Z, 0 < c <= Z.of_nat (List.length QUESTIONS) ->
                feqb (of_int c : F) (of_int 0) = false.

Lemma answers_length (responses : dict F) (cat : string) (qs : list Question) :
  (List.length (answers responses cat qs) <= List.length qs)%nat.
Proof.
  induction qs as [|q qs IH]; [simpl; lia|].
  rewrite answers_cons, length_app. simpl List.length.
  destruct (String.eqb (category q) cat); [destruct (get responses (id q))|];
    simpl; lia.
Qed.

Lemma category_scores_of_formula (responses : dict F) :
  category_scores_of responses = Ok (formula_scores responses).
Proof.
  unfold category_scores_of.
  set (totals := display (map (fun cat : string => (cat, lit 0 0 : F)) CATEGORIES)).
  set (counts := display (map (fun cat : string => (cat, 0)) CATEGORIES)).
  destruct (@aggregate_spec responses QUESTIONS totals counts)
    as (totals' & counts' & -> & Hkt & Hkc & Hget).
  { reflexivity. }
  { intros q Hq. simpl in Hq.
    repeat (destruct Hq as [<-|Hq]; [vm_compute; tauto|]). contradiction. }
  simpl bind. unfold average_scores, formula_scores.
  refine (@for_each_store F
            (fun cat => mean_score (answers responses cat QUESTIONS)) CATEGORIES
            _ empty _ _).
  - intros out cat Hcat.
    assert (Ht : get totals cat = Some (lit 0 0))
      by (simpl in Hcat; repeat (destruct Hcat as [<-|Hcat]; [reflexivity|]); contradiction).
    assert (Hc : get counts cat = Some 0)
      by (simpl in Hcat; repeat (destruct Hcat as [<-|Hcat]; [reflexivity|]); contradiction).
    destruct (Hget cat _ _ Ht Hc) as [Ht' Hc'].
    pose proof (answers_length responses cat QUESTIONS) as Hlen.
    revert Ht' Hc' Hlen.
    generalize (answers responses cat QUESTIONS) as xs.
    intros xs Ht' Hc' Hlen.
    unfold getitem. rewrite Ht', Hc'. unfold bind at 1.
    unfold mean_score, truediv.
    destruct xs as [|x xs]; [reflexivity|].
    rewrite Z.add_0_l.
    replace (0 <? Z.of_nat (List.length (x :: xs))) with true
      by (symmetry; apply Z.ltb_lt; simpl List.length; lia).
    unfold bind at 1.
    rewrite divisors_nonzero by (simpl List.length in *; lia). unfold bind at 1.
    change (lit 4 0) with (of_int 4 : F).
    rewrite divisors_nonzero by (simpl; lia). reflexivity.
  - simpl. apply categories_nodup.
Qed.

End Normaliser.

Lemma binary64_divisors_nonzero (c : Z) :
  0 < c <= Z.of_nat (List.length QUESTIONS) ->
  feqb (of_int c : float) (of_int 0) = false.
Proof.
  simpl List.length. intros Hc.
  assert (H : c = 1 \/ c = 2 \/ c = 3 \/ c = 4 \/ c = 5 \/ c = 6 \/ c = 7 \/
              c = 8 \/ c = 9 \/ c = 10 \/ c = 11) by lia.
  repeat (destruct H as [->|H]; [vm_compute; reflexivity|]).
  subst c. vm_compute. reflexivity.
Qed.

Lemma get_category_weights_returns (py : CPython)
    (org_type industry : option string) :
  returns (get_category_weights (F:=float) py org_type industry).
Proof.
  assert (H : normalised_ok py (adjusted_weights org_type industry) = true)
    by (apply by_representatives; destruct py; vm_compute; reflexivity).
  unfold normalised_ok in H.
  change (bind (adjusted_weights org_type industry) (renormalise py))
    with (get_category_weights (F:=float) py org_type industry) in H.
  destruct (get_category_weights py org_type industry) as [w|e]; [|discriminate].
  now exists w.
Qed.

Section Overall.
Context {F : Type} {PF : PyFloat F}.

Lemma weighted_overall_returns (category_scores weights : dict F) :
  (forall cat, In cat CATEGORIES -> exists s, get category_scores cat = Some s) ->
  returns (weighted_overall category_scores weights).
Proof.
  intros Hkeys. unfold weighted_overall. apply for_each_returns.
  intros overall cat Hcat. destruct (Hkeys cat Hcat) as [s Hs].
  unfold getitem. rewrite Hs. simpl. eexists. reflexivity.
Qed.

Lemma formula_scores_get (responses : dict F) (cat : string) :
  In cat CATEGORIES ->
  get (formula_scores responses) cat =
  Some (mean_score (answers responses cat QUESTIONS)).
Proof.
  intros Hcat. simpl in Hcat.
  repeat (destruct Hcat as [<-|Hcat]; [reflexivity|]). contradiction.
Qed.
End Overall.

(** C2. For each of the five categories the normaliser returns
    [((sum / count) / 4.0) * 100.0] over the answers given to the questions
    of that category, whatever their kind, and exactly 0 for a category with
    no answer; neither the normaliser nor [compute_scores] raises, for any
    response set and any organisation type and sector. *)
Theorem category_scores_formula (responses : dict float) :
  category_scores_of responses = Ok (formula_scores responses) /\
  forall (py : CPython) (org_type industry : option string),
    exists (overall : float) (band : string * string),
      compute_scores py responses org_type industry =
      Ok (overall, formula_scores responses, band).
Proof.
  pose proof (category_scores_of_formula binary64_divisors_nonzero responses) as Hn.
  split; [exact Hn|].
  intros py org_type industry. unfold compute_scores. rewrite Hn. cbn [bind].
  destruct (get_category_weights_returns py org_type industry) as [w ->]. cbn [bind].
  destruct (@weighted_overall_returns float _ (formula_scores responses) w)
    as [overall ->].
  { intros cat Hcat. rewrite formula_scores_get by exact Hcat. eauto. }
  cbn [bind]. destruct (classify_band overall) as [label desc].
  now exists overall, (label, desc).
Qed.

(** C10. Two response maps that agree on the ids of the 11 catalog
    questions get the same result from [compute_scores] (overall score,
    category scores and band), for the same organisation type and sector; so
    an entry under an id that is not in the catalog changes nothing. *)
Theorem compute_scores_reads_catalog_only (F : Type) (PF : PyFloat F)
    (py : CPython) :
  List.length QUESTIONS = 11%nat /\
  (forall (r1 r2 : dict F) (org_type industry : option string),
      agree_on_catalog r1 r2 ->
      compute_scores py r1 org_type industry =
      compute_scores py r2 org_type industry) /\
  (forall (responses : dict F) (k : string) (v : F)
          (org_type industry : option string),
      (forall q, In q QUESTIONS -> id q <> k) ->
      compute_scores py (setitem responses k v) org_type industry =
      compute_scores py responses org_type industry).
Proof.
  assert (H : forall (r1 r2 : dict F) (org_type industry : option string),
             agree_on_catalog r1 r2 ->
             compute_scores py r1 org_type industry =
             compute_scores py r2 org_type industry).
  { intros r1 r2 org_type industry Hagree.
    unfold compute_scores, category_scores_of.
    now rewrite (aggregate_agree r1 r2 QUESTIONS Hagree). }
  split; [reflexivity|]. split; [exact H|].
  intros responses k v org_type industry Hk. apply H.
  intros q Hq. apply get_setitem_neq. intros E. now apply (Hk q Hq).
Qed.

Lemma compute_scores_reads_catalog_only_witness :
  compute_scores (F:=float) From_3_12
                 [("gov_policy", 1%float); ("not_a_question", 5%float)]
                 None None =
  compute_scores From_3_12 [("unknown", 3%float); ("gov_policy", 1%float)]
                 None None.
Proof.
  apply (proj1 (proj2 (compute_scores_reads_catalog_only binary64 From_3_12))).
  intros q Hq. simpl in Hq.
  repeat (destruct Hq as [<-|Hq]; [reflexivity|]). contradiction.
Defined.

(* ================================================================== *)
(** * Rounding in binary64 *)

(** ** Round to nearest, ties to even, on integers *)

Lemma rne_spec (m n : Z) :
  0 <= n ->
  let k := rne m n in
  (2 * k - 1) * 2 ^ n <= 2 * m <= (2 * k + 1) * 2 ^ n /\
  (2 * m = (2 * k - 1) * 2 ^ n -> Z.even k = true) /\
  (2 * m = (2 * k + 1) * 2 ^ n -> Z.even k = true).
Proof.
  intros Hn. unfold rne. cbv zeta.
  assert (HP : 0 < 2 ^ n) by (apply Z.pow_pos_nonneg; lia).
  set (P := 2 ^ n) in *.
  pose proof (Z.div_mod m P ltac:(lia)) as Hdm.
  pose proof (Z.mod_pos_bound m P HP) as Hr.
  set (q := m / P) in *. set (r := m mod P) in *.
  destruct (Z.compare_spec (2 * r) P) as [E|E|E].
  - destruct (Z.even q) eqn:Eq.
    + split; [nia|]. split; [intros H; nia | intros _; exact Eq].
    + split; [nia|]. split.
      * intros _. rewrite Z.even_add, Eq. reflexivity.
      * intros H. nia.
  - split; [nia|]. split; intros H; nia.
  - split; [nia|]. split; intros H; nia.
Qed.

Lemma rne_0 (m : Z) : rne m 0 = m.
Proof.
  unfold rne. cbv zeta. change (2 ^ 0) with 1.
  rewrite Z.div_1_r, Z.mod_1_r. reflexivity.
Qed.

Lemma rne_nonneg (m n : Z) : 0 <= n -> 0 <= m -> 0 <= rne m n.
Proof.
  intros Hn Hm. destruct (@rne_spec m n Hn) as [[_ H] _].
  assert (HP : 0 < 2 ^ n) by (apply Z.pow_pos_nonneg; lia).
  nia.
Qed.

(** Rounding is monotone, whatever the two scales. *)
Lemma rne_mono (m1 n1 m2 n2 : Z) :
  0 <= n1 -> 0 <= n2 ->
  m1 * 2 ^ n2 <= m2 * 2 ^ n1 ->
  rne m1 n1 <= rne m2 n2.
Proof.
  intros Hn1 Hn2 Hle.
  destruct (@rne_spec m1 n1 Hn1) as [[L1 U1] [T1 _]].
  destruct (@rne_spec m2 n2 Hn2) as [[L2 U2] [_ T2]].
  assert (HP1 : 0 < 2 ^ n1) by (apply Z.pow_pos_nonneg; lia).
  assert (HP2 : 0 < 2 ^ n2) by (apply Z.pow_pos_nonneg; lia).
  set (k1 := rne m1 n1) in *. set (k2 := rne m2 n2) in *.
  set (P1 := 2 ^ n1) in *. set (P2 := 2 ^ n2) in *.
  destruct (Z_le_gt_dec k1 k2) as [H|H]; [exact H|exfalso].
  assert (A : (2 * k1 - 1) * P1 * P2 <= 2 * m1 * P2) by nia.
  assert (B : 2 * m2 * P1 <= (2 * k2 + 1) * P2 * P1) by nia.
  assert (C : (2 * k1 - 1) * (P1 * P2) <= (2 * k2 + 1) * (P1 * P2)) by nia.
  assert (HPP : 0 < P1 * P2) by nia.
  assert (D : 2 * k1 - 1 <= 2 * k2 + 1) by nia.
  assert (E : k1 = k2 + 1) by lia.
  assert (E1 : 2 * m1 = (2 * k1 - 1) * P1) by nia.
  assert (E2 : 2 * m2 = (2 * k2 + 1) * P2) by nia.
  specialize (T1 E1). specialize (T2 E2).
  rewrite E, Z.even_add, T2 in T1. discriminate.
Qed.

Lemma rne_upper (m n N : Z) :
  0 <= n -> 0 <= N -> m < 2 ^ N * 2 ^ n -> rne m n <= 2 ^ N.
Proof.
  intros Hn HN Hm.
  destruct (@rne_spec m n Hn) as [[L _] _].
  assert (HP : 0 < 2 ^ n) by (apply Z.pow_pos_nonneg; lia).
  assert (HQ : 0 < 2 ^ N) by (apply Z.pow_pos_nonneg; lia).
  nia.
Qed.

Lemma rne_lower (m n N : Z) :
  0 <= n -> 0 <= N -> 2 ^ N * 2 ^ n <= m -> 2 ^ N <= rne m n.
Proof.
  intros Hn HN Hm.
  destruct (@rne_spec m n Hn) as [[_ U] _].
  assert (HP : 0 < 2 ^ n) by (apply Z.pow_pos_nonneg; lia).
  assert (HQ : 0 < 2 ^ N) by (apply Z.pow_pos_nonneg; lia).
  nia.
Qed.

(** ** Digits *)

Lemma digits2_pos_bounds (m : positive) :
  2 ^ (Zpos (digits2_pos m) - 1) <= Zpos m < 2 ^ Zpos (digits2_pos m).
Proof.
  induction m as [p IH|p IH|]; cbn [digits2_pos].
  - rewrite Pos2Z.inj_succ.
    replace (Z.succ (Zpos (digits2_pos p)) - 1) with (Z.succ (Zpos (digits2_pos p) - 1)) by lia.
    rewrite !Z.pow_succ_r by lia. lia.
  - rewrite Pos2Z.inj_succ.
    replace (Z.succ (Zpos (digits2_pos p)) - 1) with (Z.succ (Zpos (digits2_pos p) - 1)) by lia.
    rewrite !Z.pow_succ_r by lia. lia.
  - simpl. lia.
Qed.

(** ** The shifts of the specification compute this rounding *)

Lemma iter_pos_nat (A : Type) (f : A -> A) (p : positive) (x : A) :
  iter_pos f p x = Nat.iter (Pos.to_nat p) f x.
Proof.
  revert x. induction p as [p IH|p IH|]; intros x; cbn [iter_pos].
  - rewrite !IH, Pos2Nat.inj_xI.
    replace (S (2 * Pos.to_nat p))%nat with (Pos.to_nat p + (Pos.to_nat p + 1))%nat by lia.
    rewrite !Nat.iter_add. reflexivity.
  - rewrite !IH, Pos2Nat.inj_xO.
    replace (2 * Pos.to_nat p)%nat with (Pos.to_nat p + Pos.to_nat p)%nat by lia.
    rewrite Nat.iter_add. reflexivity.
  - reflexivity.
Qed.

Lemma shr_1_spec (m : Z) (r s : bool) :
  0 <= m ->
  shr_1 (Build_shr_record m r s) = Build_shr_record (m / 2) (Z.odd m) (r || s).
Proof.
  intros Hm. rewrite <- Z.div2_div.
  destruct m as [|p|p]; [reflexivity| |lia].
  destruct p; reflexivity.
Qed.

(** After [k] shifts of [m]: the quotient, and the place of the remainder
    [L] with respect to the half. *)
Lemma shr_iter (m : Z) (k : nat) :
  0 <= m ->
  let mrs := Nat.iter k shr_1 (Build_shr_record m false false) in
  exists L,
    m = shr_m mrs * 2 ^ Z.of_nat k + L /\
    0 <= L < 2 ^ Z.of_nat k /\
    0 <= shr_m mrs /\
    loc_of_shr_record mrs =
      (if L =? 0 then loc_Exact else loc_Inexact (2 * L ?= 2 ^ Z.of_nat k)).
Proof.
  intros Hm. induction k as [|k IH]; cbv zeta.
  - exists 0. cbn. repeat split; lia.
  - cbv zeta in IH. destruct IH as (L & Hdec & HL & Hq & Hloc).
    rewrite Nat.iter_succ.
    destruct (Nat.iter k shr_1 (Build_shr_record m false false)) as [q r s].
    cbn [shr_m] in *.
    rewrite shr_1_spec by exact Hq. cbn [shr_m].
    rewrite Nat2Z.inj_succ, Z.pow_succ_r by lia.
    set (P := 2 ^ Z.of_nat k) in *.
    assert (HP : 0 < P) by (apply Z.pow_pos_nonneg; lia).
    pose proof (Z.div_mod q 2 ltac:(lia)) as Hq2.
    pose proof (Z.mod_pos_bound q 2 ltac:(lia)) as Hb.
    rewrite Zmod_odd in Hq2, Hb.
    assert (Hrs : (r || s)%bool = negb (L =? 0)).
    { destruct (L =? 0); destruct r, s; cbn in Hloc; try discriminate; reflexivity. }
    exists (L + (if Z.odd q then P else 0)).
    destruct (Z.odd q) eqn:Eo.
    + split; [nia|]. split; [lia|]. split; [apply Z.div_pos; lia|].
      rewrite Hrs.
      destruct (Z.eqb_spec (L + P) 0) as [E|E]; [lia|].
      destruct (Z.eqb_spec L 0) as [E0|E0]; cbn [loc_of_shr_record negb].
      * subst L. replace (2 * (0 + P)) with (2 * P) by lia.
        now rewrite Z.compare_refl.
      * replace (2 * (L + P) ?= 2 * P) with Gt; [reflexivity|].
        symmetry. apply Z.compare_gt_iff. lia.
    + split; [nia|]. split; [lia|]. split; [apply Z.div_pos; lia|].
      rewrite Hrs, Z.add_0_r.
      destruct (Z.eqb_spec L 0) as [E0|E0]; cbn [loc_of_shr_record negb];
        [reflexivity|].
      replace (2 * L ?= 2 * P) with Lt; [reflexivity|].
      symmetry. apply Z.compare_lt_iff. lia.
Qed.

Lemma shr_spec (m e n : Z) :
  0 <= m ->
  let '(mrs, e') := shr (Build_shr_record m false false) e n in
  e' = e + Z.max n 0 /\
  shr_m mrs = m / 2 ^ Z.max n 0 /\
  round_nearest_even (shr_m mrs) (loc_of_shr_record mrs) = rne m (Z.max n 0).
Proof.
  intros Hm. unfold shr.
  destruct n as [|p|p].
  - cbn [Z.max Z.compare]. change (2 ^ 0) with 1.
    rewrite Z.add_0_r, Z.div_1_r, rne_0. cbn. auto.
  - replace (Z.max (Zpos p) 0) with (Zpos p) by lia.
    rewrite iter_pos_nat.
    destruct (@shr_iter m (Pos.to_nat p) Hm) as (L & Hdec & HL & Hq & Hloc).
    rewrite positive_nat_Z in *.
    set (mrs := Nat.iter (Pos.to_nat p) shr_1 (Build_shr_record m false false)) in *.
    set (P := 2 ^ Zpos p) in *.
    assert (HP : 0 < P) by (apply Z.pow_pos_nonneg; lia).
    assert (Hdiv : m / P = shr_m mrs).
    { symmetry. apply (Z.div_unique_pos m P (shr_m mrs) L); lia. }
    assert (Hmod : m mod P = L).
    { symmetry. apply (Z.mod_unique_pos m P (shr_m mrs) L); lia. }
    split; [reflexivity|]. split; [now rewrite Hdiv|].
    rewrite Hloc. unfold rne. cbv zeta. fold P. rewrite Hdiv, Hmod.
    destruct (Z.eqb_spec L 0) as [E0|E0].
    + rewrite E0. cbn [round_nearest_even]. change (2 * 0) with 0.
      destruct (Z.compare_spec 0 P) as [E|E|E]; [lia | reflexivity | lia].
    + cbn [round_nearest_even]. destruct (2 * L ?= P); reflexivity.
  - cbn [Z.max Z.compare]. change (2 ^ 0) with 1.
    rewrite Z.add_0_r, Z.div_1_r, rne_0. cbn. auto.
Qed.

(** ** Rounding to binary64 *)

Lemma fexp_eq (z : Z) : fexp prec emax z = Z.max (z - 53) (-1074).
Proof. reflexivity. Qed.

Lemma digits_le (q N : Z) (k : positive) :
  q = Zpos k -> q < 2 ^ N -> 0 <= N -> Zpos (digits2_pos k) <= N.
Proof.
  intros -> Hq HN. pose proof (digits2_pos_bounds k) as [Hl _].
  destruct (Z_le_gt_dec (Zpos (digits2_pos k)) N) as [H|H]; [exact H|exfalso].
  assert (2 ^ N <= 2 ^ (Zpos (digits2_pos k) - 1)) by (apply Z.pow_le_mono_r; lia).
  lia.
Qed.

Lemma digits_pow2 (N : Z) (k : positive) :
  Zpos k = 2 ^ N -> 0 <= N -> Zpos (digits2_pos k) = N + 1.
Proof.
  intros E HN. pose proof (digits2_pos_bounds k) as [Hl Hu]. rewrite E in Hl, Hu.
  apply Z.pow_le_mono_r_iff in Hl; [|lia|lia].
  apply Z.pow_lt_mono_r_iff in Hu; [|lia|lia]. lia.
Qed.

(** What [binary_round_aux] returns for a positive mantissa whose exponent is
    not above the exponent of its format. *)
Lemma round_aux_cases (m : positive) (e : Z) :
  let t := fexp prec emax (Zpos (digits2_pos m) + e) in
  let q := rne (Zpos m) (t - e) in
  e <= t ->
  0 <= q <= 2 ^ 53 /\
  binary_round_aux prec emax false (Zpos m) e loc_Exact =
    if q =? 0 then S754_zero false
    else if q =? 2 ^ 53
         then (if t + 1 <=? 971
               then S754_finite false (Z.to_pos (2 ^ 52)) (t + 1)
               else S754_infinity false)
         else (if t <=? 971
               then S754_finite false (Z.to_pos q) t
               else S754_infinity false).
Proof.
  intros t q Hal.
  assert (Ht : -1074 <= t) by (unfold t; rewrite fexp_eq; lia).
  assert (Hq0 : 0 <= q) by (apply rne_nonneg; lia).
  assert (Hq : q <= 2 ^ 53).
  { apply rne_upper; [lia|lia|].
    pose proof (digits2_pos_bounds m) as [_ Hu].
    assert (Hd : Zpos (digits2_pos m) <= 53 + (t - e))
      by (unfold t; rewrite fexp_eq; lia).
    rewrite <- Z.pow_add_r by lia.
    eapply Z.lt_le_trans; [exact Hu|]. apply Z.pow_le_mono_r; lia. }
  split; [lia|].
  unfold binary_round_aux, shr_fexp.
  change (shr_record_of_loc (Zpos m) loc_Exact)
    with (Build_shr_record (Zpos m) false false).
  change (Zdigits2 (Zpos m)) with (Zpos (digits2_pos m)). fold t.
  pose proof (@shr_spec (Zpos m) e (t - e) ltac:(lia)) as H1.
  destruct (shr (Build_shr_record (Zpos m) false false) e (t - e)) as [mrs1 e1].
  destruct H1 as (He1 & _ & Hr1).
  replace (Z.max (t - e) 0) with (t - e) in * by lia.
  rewrite Hr1. fold q.
  replace e1 with t by lia. clear He1 e1.
  change (shr_record_of_loc q loc_Exact) with (Build_shr_record q false false).
  pose proof (@shr_spec q t (fexp prec emax (Zdigits2 q + t) - t) Hq0) as H2.
  destruct (shr (Build_shr_record q false false) t
                (fexp prec emax (Zdigits2 q + t) - t)) as [mrs2 e2].
  destruct H2 as (He2 & Hm2 & _).
  rewrite Hm2, He2. rewrite fexp_eq.
  destruct (Z.eqb_spec q 0) as [E0|E0].
  - rewrite E0. cbn [Zdigits2].
    replace (Z.max (Z.max (0 + t - 53) (-1074) - t) 0) with 0 by lia.
    reflexivity.
  - destruct q as [|k|k] eqn:Eq; [lia| |lia].
    cbn [Zdigits2].
    destruct (Z.eqb_spec (Zpos k) (2 ^ 53)) as [E|E].
    + rewrite (@digits_pow2 53 k E ltac:(lia)).
      replace (Z.max (Z.max (53 + 1 + t - 53) (-1074) - t) 0) with 1 by lia.
      rewrite E. change (2 ^ 53 / 2 ^ 1) with (Zpos (Z.to_pos (2 ^ 52))).
      cbv beta iota. reflexivity.
    + assert (Hd : Zpos (digits2_pos k) <= 53)
        by (apply (@digits_le (Zpos k) 53 k eq_refl); lia).
      replace (Z.max (Z.max (Zpos (digits2_pos k) + t - 53) (-1074) - t) 0)
        with 0 by lia.
      change (2 ^ 0) with 1. rewrite Z.div_1_r, Z.add_0_r.
      cbv beta iota. rewrite Pos2Z.id. reflexivity.
Qed.

(** ** The order of the results *)

Lemma leb_fin (q1 q2 E1 E2 : Z) :
  0 < q1 -> 0 < q2 ->
  E1 < E2 \/ (E1 = E2 /\ q1 <= q2) ->
  SFleb (S754_finite false (Z.to_pos q1) E1) (S754_finite false (Z.to_pos q2) E2) = true.
Proof.
  intros H1 H2 H. unfold SFleb, SFcompare.
  destruct (Z.compare_spec E1 E2) as [E|E|E]; [|reflexivity|lia].
  change (Pos.compare_cont Eq (Z.to_pos q1) (Z.to_pos q2))
    with (Z.to_pos q1 ?= Z.to_pos q2)%positive.
  rewrite <- Z2Pos.inj_compare by lia.
  destruct (Z.compare_spec q1 q2); [reflexivity|reflexivity|lia].
Qed.

Lemma pow2_pos (n : Z) : 0 <= n -> 0 < 2 ^ n.
Proof. intros H. apply Z.pow_pos_nonneg; lia. Qed.

(** A smaller value has no more digits above the unit. *)
Lemma magnitude_mono (m1 m2 : positive) (e1 e2 u : Z) :
  u <= e1 -> u <= e2 ->
  Zpos m1 * 2 ^ (e1 - u) <= Zpos m2 * 2 ^ (e2 - u) ->
  Zpos (digits2_pos m1) + e1 <= Zpos (digits2_pos m2) + e2.
Proof.
  intros H1 H2 Hle.
  pose proof (digits2_pos_bounds m1) as [L1 _].
  pose proof (digits2_pos_bounds m2) as [_ U2].
  set (d1 := Zpos (digits2_pos m1)) in *. set (d2 := Zpos (digits2_pos m2)) in *.
  assert (Hd1 : 1 <= d1) by (unfold d1; lia).
  assert (Hd2 : 1 <= d2) by (unfold d2; lia).
  assert (A : 2 ^ (d1 - 1 + (e1 - u)) <= Zpos m1 * 2 ^ (e1 - u)).
  { rewrite Z.pow_add_r by lia. apply Z.mul_le_mono_nonneg_r; [|exact L1].
    apply Z.lt_le_incl, pow2_pos. lia. }
  assert (B : Zpos m2 * 2 ^ (e2 - u) < 2 ^ (d2 + (e2 - u))).
  { rewrite Z.pow_add_r by lia. apply Z.mul_lt_mono_pos_r; [|exact U2].
    apply pow2_pos. lia. }
  assert (C : 2 ^ (d1 - 1 + (e1 - u)) < 2 ^ (d2 + (e2 - u))) by lia.
  apply Z.pow_lt_mono_r_iff in C; lia.
Qed.

Lemma round64_mono (m1 m2 : positive) (e1 e2 u : Z) :
  aligned m1 e1 -> aligned m2 e2 ->
  u <= e1 -> u <= e2 ->
  Zpos m1 * 2 ^ (e1 - u) <= Zpos m2 * 2 ^ (e2 - u) ->
  SFleb (round64 m1 e1) (round64 m2 e2) = true.
Proof.
  intros A1 A2 Hu1 Hu2 Hle. unfold aligned in A1, A2.
  pose proof (@magnitude_mono m1 m2 e1 e2 u Hu1 Hu2 Hle) as Hmag.
  destruct (@round_aux_cases m1 e1 A1) as [[Q1l Q1u] R1].
  destruct (@round_aux_cases m2 e2 A2) as [[Q2l Q2u] R2].
  unfold round64. rewrite R1, R2. clear R1 R2.
  set (t1 := fexp prec emax (Zpos (digits2_pos m1) + e1)) in *.
  set (t2 := fexp prec emax (Zpos (digits2_pos m2) + e2)) in *.
  set (q1 := rne (Zpos m1) (t1 - e1)) in *.
  set (q2 := rne (Zpos m2) (t2 - e2)) in *.
  assert (Ht : t1 <= t2) by (unfold t1, t2; rewrite !fexp_eq; lia).
  assert (Ht1 : -1074 <= t1) by (unfold t1; rewrite fexp_eq; lia).
  assert (Hfacts : (t1 = t2 /\ q1 <= q2) \/ (t1 < t2 /\ 2 ^ 52 <= q2)).
  { destruct (Z.eq_dec t1 t2) as [E|E]; [left|right]; (split; [lia|]).
    - apply rne_mono; [lia|lia|].
      rewrite <- E.
      assert (HP : 0 < 2 ^ (t1 - u)) by (apply pow2_pos; lia).
      apply (Z.mul_le_mono_pos_r _ _ (2 ^ (t1 - u)) HP).
      rewrite <- !Z.mul_assoc, <- !Z.pow_add_r by lia.
      assert (X : Zpos m1 * 2 ^ (e1 - u) * 2 ^ ((t1 - e1) + (t1 - e2)) <=
                  Zpos m2 * 2 ^ (e2 - u) * 2 ^ ((t1 - e1) + (t1 - e2))).
      { apply Z.mul_le_mono_nonneg_r; [|exact Hle].
        apply Z.lt_le_incl, pow2_pos. lia. }
      rewrite <- !Z.mul_assoc, <- !Z.pow_add_r in X by lia.
      replace (t1 - e2 + (t1 - u)) with (e1 - u + (t1 - e1 + (t1 - e2))) by lia.
      replace (t1 - e1 + (t1 - u)) with (e2 - u + (t1 - e1 + (t1 - e2))) by lia.
      exact X.
    - apply rne_lower; [lia|lia|].
      assert (Hn : t2 - e2 = Zpos (digits2_pos m2) - 53)
        by (unfold t2 in *; rewrite fexp_eq in *; lia).
      rewrite <- Z.pow_add_r by lia.
      pose proof (digits2_pos_bounds m2) as [L2 _].
      replace (52 + (t2 - e2)) with (Zpos (digits2_pos m2) - 1) by lia.
      exact L2. }
  assert (P52 : 2 ^ 52 = 4503599627370496) by reflexivity.
  assert (P53 : 2 ^ 53 = 9007199254740992) by reflexivity.
  rewrite P53 in *. rewrite P52 in *.
  repeat match goal with
         | |- context [Z.eqb ?a ?b] => destruct (Z.eqb_spec a b)
         | |- context [Z.leb ?a ?b] => destruct (Z.leb_spec a b)
         end;
    try reflexivity; try lia;
    try (apply leb_fin; lia).
Qed.

(** ** Non-negative binary64 numbers *)

Lemma bounded_spec (m : positive) (e : Z) :
  bounded prec emax m e = true ->
  -1074 <= e <= 971 /\ Zpos (digits2_pos m) <= 53 /\
  (Zpos (digits2_pos m) = 53 \/ e = -1074) /\
  fexp prec emax (Zpos (digits2_pos m) + e) = e.
Proof.
  unfold bounded, canonical_mantissa. rewrite andb_true_iff, Z.eqb_eq, Z.leb_le.
  change (emax - prec) with 971. rewrite fexp_eq. lia.
Qed.

Lemma normal_lower (m : positive) :
  Zpos (digits2_pos m) = 53 -> 2 ^ 52 <= Zpos m.
Proof.
  intros H. pose proof (digits2_pos_bounds m) as [L _]. rewrite H in L. exact L.
Qed.

Lemma mantissa_upper (m : positive) :
  Zpos (digits2_pos m) <= 53 -> Zpos m < 2 ^ 53.
Proof.
  intros H. pose proof (digits2_pos_bounds m) as [_ U].
  eapply Z.lt_le_trans; [exact U|]. apply Z.pow_le_mono_r; lia.
Qed.

Lemma nn_leb_zero (s : bool) (x : spec_float) : is_nonneg x = true -> SFleb (S754_zero s) x = true.
Proof. destruct x as [?|[]| |[] ? ?]; intros H; try discriminate H; reflexivity. Qed.

Lemma nn_leb_inf (x : spec_float) : is_nonneg x = true -> SFleb x (S754_infinity false) = true.
Proof. destruct x as [?|[]| |[] ? ?]; intros H; try discriminate H; reflexivity. Qed.

Lemma leb_nn (x y : spec_float) : is_nonneg x = true -> SFleb x y = true -> is_nonneg y = true.
Proof.
  destruct x as [?|[]| |[] ? ?]; intros H; try discriminate H;
    destruct y as [?|[]| |[] ? ?]; intros H'; try discriminate H'; reflexivity.
Qed.

(** The order of two finite non-negative numbers is the order of their
    values. *)
Lemma leb_units (x y : spec_float) :
  valid_binary x = true -> valid_binary y = true ->
  is_nonneg x = true -> is_fin y = true ->
  SFleb x y = true -> units x <= units y.
Proof.
  intros Vx Vy Nx Fy H.
  pose proof (leb_nn _ _ Nx H) as Ny.
  destruct x as [?|[]| |[] m1 e1]; try discriminate Nx;
    destruct y as [?|[]| |[] m2 e2]; try discriminate Ny; try discriminate Fy;
    try discriminate H; cbn [units]; try lia.
  cbn in Vx, Vy. apply bounded_spec in Vx, Vy.
  destruct Vx as (He1 & Hd1 & _ & _). destruct Vy as (He2 & Hd2 & Hn2 & _).
  unfold SFleb, SFcompare in H.
  change (Pos.compare_cont Eq m1 m2) with (m1 ?= m2)%positive in H.
  destruct (Z.compare_spec e1 e2) as [E|E|E]; [| |discriminate H].
  - subst e2. apply Z.mul_le_mono_nonneg_r; [apply Z.lt_le_incl, pow2_pos; lia|].
    destruct (Pos.compare_spec m1 m2); try discriminate H; lia.
  - assert (Hm2 : 2 ^ 52 <= Zpos m2) by (apply normal_lower; lia).
    pose proof (mantissa_upper m1 Hd1) as Hm1.
    assert (HP : 0 < 2 ^ (e1 + 1074)) by (apply pow2_pos; lia).
    assert (HQ : 2 * 2 ^ (e1 + 1074) <= 2 ^ (e2 + 1074)).
    { rewrite <- Z.pow_succ_r by lia. apply Z.pow_le_mono_r; lia. }
    change (2 ^ 53) with (2 * 2 ^ 52) in Hm1. nia.
Qed.

(** A number of the format is rounded to itself. *)
Lemma round64_id (m : positive) (e : Z) :
  bounded prec emax m e = true -> round64 m e = S754_finite false m e.
Proof.
  intros B. apply bounded_spec in B. destruct B as (He & Hd & _ & Hc).
  assert (A : e <= fexp prec emax (Zpos (digits2_pos m) + e)) by lia.
  destruct (@round_aux_cases m e A) as [_ R]. unfold round64. rewrite R.
  rewrite Hc, Z.sub_diag, rne_0.
  pose proof (@mantissa_upper m Hd).
  destruct (Z.eqb_spec (Zpos m) 0); [lia|].
  destruct (Z.eqb_spec (Zpos m) (2 ^ 53)); [lia|].
  destruct (Z.leb_spec e 971); [|lia].
  now rewrite Pos2Z.id.
Qed.

Lemma round64_nn (m : positive) (e : Z) : aligned m e -> is_nonneg (round64 m e) = true.
Proof.
  intros A. destruct (@round_aux_cases m e A) as [_ R]. unfold round64. rewrite R.
  repeat match goal with
         | |- context [Z.eqb ?a ?b] => destruct (Z.eqb ?a ?b)
         | |- context [Z.leb ?a ?b] => destruct (Z.leb ?a ?b)
         | |- context [if ?c then _ else _] => destruct c
         end; reflexivity.
Qed.

(** ** Multiplication *)

Lemma digits_mul (m1 m2 : positive) :
  Zpos (digits2_pos m1) + Zpos (digits2_pos m2) - 1 <= Zpos (digits2_pos (m1 * m2)).
Proof.
  pose proof (digits2_pos_bounds m1) as [L1 _].
  pose proof (digits2_pos_bounds m2) as [L2 _].
  pose proof (digits2_pos_bounds (m1 * m2)) as [_ U].
  set (d1 := Zpos (digits2_pos m1)) in *. set (d2 := Zpos (digits2_pos m2)) in *.
  set (D := Zpos (digits2_pos (m1 * m2))) in *.
  assert (Hd1 : 1 <= d1) by (unfold d1; lia).
  assert (Hd2 : 1 <= d2) by (unfold d2; lia).
  assert (HD : 1 <= D) by (unfold D; lia).
  rewrite Pos2Z.inj_mul in U.
  assert (A : 2 ^ (d1 - 1 + (d2 - 1)) <= Zpos m1 * Zpos m2).
  { rewrite Z.pow_add_r by lia.
    apply Z.mul_le_mono_nonneg; try lia; apply Z.lt_le_incl, pow2_pos; lia. }
  assert (C : 2 ^ (d1 - 1 + (d2 - 1)) < 2 ^ D) by lia.
  apply Z.pow_lt_mono_r_iff in C; lia.
Qed.

Lemma mul_aligned (m1 m2 : positive) (e1 e2 : Z) :
  bounded prec emax m1 e1 = true -> bounded prec emax m2 e2 = true ->
  aligned (m1 * m2) (e1 + e2).
Proof.
  intros B1 B2. apply bounded_spec in B1, B2.
  pose proof (digits_mul m1 m2). unfold aligned. rewrite fexp_eq.
  assert (1 <= Zpos (digits2_pos m1)) by lia.
  assert (1 <= Zpos (digits2_pos m2)) by lia.
  lia.
Qed.

Lemma mul_nn (x y : spec_float) :
  valid_binary x = true -> valid_binary y = true ->
  is_nonneg x = true -> is_nonneg y = true -> is_fin x = true -> is_fin y = true ->
  is_nonneg (SFmul prec emax x y) = true.
Proof.
  intros Vx Vy Nx Ny Fx Fy.
  destruct x as [?|[]| |[] m1 e1]; try discriminate Nx; try discriminate Fx;
    destruct y as [?|[]| |[] m2 e2]; try discriminate Ny; try discriminate Fy;
    try reflexivity.
  apply (@round64_nn (m1 * m2) (e1 + e2)). now apply mul_aligned.
Qed.

(** Multiplying by a non-negative finite number keeps the order of finite
    non-negative numbers. *)
Lemma mul_mono (x x' w : spec_float) :
  valid_binary x = true -> valid_binary x' = true -> valid_binary w = true ->
  is_nonneg x = true -> is_nonneg w = true ->
  is_fin x = true -> is_fin x' = true -> is_fin w = true ->
  SFleb x x' = true ->
  SFleb (SFmul prec emax x w) (SFmul prec emax x' w) = true.
Proof.
  intros Vx Vx' Vw Nx Nw Fx Fx' Fw H.
  pose proof (leb_nn _ _ Nx H) as Nx'.
  pose proof (@leb_units x x' Vx Vx' Nx Fx' H) as Hu.
  pose proof (@mul_nn x' w Vx' Vw Nx' Nw Fx' Fw) as Hn'.
  destruct w as [?|[]| |[] mw ew]; try discriminate Nw; try discriminate Fw.
  - destruct x as [?|[]| |[] m1 e1]; try discriminate Nx; try discriminate Fx;
      destruct x' as [?|[]| |[] m2 e2]; try discriminate Nx'; try discriminate Fx';
      reflexivity.
  - destruct x as [?|[]| |[] m1 e1]; try discriminate Nx; try discriminate Fx.
    + apply nn_leb_zero. exact Hn'.
    + destruct x' as [?|[]| |[] m2 e2]; try discriminate Nx'; try discriminate Fx';
        [discriminate H|].
      cbn [SFmul xorb]. cbn in Vx, Vx', Vw.
      apply (@round64_mono (m1 * mw) (m2 * mw) (e1 + ew) (e2 + ew) (-1074 + ew)).
      * now apply mul_aligned.
      * now apply mul_aligned.
      * apply bounded_spec in Vx. lia.
      * apply bounded_spec in Vx'. lia.
      * cbn [units] in Hu. rewrite !Pos2Z.inj_mul.
        replace (e1 + ew - (-1074 + ew)) with (e1 + 1074) by lia.
        replace (e2 + ew - (-1074 + ew)) with (e2 + 1074) by lia.
        nia.
Qed.

(** ** Addition *)

Lemma iter_xO (m d : positive) : Zpos (Pos.iter xO m d) = Zpos m * 2 ^ Zpos d.
Proof.
  induction d as [|d IH] using Pos.peano_ind.
  - cbn [Pos.iter]. change (2 ^ 1) with 2. lia.
  - rewrite Pos.iter_succ, Pos2Z.inj_xO, IH, Pos2Z.inj_succ, Z.pow_succ_r by lia.
    lia.
Qed.

Lemma shl_align_value (mx : positive) (ex ez : Z) :
  ez <= ex -> Zpos (fst (shl_align mx ex ez)) = Zpos mx * 2 ^ (ex - ez).
Proof.
  intros H. unfold shl_align.
  destruct (ez - ex) as [|d|d] eqn:E; [|lia|].
  - replace (ex - ez) with 0 by lia. cbn [fst]. change (2 ^ 0) with 1. lia.
  - cbn [fst]. rewrite iter_xO. replace (ex - ez) with (Zpos d) by lia. reflexivity.
Qed.

(** The sum of two positive numbers of the format is their exact sum,
    rounded. *)
Lemma add_round (ma mp : positive) (ea ep : Z) :
  bounded prec emax ma ea = true -> bounded prec emax mp ep = true ->
  exists (M : positive) (e : Z),
    SFadd prec emax (S754_finite false ma ea) (S754_finite false mp ep) = round64 M e /\
    aligned M e /\ -1074 <= e /\
    Zpos M * 2 ^ (e + 1074) = Zpos ma * 2 ^ (ea + 1074) + Zpos mp * 2 ^ (ep + 1074).
Proof.
  intros Ba Bp. pose proof Ba as Ba'. pose proof Bp as Bp'.
  apply bounded_spec in Ba', Bp'.
  destruct Ba' as (Hea & Hda & Hna & _). destruct Bp' as (Hep & Hdp & Hnp & _).
  set (ez := Z.min ea ep).
  pose proof (@shl_align_value ma ea ez ltac:(unfold ez; lia)) as Va.
  pose proof (@shl_align_value mp ep ez ltac:(unfold ez; lia)) as Vp.
  set (a' := fst (shl_align ma ea ez)) in *.
  set (p' := fst (shl_align mp ep ez)) in *.
  exists (a' + p')%positive, ez.
  assert (Hal : aligned (a' + p') ez).
  { unfold aligned. rewrite fexp_eq.
    destruct (Z.eq_dec ez (-1074)) as [E|E]; [lia|].
    assert (Hda' : Zpos (digits2_pos ma) = 53) by (unfold ez in *; lia).
    assert (Hdp' : Zpos (digits2_pos mp) = 53) by (unfold ez in *; lia).
    pose proof (normal_lower ma Hda') as La. pose proof (normal_lower mp Hdp') as Lp.
    assert (HM : 2 ^ 52 <= Zpos (a' + p')).
    { rewrite Pos2Z.inj_add, Va, Vp.
      assert (0 < 2 ^ (ea - ez)) by (apply pow2_pos; unfold ez; lia).
      assert (0 < 2 ^ (ep - ez)) by (apply pow2_pos; unfold ez; lia).
      nia. }
    pose proof (digits2_pos_bounds (a' + p')) as [_ U].
    assert (C : 2 ^ 52 < 2 ^ Zpos (digits2_pos (a' + p'))) by lia.
    apply Z.pow_lt_mono_r_iff in C; lia. }
  split; [|split; [exact Hal|split; [unfold ez; lia|]]].
  - cbn [SFadd cond_Zopp]. fold ez. fold a'. fold p'.
    change (Zpos a' + Zpos p') with (Zpos (a' + p')).
    cbn [binary_normalize]. unfold binary_round, round64.
    unfold aligned in Hal. unfold shl_align.
    destruct (fexp prec emax (Zpos (digits2_pos (a' + p')) + ez) - ez) as [|d|d] eqn:E;
      [reflexivity|reflexivity|lia].
  - rewrite Pos2Z.inj_add, Va, Vp, Z.mul_add_distr_r.
    rewrite <- !Z.mul_assoc, <- !Z.pow_add_r by (unfold ez; lia).
    replace (ea - ez + (ez + 1074)) with (ea + 1074) by lia.
    replace (ep - ez + (ez + 1074)) with (ep + 1074) by lia.
    reflexivity.
Qed.

(** The sum of two finite non-negative numbers: zero when both are, and
    otherwise the rounding of the exact sum of their values. *)
Lemma add_cases (a p : spec_float) :
  valid_binary a = true -> valid_binary p = true ->
  is_nonneg a = true -> is_nonneg p = true -> is_fin a = true -> is_fin p = true ->
  (units a + units p = 0 /\ exists s, SFadd prec emax a p = S754_zero s) \/
  (exists (M : positive) (e : Z),
      SFadd prec emax a p = round64 M e /\ aligned M e /\ -1074 <= e /\
      Zpos M * 2 ^ (e + 1074) = units a + units p).
Proof.
  intros Va Vp Na Np Fa Fp.
  destruct a as [sa|[]| |[] ma ea]; try discriminate Na; try discriminate Fa;
    destruct p as [sp|[]| |[] mp ep]; try discriminate Np; try discriminate Fp.
  - left. split; [reflexivity|]. destruct sa, sp; eexists; reflexivity.
  - right. exists mp, ep. cbn in Vp. pose proof Vp as Bp. apply bounded_spec in Bp.
    split; [cbn [SFadd]; symmetry; now apply round64_id|].
    split; [unfold aligned; lia|]. split; [lia|]. cbn [units]. lia.
  - right. exists ma, ea. cbn in Va. pose proof Va as Ba. apply bounded_spec in Ba.
    split; [cbn [SFadd]; symmetry; now apply round64_id|].
    split; [unfold aligned; lia|]. split; [lia|]. cbn [units]. lia.
  - right. cbn in Va, Vp. cbn [units]. now apply add_round.
Qed.

Lemma add_nn (a p : spec_float) :
  valid_binary a = true -> valid_binary p = true ->
  is_nonneg a = true -> is_nonneg p = true ->
  is_nonneg (SFadd prec emax a p) = true.
Proof.
  intros Va Vp Na Np.
  destruct (is_fin a) eqn:Fa; [destruct (is_fin p) eqn:Fp|].
  - destruct (@add_cases a p Va Vp Na Np Fa Fp) as [[_ [s ->]]|(M & e & -> & Hal & _)];
      [reflexivity | now apply round64_nn].
  - destruct p as [?|[]| |[] ? ?]; try discriminate Np; try discriminate Fp.
    destruct a as [?|[]| |[] ? ?]; try discriminate Na; reflexivity.
  - destruct a as [?|[]| |[] ? ?]; try discriminate Na; try discriminate Fa.
    destruct p as [?|[]| |[] ? ?]; try discriminate Np; reflexivity.
Qed.

Lemma units_nonneg (x : spec_float) : 0 <= units x.
Proof.
  destruct x as [?|?| |[] m e]; cbn [units]; lia.
Qed.

(** Addition keeps the order of non-negative numbers, in both arguments. *)
Lemma add_mono (a a' p p' : spec_float) :
  valid_binary a = true -> valid_binary a' = true ->
  valid_binary p = true -> valid_binary p' = true ->
  is_nonneg a = true -> is_nonneg p = true ->
  SFleb a a' = true -> SFleb p p' = true ->
  SFleb (SFadd prec emax a p) (SFadd prec emax a' p') = true.
Proof.
  intros Va Va' Vp Vp' Na Np Ha Hp.
  pose proof (leb_nn _ _ Na Ha) as Na'. pose proof (leb_nn _ _ Np Hp) as Np'.
  pose proof (@add_nn a p Va Vp Na Np) as Hn.
  destruct (is_fin a') eqn:Fa'; [destruct (is_fin p') eqn:Fp'|].
  - assert (Fa : is_fin a = true).
    { destruct a as [?|[]| |[] ? ?]; try discriminate Na; try reflexivity.
      destruct a' as [?|[]| |[] ? ?]; try discriminate Na'; try discriminate Fa';
        discriminate Ha. }
    assert (Fp : is_fin p = true).
    { destruct p as [?|[]| |[] ? ?]; try discriminate Np; try reflexivity.
      destruct p' as [?|[]| |[] ? ?]; try discriminate Np'; try discriminate Fp';
        discriminate Hp. }
    pose proof (@leb_units a a' Va Va' Na Fa' Ha) as Ua.
    pose proof (@leb_units p p' Vp Vp' Np Fp' Hp) as Up.
    pose proof (units_nonneg a). pose proof (units_nonneg p).
    destruct (@add_cases a p Va Vp Na Np Fa Fp)
      as [[Z0 [s ->]]|(M & e & -> & Hal & He & HM)].
    + apply nn_leb_zero. now apply add_nn.
    + destruct (@add_cases a' p' Va' Vp' Na' Np' Fa' Fp')
        as [[Z0' [s' _]]|(M' & e' & -> & Hal' & He' & HM')].
      * assert (0 < Zpos M * 2 ^ (e + 1074))
          by (apply Z.mul_pos_pos; [lia | apply pow2_pos; lia]).
        lia.
      * apply (@round64_mono M M' e e' (-1074) Hal Hal' He He').
        replace (e - -1074) with (e + 1074) by lia.
        replace (e' - -1074) with (e' + 1074) by lia. lia.
  - destruct p' as [?|[]| |[] ? ?]; try discriminate Np'; try discriminate Fp'.
    replace (SFadd prec emax a' (S754_infinity false)) with (S754_infinity false)
      by (destruct a' as [?|[]| |[] ? ?]; try discriminate Na'; reflexivity).
    now apply nn_leb_inf.
  - destruct a' as [?|[]| |[] ? ?]; try discriminate Na'; try discriminate Fa'.
    replace (SFadd prec emax (S754_infinity false) p') with (S754_infinity false)
      by (destruct p' as [?|[]| |[] ? ?]; try discriminate Np'; reflexivity).
    now apply nn_leb_inf.
Qed.

(** ** Primitive floats *)

Lemma float_nn (x : float) : PrimFloat.leb 0 x = true <-> is_nonneg (Prim2SF x) = true.
Proof.
  rewrite leb_spec. change (Prim2SF 0) with (S754_zero false).
  destruct (Prim2SF x) as [?|[]| |[] ? ?]; cbn; split; intros H;
    reflexivity || discriminate H.
Qed.

Lemma float_fin (x : float) : PrimFloat.is_finite x = true -> is_fin (Prim2SF x) = true.
Proof.
  unfold PrimFloat.is_finite, PrimFloat.is_nan, PrimFloat.is_infinity.
  rewrite !eqb_spec, abs_spec. change (Prim2SF infinity) with (S754_infinity false).
  destruct (Prim2SF x) as [?|[]| |[] ? ?]; cbn; intros H;
    reflexivity || discriminate H.
Qed.


Theorem float_mul_nonneg (s w : float) :
  PrimFloat.leb 0 s = true -> PrimFloat.leb 0 w = true ->
  PrimFloat.is_finite s = true -> PrimFloat.is_finite w = true ->
  PrimFloat.leb 0 (s * w) = true.
Proof.
  intros Ns Nw Fs Fw. apply float_nn. rewrite mul_spec.
  apply mul_nn; try apply Prim2SF_valid;
    try (now apply float_nn); now apply float_fin.
Qed.

Theorem float_mul_mono (s s' w : float) :
  PrimFloat.leb 0 s = true -> PrimFloat.leb 0 w = true ->
  PrimFloat.is_finite s = true -> PrimFloat.is_finite s' = true ->
  PrimFloat.is_finite w = true ->
  PrimFloat.leb s s' = true ->
  PrimFloat.leb (s * w) (s' * w) = true.
Proof.
  intros Ns Nw Fs Fs' Fw H. rewrite leb_spec, !mul_spec.
  apply mul_mono; try apply Prim2SF_valid;
    try (now apply float_nn); try (now apply float_fin).
  now rewrite <- leb_spec.
Qed.

Theorem float_add_nonneg (a p : float) :
  PrimFloat.leb 0 a = true -> PrimFloat.leb 0 p = true ->
  PrimFloat.leb 0 (a + p) = true.
Proof.
  intros Na Np. apply float_nn. rewrite add_spec.
  apply add_nn; try apply Prim2SF_valid; now apply float_nn.
Qed.

Theorem float_add_mono (a a' p p' : float) :
  PrimFloat.leb 0 a = true -> PrimFloat.leb 0 p = true ->
  PrimFloat.leb a a' = true -> PrimFloat.leb p p' = true ->
  PrimFloat.leb (a + p) (a' + p') = true.
Proof.
  intros Na Np Ha Hp. rewrite leb_spec, !add_spec.
  apply add_mono; try apply Prim2SF_valid; try (now apply float_nn);
    now rewrite <- leb_spec.
Qed.

(* ================================================================== *)
(** * The overall score *)


Lemma in_range_spec (x : float) :
  in_range x = true ->
  PrimFloat.leb 0 x = true /\ PrimFloat.is_finite x = true.
Proof.
  unfold in_range, nonnegative. intros H. apply andb_true_iff in H. exact H.
Qed.

(** The loop of the weighted sum in binary64, for scores and weights that
    are finite and not negative: higher scores and a higher start give a
    higher sum, and the sum is not negative. *)
Lemma weighted_loop_binary64 (scores scores' weights : dict float)
    (cats : list string) :
  (forall cat, In cat cats ->
     exists s s', get scores cat = Some s /\ get scores' cat = Some s' /\
                  in_range s = true /\ in_range s' = true /\ fleb s s' = true) ->
  (forall cat, In cat cats -> in_range (get_default weights cat (lit 0 0)) = true) ->
  forall acc acc' : float,
    nonnegative acc = true -> fleb acc acc' = true ->
    exists overall overall' : float,
      for_each cats
        (fun overall cat =>
           x <- getitem scores cat ;;
           Ok (fadd overall (fmul x (get_default weights cat (lit 0 0))))) acc
      = Ok overall /\
      for_each cats
        (fun overall cat =>
           x <- getitem scores' cat ;;
           Ok (fadd overall (fmul x (get_default weights cat (lit 0 0))))) acc'
      = Ok overall' /\
      nonnegative overall = true /\ fleb overall overall' = true.
Proof.
  induction cats as [|cat cats IH]; intros Hs Hw acc acc' Hacc Hle.
  - exists acc, acc'. repeat split; assumption.
  - destruct (Hs cat (or_introl eq_refl)) as (s & s' & Hg & Hg' & Rs & Rs' & Hss).
    pose proof (Hw cat (or_introl eq_refl)) as Rw.
    cbn [for_each]. unfold getitem at 1 3. rewrite Hg, Hg'. cbn [bind].
    set (w := get_default weights cat (lit 0 0)) in *.
    apply in_range_spec in Rs, Rs', Rw.
    destruct Rs as [Ns Fs]. destruct Rs' as [Ns' Fs']. destruct Rw as [Nw Fw].
    apply IH.
    + intros c Hc. apply Hs. now right.
    + intros c Hc. apply Hw. now right.
    + apply float_add_nonneg; [exact Hacc|]. now apply float_mul_nonneg.
    + apply float_add_mono; [exact Hacc | now apply float_mul_nonneg | exact Hle |].
      now apply float_mul_mono.
Qed.





(* ================================================================== *)
(** * The scale of the category scores *)

(** C1, evaluated.  With every catalog question at its maximal value, which
    is inside the declared domains, and the base weights, [compute_scores]
    returns the category scores 58.33, 75, 125, 125 and 75 and the overall
    score 87.5 (band "AI Ready"): two category scores are above 100 and none
    is 100.  The two graded answers of the technical category alone already
    give it 125.  The empty response set gives five scores of 0. *)
Theorem all_max_scores (py : CPython) :
  in_domain (F:=float) all_max = true /\
  compute_scores (F:=float) py all_max None None =
  Ok (87.5%float,
      [("Governance & Policy", 58.333333333333336%float);
       ("Data Privacy & Protection", 75%float);
       ("Technical Controls & Monitoring", 125%float);
       ("Ethics & Societal Impact", 125%float);
       ("Organisational Readiness & Capability", 75%float)],
      ("AI Ready", "Strong governance and controls; low regulatory risk.")) /\
  fleb 125%float (lit 100 0) = false /\
  category_scores_of (F:=float)
    [("tech_versioning", of_int 5); ("tech_monitoring", of_int 5)] =
  Ok [("Governance & Policy", 0%float);
      ("Data Privacy & Protection", 0%float);
      ("Technical Controls & Monitoring", 125%float);
      ("Ethics & Societal Impact", 0%float);
      ("Organisational Readiness & Capability", 0%float)] /\
  category_scores_of (F:=float) [] =
  Ok (map (fun cat => (cat, lit 0 0)) CATEGORIES).
Proof. destruct py; repeat split; vm_compute; reflexivity. Qed.

(* ================================================================== *)
(** * The change since the last assessment *)

Section Trend.
Context {F : Type} {PF : PyFloat F}.





Lemma insert_row_length (r : Assessment F) (rows : list (Assessment F)) :
  List.length (insert_row r rows) = S (List.length rows).
Proof.
  induction rows as [|r' rest IH]; simpl; [reflexivity|].
  destruct (String.leb (timestamp r) (timestamp r')); simpl; auto.
Qed.

Lemma sort_values_length (df : list (Assessment F)) :
  List.length (sort_values_timestamp df) = List.length df.
Proof.
  unfold sort_values_timestamp.
  induction df as [|r rest IH]; simpl; [reflexivity|].
  now rewrite insert_row_length, IH.
Qed.

End Trend.



Section TrendReport.
Context {F : Type} {PF : PyFloat F}.




Lemma tail_two_length (df : list (Assessment F)) :
  (2 <= List.length df)%nat -> List.length (tail 2 df) = 2%nat.
Proof.
  intros H. unfold tail. rewrite length_skipn. lia.
Qed.

End TrendReport.

Section TrendNumbers.
Context {F : Type} {PF : PyFloat F}.


(** The numbers never raise on their own from two records on. *)
Lemma trend_numbers_returns (df : list (Assessment F)) :
  (2 <= List.length df)%nat ->
  exists t,
    trend_numbers df = Ok t /\
    index (map overall_score (tail 2 df)) 0 = Ok (prev_overall t) /\
    index (map overall_score (tail 2 df)) 1 = Ok (latest_overall t) /\
    delta_overall t = fsub (latest_overall t) (prev_overall t).
Proof.
  intros Hlen. unfold trend_numbers.
  pose proof (tail_two_length df Hlen) as Hlen2.
  destruct (tail 2 df) as [|a [|b [|c l]]]; simpl in Hlen2; try lia.
  assert (Hrev : List.length (rev df) = List.length df) by apply length_rev.
  unfold index_from_end.
  destruct (rev df) as [|x [|y l]]; simpl in Hrev; try lia.
  cbn [map index nth_error bind]. cbv zeta.
  eexists. split; [reflexivity|].
  cbn [prev_overall latest_overall delta_overall]. repeat split.
Qed.

End TrendNumbers.




(* ================================================================== *)
(** * Further properties of the scoring engine *)

Lemma compute_scores_scores (py : CPython) (responses : dict float)
    (org_type industry : option string) (overall : float) (scores : dict float)
    (band : string * string) :
  compute_scores py responses org_type industry = Ok (overall, scores, band) ->
  scores = formula_scores responses.
Proof.
  unfold compute_scores.
  rewrite (category_scores_of_formula binary64_divisors_nonzero responses).
  cbn [bind].
  destruct (get_category_weights py org_type industry) as [w|e]; cbn [bind];
    [|discriminate].
  destruct (weighted_overall (formula_scores responses) w) as [o|e]; cbn [bind];
    [|discriminate].
  destruct (classify_band o) as [label desc]. congruence.
Qed.

Lemma domain_by_id (responses : dict float) (i : string) (k : QType) :
  answers_in_domain responses ->
  In (i, k) (map (fun q => (id q, qtype q)) QUESTIONS) ->
  get responses i = None \/
  exists z, In z (domain k) /\ get responses i = Some (of_int z).
Proof.
  intros Hdom Hin. apply in_map_iff in Hin. destruct Hin as (q & E & Hq).
  injection E as <- <-.
  destruct (get responses (id q)) as [v|] eqn:Hv; [|now left].
  destruct (Hdom q v Hq Hv) as (z & Hz & ->). right. now exists z.
Qed.

(** Split on the answer to the question [i] of kind [k]: none, or one of
    the values of its options. *)
Ltac answer_cases Hdom i k :=
  let E := fresh "E" in
  let z := fresh "z" in
  let Hz := fresh "Hz" in
  destruct (@domain_by_id _ i k Hdom ltac:(simpl; tauto)) as [E | (z & Hz & E)];
  rewrite E; clear E;
  [| simpl in Hz; repeat (destruct Hz as [<-|Hz]); try contradiction ].

(** X1. For every response set whose answers are values of the options
    (1..5 for a graded question, 0 or 1 for a boolean one), every category
    score returned is between 0 and 125. *)
Theorem category_scores_bounded (responses : dict float) :
  answers_in_domain responses ->
  exists scores : dict float,
    category_scores_of responses = Ok scores /\
    Forall (fun s => between (of_int 0) (of_int 125) s = true) (values scores).
Proof.
  intros Hdom. exists (formula_scores responses).
  split; [apply (category_scores_of_formula binary64_divisors_nonzero)|].
  unfold formula_scores. cbn [map CATEGORIES values snd].
  repeat apply Forall_cons; [| | | | |apply Forall_nil].
  - change (answers responses "Governance & Policy" QUESTIONS)
      with ((match get responses "gov_policy" with Some v => [v] | None => [] end) ++
            (match get responses "gov_owner" with Some v => [v] | None => [] end) ++
            (match get responses "gov_vendor" with Some v => [v] | None => [] end) ++ [])%list.
    answer_cases Hdom "gov_policy" yesno; answer_cases Hdom "gov_owner" yesno;
      answer_cases Hdom "gov_vendor" likert; vm_compute; reflexivity.
  - change (answers responses "Data Privacy & Protection" QUESTIONS)
      with ((match get responses "dp_minimisation" with Some v => [v] | None => [] end) ++
            (match get responses "dp_dpia" with Some v => [v] | None => [] end) ++ [])%list.
    answer_cases Hdom "dp_minimisation" likert; answer_cases Hdom "dp_dpia" yesno;
      vm_compute; reflexivity.
  - change (answers responses "Technical Controls & Monitoring" QUESTIONS)
      with ((match get responses "tech_versioning" with Some v => [v] | None => [] end) ++
            (match get responses "tech_monitoring" with Some v => [v] | None => [] end) ++ [])%list.
    answer_cases Hdom "tech_versioning" likert;
      answer_cases Hdom "tech_monitoring" likert; vm_compute; reflexivity.
  - change (answers responses "Ethics & Societal Impact" QUESTIONS)
      with ((match get responses "eth_impact" with Some v => [v] | None => [] end) ++
            (match get responses "eth_stakeholders" with Some v => [v] | None => [] end) ++ [])%list.
    answer_cases Hdom "eth_impact" likert;
      answer_cases Hdom "eth_stakeholders" likert; vm_compute; reflexivity.
  - change (answers responses "Organisational Readiness & Capability" QUESTIONS)
      with ((match get responses "org_training" with Some v => [v] | None => [] end) ++
            (match get responses "org_roles" with Some v => [v] | None => [] end) ++ [])%list.
    answer_cases Hdom "org_training" likert; answer_cases Hdom "org_roles" yesno;
      vm_compute; reflexivity.
Qed.

Lemma category_scores_bounded_witness :
  exists scores : dict float,
    category_scores_of (all_max : dict float) = Ok scores /\
    Forall (fun s => between (of_int 0) (of_int 125) s = true) (values scores).
Proof.
  apply category_scores_bounded.
  intros q v Hq Hv.
  exists (match qtype q with likert => 5 | yesno => 1 end).
  simpl in Hq.
  repeat (destruct Hq as [<-|Hq];
          [split; [simpl; tauto | vm_compute in Hv |- *; congruence]|]).
  contradiction.
Defined.

(** The loop of [weighted_overall] in exact arithmetic: with scores between
    [lo] and [hi] and weights that are not negative, the sum grows by
    between [lo] and [hi] times the weights added. *)
Lemma weighted_loop_bounds (scores weights : dict Q) (lo hi : Q)
    (cats : list string) :
  (forall cat, In cat cats ->
     exists s, get scores cat = Some s /\ (lo <= s <= hi)%Q) ->
  (forall cat, In cat cats -> (0 <= get_default weights cat (lit 0 0))%Q) ->
  forall acc tot : Q,
    exists overall : Q,
      for_each cats
        (fun overall cat =>
           x <- getitem scores cat ;;
           Ok (fadd overall (fmul x (get_default weights cat (lit 0 0))))) acc
      = Ok overall /\
      let total :=
        fold_left (fun total cat => fadd total (get_default weights cat (lit 0 0)))
                  cats tot in
      (acc + lo * (total - tot) <= overall)%Q /\
      (overall <= acc + hi * (total - tot))%Q.
Proof.
  induction cats as [|cat cats IH]; intros Hs Hw acc tot.
  - exists acc. split; [reflexivity|]. simpl.
    split; ring_simplify; apply Qle_refl.
  - destruct (Hs cat (or_introl eq_refl)) as (s & Hget & Hlo & Hhi).
    pose proof (Hw cat (or_introl eq_refl)) as Hw0.
    simpl for_each. unfold getitem. rewrite Hget. cbn [bind].
    destruct (IH (fun c Hc => Hs c (or_intror Hc)) (fun c Hc => Hw c (or_intror Hc))
                 (fadd acc (fmul s (get_default weights cat (lit 0 0))))
                 (fadd tot (get_default weights cat (lit 0 0))))
      as (overall & Hrun & Hl & Hh).
    exists overall. split; [exact Hrun|].
    simpl fold_left. simpl in Hl, Hh |- *.
    set (w := get_default weights cat (0 # 1)) in *.
    set (T := fold_left _ cats _) in *.
    assert (H1 : (lo * w <= s * w)%Q) by (apply Qmult_le_compat_r; assumption).
    assert (H2 : (s * w <= hi * w)%Q) by (apply Qmult_le_compat_r; assumption).
    split.
    + eapply Qle_trans; [|exact Hl].
      setoid_replace (acc + lo * (T - tot))%Q
        with (acc + lo * w + lo * (T - (tot + w)))%Q by ring.
      apply Qplus_le_compat; [|apply Qle_refl].
      apply Qplus_le_compat; [apply Qle_refl | exact H1].
    + eapply Qle_trans; [exact Hh|].
      setoid_replace (acc + hi * (T - tot))%Q
        with (acc + hi * w + hi * (T - (tot + w)))%Q by ring.
      apply Qplus_le_compat; [|apply Qle_refl].
      apply Qplus_le_compat; [apply Qle_refl | exact H2].
Qed.

(** In exact arithmetic the weights returned sum to 1 and none is below
    zero, so the overall score is a weighted average of the five category
    scores. *)
Lemma overall_average_exact (py : CPython)
    (org_type industry : option string) (category_scores : dict Q) (lo hi : Q) :
  (forall cat, In cat CATEGORIES ->
     exists s, get category_scores cat = Some s /\ (lo <= s <= hi)%Q) ->
  exists (weights : dict Q) (overall : Q),
    get_category_weights py org_type industry = Ok weights /\
    weighted_overall category_scores weights = Ok overall /\
    (lo <= overall <= hi)%Q.
Proof.
  intros Hs.
  assert (H : exact_weights_ok py (adjusted_weights org_type industry) = true)
    by (apply by_representatives; destruct py; vm_compute; reflexivity).
  unfold exact_weights_ok in H.
  change (bind (adjusted_weights org_type industry) (renormalise py))
    with (get_category_weights (F:=Q) py org_type industry) in H.
  destruct (get_category_weights py org_type industry) as [w|e]; [|discriminate].
  apply andb_true_iff in H. destruct H as [Hnn Htot].
  rewrite forallb_forall in Hnn. apply Qeq_bool_iff in Htot.
  destruct (@weighted_loop_bounds category_scores w lo hi CATEGORIES Hs
              (fun cat Hc => proj1 (Qle_bool_iff _ _) (Hnn cat Hc))
              (lit 0 0) (lit 0 0))
    as (overall & Hrun & Hl & Hh).
  exists w, overall. split; [reflexivity|]. split; [exact Hrun|].
  fold (weight_total w) in Hl, Hh. simpl in Hl, Hh, Htot.
  rewrite Htot in Hl, Hh.
  split.
  - eapply Qle_trans; [|exact Hl]. ring_simplify. apply Qle_refl.
  - eapply Qle_trans; [exact Hh|]. ring_simplify. apply Qle_refl.
Qed.

Lemma leb_trans_nonneg (x y z : spec_float) :
  is_nonneg x = true -> SFleb x y = true -> SFleb y z = true -> SFleb x z = true.
Proof.
  intros Nx Hxy Hyz.
  pose proof (leb_nn _ _ Nx Hxy) as Ny. pose proof (leb_nn _ _ Ny Hyz) as Nz.
  destruct x as [?|[]| |[] m1 e1]; try discriminate Nx;
    destruct y as [?|[]| |[] m2 e2]; try discriminate Ny; try discriminate Hxy;
    destruct z as [?|[]| |[] m3 e3]; try discriminate Nz; try discriminate Hyz;
    try reflexivity.
  unfold SFleb, SFcompare in *.
  change (Pos.compare_cont Eq m1 m2) with (m1 ?= m2)%positive in Hxy.
  change (Pos.compare_cont Eq m2 m3) with (m2 ?= m3)%positive in Hyz.
  change (Pos.compare_cont Eq m1 m3) with (m1 ?= m3)%positive.
  destruct (Z.compare_spec e1 e2), (Z.compare_spec e2 e3), (Z.compare_spec e1 e3);
    try discriminate; try lia; try reflexivity.
  destruct (Pos.compare_spec m1 m2), (Pos.compare_spec m2 m3), (Pos.compare_spec m1 m3);
    try discriminate; try lia; reflexivity.
Qed.

Theorem float_leb_trans (x y z : float) :
  PrimFloat.leb 0 x = true -> PrimFloat.leb x y = true -> PrimFloat.leb y z = true ->
  PrimFloat.leb x z = true.
Proof.
  rewrite !leb_spec. change (Prim2SF 0) with (S754_zero false).
  intros N. apply leb_trans_nonneg.
  destruct (Prim2SF x) as [?|[]| |[] ? ?]; try discriminate N; reflexivity.
Qed.

(** A number between zero and a finite number is finite. *)
Lemma float_finite_below (x c : float) :
  PrimFloat.leb 0 x = true -> PrimFloat.is_finite c = true ->
  PrimFloat.leb x c = true -> PrimFloat.is_finite x = true.
Proof.
  intros N Fc H. apply float_fin in Fc. rewrite leb_spec in N, H.
  change (Prim2SF 0) with (S754_zero false) in N.
  unfold PrimFloat.is_finite, PrimFloat.is_nan, PrimFloat.is_infinity.
  rewrite !eqb_spec, abs_spec. change (Prim2SF infinity) with (S754_infinity false).
  destruct (Prim2SF x) as [?|[]| |[] m e]; try discriminate N;
    destruct (Prim2SF c) as [?|[]| |[] ? ?]; try discriminate Fc; try discriminate H;
    cbn [SFabs]; unfold SFeqb, SFcompare;
    try reflexivity;
    rewrite Z.compare_refl;
    change (Pos.compare_cont Eq m m) with (m ?= m)%positive;
    rewrite Pos.compare_refl; reflexivity.
Qed.

Lemma all_at_get (F : Type) (x : F) (cat : string) :
  In cat CATEGORIES -> get (all_at x) cat = Some x.
Proof.
  intros H. simpl in H.
  repeat (destruct H as [<-|H]; [reflexivity|]). contradiction.
Qed.

(** X2. In binary64, for every organisation type and sector and for category
    scores that are numbers between 0 and 100, the overall score is computed
    without an exception and lies between 0 and 100.00000000000003, two
    units in the last place above 100: the weights returned need not sum to
    exactly 1.  The same holds with 125, which the normaliser reaches, and
    125.00000000000003.  The value 100 itself is exceeded, under either
    summation, for five scores of 100 of a start-up in banking and
    e-commerce.  In exact arithmetic the weights sum to 1 and the overall
    score lies between any two bounds that hold for the five category
    scores. *)
Theorem overall_within_scale :
  (forall (py : CPython) (org_type industry : option string) (scores : dict float)
          (hi bound : float),
      In (hi, bound) scale_bounds ->
      (forall cat, In cat CATEGORIES ->
         exists s, get scores cat = Some s /\
                   fleb (of_int 0) s = true /\ fleb s hi = true) ->
      exists (weights : dict float) (overall : float),
        get_category_weights py org_type industry = Ok weights /\
        weighted_overall scores weights = Ok overall /\
        fleb (of_int 0) overall = true /\
        fleb overall bound = true) /\
  (forall py : CPython,
      exists (weights : dict float) (overall : float),
        get_category_weights py (Some "Startup") (Some "Banking and e-commerce")
          = Ok weights /\
        weighted_overall (all_at 100%float) weights = Ok overall /\
        fltb (of_int 100) overall = true) /\
  (forall (py : CPython) (org_type industry : option string)
          (category_scores : dict Q) (lo hi : Q),
      (forall cat, In cat CATEGORIES ->
         exists s, get category_scores cat = Some s /\ (lo <= s <= hi)%Q) ->
      exists (weights : dict Q) (overall : Q),
        get_category_weights py org_type industry = Ok weights /\
        weighted_overall category_scores weights = Ok overall /\
        (lo <= overall <= hi)%Q).
Proof.
  split; [|split].
  - intros py org_type industry scores hi bound Hin Hs.
    assert (H : overall_scale_ok py (adjusted_weights org_type industry) = true)
      by (apply by_representatives; destruct py; vm_compute; reflexivity).
    unfold overall_scale_ok in H.
    change (get_category_weights py org_type industry)
      with (bind (adjusted_weights (F:=float) org_type industry) (renormalise py)).
    destruct (bind (adjusted_weights (F:=float) org_type industry) (renormalise py))
      as [w|e]; [|discriminate H].
    apply andb_true_iff in H. destruct H as [Hw H100].
    rewrite forallb_forall in Hw, H100.
    specialize (H100 (hi, bound) Hin). cbn [fst snd] in H100.
    assert (Hhi : in_range hi = true)
      by (unfold scale_bounds in Hin; cbn [In] in Hin;
          destruct Hin as [E|[E|[]]]; injection E as <- <-; reflexivity).
    destruct (weighted_overall (all_at hi) w) as [o100|e] eqn:E100;
      [|discriminate H100].
    destruct (@weighted_loop_binary64 scores (all_at hi) w CATEGORIES)
      with (acc := (lit 0 0 : float)) (acc' := (lit 0 0 : float))
      as (overall & overall' & H1 & H2 & Hn & Hle).
    + intros cat Hcat. destruct (Hs cat Hcat) as (s & Hg & H0 & Hs100).
      exists s, hi. split; [exact Hg|].
      split; [now apply all_at_get|].
      split; [|split; [exact Hhi | exact Hs100]].
      unfold in_range, nonnegative. rewrite H0. cbn [andb].
      apply in_range_spec in Hhi.
      apply (@float_finite_below s hi); [exact H0 | apply Hhi | exact Hs100].
    + exact Hw.
    + reflexivity.
    + reflexivity.
    + exists w, overall. split; [reflexivity|]. split; [exact H1|].
      split; [exact Hn|].
      unfold weighted_overall in E100. rewrite E100 in H2. injection H2 as <-.
      apply (@float_leb_trans overall o100 bound);
        [exact Hn | exact Hle | exact H100].
  - intros py. destruct py; do 2 eexists;
      (split; [vm_compute; reflexivity|]); split; vm_compute; reflexivity.
  - intros py org_type industry category_scores lo hi.
    apply overall_average_exact.
Qed.

Lemma overall_within_scale_witness :
  exists (weights : dict float) (overall : float),
    get_category_weights From_3_12 (Some "Charity") (Some "Education")
      = Ok weights /\
    weighted_overall
      [("Governance & Policy", 58.333333333333336%float);
       ("Data Privacy & Protection", 75%float);
       ("Technical Controls & Monitoring", 100%float);
       ("Ethics & Societal Impact", 25%float);
       ("Organisational Readiness & Capability", 0%float)] weights = Ok overall /\
    fleb (of_int 0) overall = true /\
    fleb overall 100.00000000000003%float = true.
Proof.
  apply (proj1 overall_within_scale) with (hi := 100%float); [now left|].
  intros cat Hcat. simpl in Hcat.
  repeat (destruct Hcat as [<-|Hcat];
          [eexists; split; [reflexivity|]; split; vm_compute; reflexivity|]).
  contradiction.
Defined.

Section RecommendationsOf.
Context {F : Type} {PF : PyFloat F}.

Lemma generate_recommendations_get (d : dict F) (k : string) (s : F) :
  NoDup (keys d) -> get d k = Some s ->
  get (generate_recommendations d) k = Some (recommendation (level_of s)).
Proof.
  intros Hd Hs. rewrite generate_recommendations_fold.
  fold (store_each (fun s => recommendation (level_of s)) d empty).
  rewrite store_each_get by exact Hd. now rewrite Hs.
Qed.

Lemma generate_recommendations_keys (d : dict F) :
  NoDup (keys d) -> keys (generate_recommendations d) = keys d.
Proof.
  intros Hd. rewrite generate_recommendations_fold.
  fold (store_each (fun s : F => recommendation (level_of s)) d empty).
  now rewrite store_each_keys.
Qed.

Lemma answers_unanswered (responses : dict F) (cat : string) (qs : list Question) :
  (forall q, In q qs -> category q = cat -> get responses (id q) = None) ->
  answers responses cat qs = [].
Proof.
  induction qs as [|q qs IH]; intros H; [reflexivity|].
  rewrite answers_cons, IH by (intros q' Hq'; apply H; now right).
  destruct (String.eqb (category q) cat) eqn:E; [|reflexivity].
  apply String.eqb_eq in E. now rewrite (H q (or_introl eq_refl) E).
Qed.

Lemma formula_scores_keys (responses : dict F) :
  keys (formula_scores responses) = CATEGORIES.
Proof. reflexivity. Qed.
End RecommendationsOf.

(** X3. The recommendations generated from the category scores that
    [compute_scores] returns are exactly five, one per category in the
    order of [CATEGORIES]; a category none of whose questions is answered
    gets the "urgent remediation" text. *)
Theorem recommendations_of_compute_scores (py : CPython) (responses : dict float)
    (org_type industry : option string) (overall : float) (scores : dict float)
    (band : string * string) :
  compute_scores py responses org_type industry = Ok (overall, scores, band) ->
  keys (generate_recommendations scores) = CATEGORIES /\
  forall cat,
    In cat CATEGORIES -> unanswered responses cat ->
    get (generate_recommendations scores) cat = Some rec_urgent.
Proof.
  intros Hrun. apply compute_scores_scores in Hrun. subst scores.
  assert (Hnd : NoDup (keys (formula_scores responses)))
    by (rewrite formula_scores_keys; apply categories_nodup).
  split.
  - now rewrite generate_recommendations_keys.
  - intros cat Hcat Hun.
    erewrite generate_recommendations_get;
      [| exact Hnd | apply formula_scores_get; exact Hcat].
    rewrite answers_unanswered by exact Hun. reflexivity.
Qed.

Lemma recommendations_of_compute_scores_witness :
  get (generate_recommendations
         [("Governance & Policy", 25%float);
          ("Data Privacy & Protection", 0%float);
          ("Technical Controls & Monitoring", 0%float);
          ("Ethics & Societal Impact", 0%float);
          ("Organisational Readiness & Capability", 0%float)])
      "Ethics & Societal Impact" = Some rec_urgent.
Proof.
  refine (proj2 (@recommendations_of_compute_scores From_3_12
                   [("gov_policy", 1%float)] None None 7.5%float _
                   ("High Risk", "Limited governance; urgent remediation required.")
                   _) "Ethics & Societal Impact" _ _).
  - vm_compute. reflexivity.
  - simpl. tauto.
  - intros q Hq Hc. simpl in Hq.
    repeat (destruct Hq as [<-|Hq]; [reflexivity || discriminate Hc|]).
    contradiction.
Defined.

(** X4. For an organisation type and a sector written in ASCII characters:
    when none of the keywords occurs in them, whatever the case of their
    letters, the weights returned are the base weights, bit for bit those of
    [CATEGORY_WEIGHTS] in [config.py], under either summation. *)
Theorem weights_without_keyword (py : CPython) (org_type industry : option string) :
  isascii (or_empty org_type) = true ->
  isascii (or_empty industry) = true ->
  no_keyword org_type industry = true ->
  get_category_weights (F:=float) py org_type industry = Ok CATEGORY_WEIGHTS.
Proof.
  intros _ _ H. unfold no_keyword in H. cbv zeta in H.
  rewrite !andb_true_iff, !negb_true_iff in H.
  destruct H as [[[[[[H1 H2] H3] H4] H5] H6] H7].
  unfold get_category_weights, adjusted_weights. cbv zeta.
  rewrite H1, H2, H3, H4, H5, H6, H7.
  destruct py; vm_compute; reflexivity.
Qed.

Lemma weights_without_keyword_witness :
  get_category_weights (F:=float) Before_3_12 (Some "Private company")
                       (Some "Media / culture") = Ok CATEGORY_WEIGHTS.
Proof. apply weights_without_keyword; vm_compute; reflexivity. Defined.

Lemma zrange_in (lo hi n : Z) : lo <= n <= hi -> In n (zrange lo hi).
Proof.
  intros H. unfold zrange. apply in_map_iff.
  exists (Z.to_nat (n - lo)). split; [lia|]. apply in_seq. lia.
Qed.

(** X5. [classify_band] agrees with the table [READINESS_BANDS] of
    [config.py] on the integer scores 0..100: an integer inside a row gets
    the label of the row, and its description too except for "Near Ready",
    where the two texts differ. *)
Theorem readiness_bands_agree (lo hi : Z) (label desc : string) (n : Z) :
  In (lo, hi, label, desc) READINESS_BANDS ->
  lo <= n <= hi ->
  fst (classify_band (of_int n : float)) = label /\
  (snd (classify_band (of_int n : float)) = desc <-> label <> "Near Ready").
Proof.
  intros Hrow Hn.
  assert (Hall : row_agrees (lo, hi, label, desc) = true).
  { simpl in Hrow.
    repeat (destruct Hrow as [<-|Hrow]; [vm_compute; reflexivity|]).
    contradiction. }
  unfold row_agrees in Hall. rewrite forallb_forall in Hall.
  specialize (Hall n (zrange_in Hn)).
  apply andb_true_iff in Hall. destruct Hall as [Hl Hd].
  apply String.eqb_eq in Hl. apply Bool.eqb_prop in Hd.
  split; [exact Hl|].
  split.
  - intros E. apply String.eqb_eq in E. rewrite E in Hd.
    symmetry in Hd. apply negb_true_iff in Hd. now apply String.eqb_neq.
  - intros Hne. apply String.eqb_neq in Hne. rewrite Hne in Hd.
    now apply String.eqb_eq.
Qed.

Lemma readiness_bands_agree_witness :
  fst (classify_band (of_int 79 : float)) = "Near Ready" /\
  (snd (classify_band (of_int 79 : float)) = "Solid foundation with some gaps to close."
   <-> "Near Ready" <> "Near Ready").
Proof.
  apply (@readiness_bands_agree 60 79); [simpl; tauto | lia].
Defined.

(** X6. [normalise_category_score] never divides by zero: a maximal sum of
    zero gives 0.0 and any other one the quotient times 100, in binary64.
    In exact arithmetic a raw sum between 0 and the maximal sum gives a
    score between 0 and 100, and the maximal sum itself gives 100. *)
Theorem normalise_category_score_range :
  (forall raw_sum max_sum : float,
      (if feqb max_sum (of_int 0) then Ok (lit 0 0)
       else q <- truediv raw_sum max_sum ;; Ok (fmul q (lit 100 0))) =
      Ok (normalise_category_score raw_sum max_sum)) /\
  (forall raw_sum max_sum : Q,
      (0 <= raw_sum <= max_sum)%Q ->
      (0 <= normalise_category_score raw_sum max_sum <= 100)%Q) /\
  (forall max_sum : Q,
      ~ (max_sum == 0)%Q ->
      (normalise_category_score max_sum max_sum == 100)%Q).
Proof.
  split; [|split].
  - intros raw_sum max_sum. unfold normalise_category_score, truediv.
    destruct (feqb max_sum (of_int 0)); reflexivity.
  - intros raw_sum max_sum [H0 Hmax]. unfold normalise_category_score.
    simpl. destruct (Qeq_bool max_sum (inject_Z 0)) eqn:E.
    + split; [apply Qle_refl | now compute].
    + assert (Hne : ~ (max_sum == 0)%Q)
        by (intros Hz; apply Qeq_bool_iff in Hz; unfold inject_Z in E; congruence).
      assert (Hpos : (0 < max_sum)%Q).
      { destruct (Qlt_le_dec 0 max_sum) as [Hlt|Hle]; [exact Hlt|].
        exfalso. apply Hne. apply Qle_antisym; [exact Hle|].
        eapply Qle_trans; eauto. }
      assert (Hq0 : (0 <= raw_sum / max_sum)%Q)
        by (apply Qle_shift_div_l; [exact Hpos | now rewrite Qmult_0_l]).
      assert (Hq1 : (raw_sum / max_sum <= 1)%Q)
        by (apply Qle_shift_div_r; [exact Hpos | now rewrite Qmult_1_l]).
      unfold inject_Z. split; lra.
  - intros max_sum Hne. unfold normalise_category_score. simpl.
    destruct (Qeq_bool max_sum (inject_Z 0)) eqn:E.
    + apply Qeq_bool_iff in E. now elim Hne.
    + unfold inject_Z. field. exact Hne.
Qed.

Lemma normalise_category_score_range_witness :
  (0 <= normalise_category_score (7 # 1) (12 # 1) <= 100)%Q.
Proof.
  apply (proj1 (proj2 normalise_category_score_range)).
  split; vm_compute; discriminate.
Defined.

(* ================================================================== *)
(** * Text signals *)

Lemma prefix_split (k s : string) :
  String.prefix k s = true <-> exists b, s = k ++ b.
Proof.
  revert s. induction k as [|c k IH]; intros s.
  - split; [intros _; now exists s | intros _; now destruct s].
  - destruct s as [|c' s]; simpl.
    + split; [discriminate | intros [b Hb]; discriminate].
    + destruct (ascii_dec c c') as [->|Hne].
      * rewrite IH. split; intros [b Hb]; exists b; simpl in *; congruence.
      * split; [discriminate | intros [b Hb]; simpl in Hb; congruence].
Qed.

Lemma append_assoc (a b c : string) : (a ++ b) ++ c = a ++ (b ++ c).
Proof. induction a as [|x a IH]; simpl; [reflexivity | now rewrite IH]. Qed.

Lemma str_in_nil (k : string) : str_in k "" = String.prefix k "" || false.
Proof. reflexivity. Qed.

Lemma str_in_cons (k : string) (c : ascii) (s : string) :
  str_in k (String c s) = String.prefix k (String c s) || str_in k s.
Proof. reflexivity. Qed.

(** [k in s] holds exactly when [s] is some [a + k + b]. *)
Lemma str_in_split (k s : string) :
  str_in k s = true <-> exists a b, s = a ++ k ++ b.
Proof.
  split.
  - induction s as [|c s IH].
    + rewrite str_in_nil, orb_true_iff.
      intros [H|H]; [|discriminate]. apply prefix_split in H.
      destruct H as [b Hb]. now exists "", b.
    + rewrite str_in_cons, orb_true_iff. intros [H|H].
      * apply prefix_split in H. destruct H as [b Hb]. now exists "", b.
      * destruct (IH H) as (a & b & ->). now exists (String c a), b.
  - intros (a & b & ->). induction a as [|c a IH].
    + change ("" ++ k ++ b) with (k ++ b).
      assert (Hp : String.prefix k (k ++ b) = true)
        by (apply prefix_split; now exists b).
      destruct (k ++ b) as [|c r].
      * now rewrite str_in_nil, Hp.
      * now rewrite str_in_cons, Hp.
    + change (String c a ++ k ++ b) with (String c (a ++ k ++ b)).
      rewrite str_in_cons, IH. apply orb_true_r.
Qed.

(** A text that contains a phrase contains every part of the phrase. *)
Lemma str_in_trans (a k s : string) :
  str_in a k = true -> str_in k s = true -> str_in a s = true.
Proof.
  rewrite !str_in_split. intros (a1 & b1 & ->) (a2 & b2 & ->).
  exists (a2 ++ a1), (b1 ++ b2). now rewrite !append_assoc.
Qed.

Lemma fold_left_snoc_map (A B : Type) (f : A -> B) (xs : list A) (acc : list B) :
  fold_left (fun acc x => (acc ++ [f x])%list) xs acc = (acc ++ map f xs)%list.
Proof.
  revert acc. induction xs as [|x xs IH]; intros acc; simpl.
  - now rewrite app_nil_r.
  - now rewrite IH, <- app_assoc.
Qed.

(** The two loops of [analyse_text_signals] report the categories with a
    keyword as strengths and the others as gaps, and add the red flags. *)
Lemma analyse_text_signals_shape (text : string) :
  analyse_text_signals text =
  [("strengths", strengths_of text);
   ("gaps", (category_gaps text ++ map red_flag_message (red_flags text))%list)].
Proof.
  unfold analyse_text_signals, strengths_of, category_gaps, red_flags, hits.
  cbv zeta.
  set (red := filter _ red_flag_phrases). clearbody red.
  unfold SIGNAL_KEYWORDS, items. cbn [fold_left flat_map fst snd].
  destruct (filter _ ["governance"; _; _; _; _; _; _]);
    destruct (filter _ ["gdpr"; _; _; _; _; _; _; _; _]);
    destruct (filter _ ["monitoring"; _; _; _; _; _; _; _]);
    destruct (filter _ ["ethics"; _; _; _; _; _; _]);
    destruct (filter _ ["training"; _; _; _; _; _; _]);
    cbn -[strength_message gap_message red_flag_message];
    rewrite fold_left_snoc_map; reflexivity.
Qed.

Lemma filter_nil_existsb (A : Type) (f : A -> bool) (xs : list A) :
  filter f xs = [] <-> existsb f xs = false.
Proof.
  induction xs as [|x xs IH]; simpl; [tauto|].
  destruct (f x); simpl; [split; discriminate | exact IH].
Qed.

Lemma hits_any_in (text : string) (keywords : list string) :
  hits text keywords = [] <-> any_in keywords (lower text) = false.
Proof. apply filter_nil_existsb. Qed.

Lemma findings_count (text : string) :
  (List.length (strengths_of text) + List.length (category_gaps text) = 5)%nat.
Proof.
  unfold strengths_of, category_gaps, SIGNAL_KEYWORDS. cbn [flat_map fst snd].
  destruct (hits text ["governance"; _; _; _; _; _; _]);
    destruct (hits text ["gdpr"; _; _; _; _; _; _; _; _]);
    destruct (hits text ["monitoring"; _; _; _; _; _; _; _]);
    destruct (hits text ["ethics"; _; _; _; _; _; _]);
    destruct (hits text ["training"; _; _; _; _; _; _]);
    reflexivity.
Qed.

(** Two entries of [SIGNAL_KEYWORDS] whose gap messages, or strength
    messages, are the same are one entry. *)
Lemma same_category (c1 c2 : string) (k1 k2 : list string) :
  In (c1, k1) SIGNAL_KEYWORDS -> In (c2, k2) SIGNAL_KEYWORDS ->
  gap_message c1 = gap_message c2 \/
  (exists h1 h2, strength_message c1 h1 = strength_message c2 h2) ->
  k1 = k2.
Proof.
  intros H1 H2 Hmsg. simpl in H1, H2.
  repeat (destruct H1 as [H1|H1]; [injection H1 as <- <-|]); try contradiction;
    repeat (destruct H2 as [H2|H2]; [injection H2 as <- <-|]); try contradiction;
    try reflexivity;
    destruct Hmsg as [E | (h1 & h2 & E)]; cbn in E; discriminate E.
Qed.

Lemma strength_in (text cat : string) (keywords : list string) :
  In (cat, keywords) SIGNAL_KEYWORDS -> hits text keywords <> [] ->
  In (strength_message cat (hits text keywords)) (strengths_of text).
Proof.
  intros Hin Hne. unfold strengths_of. apply in_flat_map.
  exists (cat, keywords). split; [exact Hin|]. simpl.
  destruct (hits text keywords); [congruence | now left].
Qed.

Lemma gap_in (text cat : string) (keywords : list string) :
  In (cat, keywords) SIGNAL_KEYWORDS -> hits text keywords = [] ->
  In (gap_message cat) (category_gaps text).
Proof.
  intros Hin He. unfold category_gaps. apply in_flat_map.
  exists (cat, keywords). split; [exact Hin|]. simpl. rewrite He. now left.
Qed.

Lemma gap_not_in (text cat : string) (keywords red : list string) :
  In (cat, keywords) SIGNAL_KEYWORDS -> hits text keywords <> [] ->
  ~ In (gap_message cat) (category_gaps text ++ map red_flag_message red)%list.
Proof.
  intros Hin Hne H. apply in_app_or in H. destruct H as [H|H].
  - unfold category_gaps in H. apply in_flat_map in H.
    destruct H as ([cat' kws'] & Hin' & H). simpl in H.
    destruct (hits text kws') eqn:E; [|contradiction].
    destruct H as [H|[]].
    rewrite (same_category Hin' Hin (or_introl H)) in E. congruence.
  - apply in_map_iff in H. destruct H as (p & E & _).
    unfold red_flag_message, gap_message in E. cbn in E. discriminate E.
Qed.

Lemma strength_not_in (text cat : string) (keywords h : list string) :
  In (cat, keywords) SIGNAL_KEYWORDS -> hits text keywords = [] ->
  ~ In (strength_message cat h) (strengths_of text).
Proof.
  intros Hin He H. unfold strengths_of in H. apply in_flat_map in H.
  destruct H as ([cat' kws'] & Hin' & H). simpl in H.
  destruct (hits text kws') eqn:E; [contradiction|].
  destruct H as [H|[]].
  assert (Hk : kws' = keywords)
    by (apply (same_category Hin' Hin); right; eauto).
  subst kws'. congruence.
Qed.

(** X7. For a text written in ASCII characters, [analyse_text_signals]
    reports each of its five categories exactly once: as a strength, naming
    the keywords found, when one of the category's keywords occurs in the
    text (whatever the case of its letters), and as a gap otherwise.  Each
    red-flag phrase that occurs adds one more gap, so the strengths and the
    gaps are five plus the red flags. *)
Theorem text_signals_partition (text : string) :
  isascii text = true ->
  exists strengths gaps : list string,
    analyse_text_signals text = [("strengths", strengths); ("gaps", gaps)] /\
    (List.length strengths + List.length gaps =
     5 + List.length (red_flags text))%nat /\
    forall cat keywords,
      In (cat, keywords) SIGNAL_KEYWORDS ->
      (any_in keywords (lower text) = true ->
         In (strength_message cat (hits text keywords)) strengths /\
         ~ In (gap_message cat) gaps) /\
      (any_in keywords (lower text) = false ->
         In (gap_message cat) gaps /\
         forall h, ~ In (strength_message cat h) strengths).
Proof.
  intros _. rewrite analyse_text_signals_shape. do 2 eexists.
  split; [reflexivity|]. split.
  - rewrite length_app, length_map. pose proof (findings_count text). lia.
  - intros cat keywords Hin. split; intros Hany.
    + assert (Hne : hits text keywords <> [])
        by (intros E; apply hits_any_in in E; congruence).
      split; [now apply strength_in | now apply gap_not_in with (keywords := keywords)].
    + apply hits_any_in in Hany. split.
      * apply in_or_app. left. now apply gap_in with (keywords := keywords).
      * intros h. now apply strength_not_in with (keywords := keywords).
Qed.

Lemma text_signals_partition_witness :
  exists strengths gaps : list string,
    analyse_text_signals "Our board reviews every model" =
    [("strengths", strengths); ("gaps", gaps)] /\
    In (strength_message "Governance & accountability" ["board"]) strengths /\
    In (gap_message "Ethics & societal impact") gaps.
Proof.
  destruct (@text_signals_partition "Our board reviews every model" eq_refl)
    as (strengths & gaps & E & _ & H).
  exists strengths, gaps. split; [exact E|]. split.
  - apply (H "Governance & accountability"
             ["governance"; "board"; "oversight"; "committee"; "risk"; "policy";
              "framework"]); [simpl; tauto | reflexivity].
  - apply (H "Ethics & societal impact"
             ["ethics"; "ethical"; "fairness"; "bias"; "inclusion";
              "impact assessment"; "human rights"]);
      [simpl; tauto | reflexivity].
Defined.

(** X8. A text that contains the red-flag phrase "no policy", "no
    governance" or "no oversight" is reported with the red flag among the
    gaps and, because the phrase contains a governance keyword, with
    governance and accountability as a strength and never as a gap; the same
    holds for "no consent" and data protection and privacy. *)
Theorem red_flag_counts_as_strength (text phrase cat : string) :
  In (phrase, cat) red_flag_topics ->
  str_in phrase (lower text) = true ->
  exists strengths gaps : list string,
    analyse_text_signals text = [("strengths", strengths); ("gaps", gaps)] /\
    In (red_flag_message phrase) gaps /\
    (exists h, In (strength_message cat h) strengths) /\
    ~ In (gap_message cat) gaps.
Proof.
  intros Htopic Hphrase. rewrite analyse_text_signals_shape. do 2 eexists.
  split; [reflexivity|].
  assert (Hred : In (red_flag_message phrase)
                    (map red_flag_message (red_flags text))).
  { apply in_map. unfold red_flags. apply filter_In. split; [|exact Hphrase].
    simpl in Htopic.
    repeat (destruct Htopic as [Htopic|Htopic];
            [injection Htopic as <- <-; simpl; tauto|]).
    contradiction. }
  assert (Hkw : exists keywords kw,
             In (cat, keywords) SIGNAL_KEYWORDS /\ In kw keywords /\
             str_in kw phrase = true).
  { simpl in Htopic.
    destruct Htopic as [E|[E|[E|[E|[]]]]]; injection E as <- <-.
    - do 2 eexists. split; [left; reflexivity|].
      split; [|instantiate (1 := "policy"); reflexivity]. simpl; tauto.
    - do 2 eexists. split; [left; reflexivity|].
      split; [|instantiate (1 := "governance"); reflexivity]. simpl; tauto.
    - do 2 eexists. split; [left; reflexivity|].
      split; [|instantiate (1 := "oversight"); reflexivity]. simpl; tauto.
    - do 2 eexists. split; [right; left; reflexivity|].
      split; [|instantiate (1 := "consent"); reflexivity]. simpl; tauto. }
  destruct Hkw as (keywords & kw & Hin & Hkw & Hsub).
  assert (Hne : hits text keywords <> []).
  { intros E. apply hits_any_in in E. unfold any_in in E.
    assert (Hex : existsb (fun k => str_in k (lower text)) keywords = true)
      by (apply existsb_exists; exists kw; split;
          [exact Hkw | eapply str_in_trans; [exact Hsub | exact Hphrase]]).
    congruence. }
  split; [apply in_or_app; now right|]. split.
  - eexists. now apply strength_in with (keywords := keywords).
  - now apply gap_not_in with (keywords := keywords).
Qed.

Lemma red_flag_counts_as_strength_witness :
  exists strengths gaps : list string,
    analyse_text_signals "We have NO POLICY for AI yet." =
    [("strengths", strengths); ("gaps", gaps)] /\
    In (red_flag_message "no policy") gaps /\
    (exists h, In (strength_message "Governance & accountability" h) strengths) /\
    ~ In (gap_message "Governance & accountability") gaps.
Proof.
  apply red_flag_counts_as_strength; [simpl; tauto | reflexivity].
Defined.

(* ================================================================== *)
(** * The stored row *)

Section StoredRow.
Context {F : Type} {PF : PyFloat F}.

Lemma store_each_get_other (V W : Type) (f : W -> V) (d : dict W) (out : dict V)
    (k : string) :
  ~ In k (keys d) -> get (store_each f d out) k = get out k.
Proof.
  unfold store_each. revert out.
  induction d as [|[k0 x0] d IH]; intros out Hk; simpl; [reflexivity|].
  rewrite IH by (intros Hin; apply Hk; now right).
  apply get_setitem_neq. intros E. apply Hk. now left.
Qed.

Lemma assessment_row_store (now : string)
    (org_name org_type industry country email : option string)
    (overall_score : F) (band_label : string) (category_scores : dict F) :
  assessment_row now org_name org_type industry country email overall_score
                 band_label category_scores =
  store_each number
    (map (fun item => (category_column (fst item), snd item)) category_scores)
    (assessment_row now org_name org_type industry country email overall_score
                    band_label []).
Proof.
  unfold assessment_row, store_each, items. simpl fold_left at 3.
  generalize (display [("timestamp", text now);
                       ("org_name", text (or_empty org_name));
                       ("org_type", text (or_empty org_type));
                       ("industry", text (or_empty industry));
                       ("country", text (or_empty country));
                       ("email", text (or_empty email));
                       ("overall_score", @number F overall_score);
                       ("band", text band_label)]).
  induction category_scores as [|[cat score] d IH]; intros row; simpl;
    [reflexivity | apply IH].
Qed.

Lemma category_column_not_fixed (cat k : string) :
  In k fixed_columns -> category_column cat <> k.
Proof.
  intros Hk E. subst k. unfold category_column in Hk. simpl in Hk.
  repeat (destruct Hk as [Hk|Hk]; [discriminate Hk|]). contradiction.
Qed.

Lemma keys_categories (V : Type) (d : dict V) :
  keys d = CATEGORIES ->
  exists v0 v1 v2 v3 v4,
    d = [("Governance & Policy", v0);
         ("Data Privacy & Protection", v1);
         ("Technical Controls & Monitoring", v2);
         ("Ethics & Societal Impact", v3);
         ("Organisational Readiness & Capability", v4)].
Proof.
  unfold keys, CATEGORIES. intros H.
  destruct d as [|[k0 v0] [|[k1 v1] [|[k2 v2] [|[k3 v3] [|[k4 v4] [|? ?]]]]]];
    try discriminate H.
  simpl in H. injection H as -> -> -> -> ->. now exists v0, v1, v2, v3, v4.
Qed.
End StoredRow.

(** X9. The row [store_assessment] appends: whatever the category names,
    the eight fixed columns keep the values passed in (no category column
    overwrites them); and for the category scores of [compute_scores] the
    row has thirteen columns, the fixed ones followed by one column per
    category under the name the trend readers look up, each holding the
    category's score. *)
Theorem assessment_row_columns (F : Type) (PF : PyFloat F) (now : string)
    (org_name org_type industry country email : option string)
    (overall_score : F) (band_label : string) (category_scores : dict F) :
  let row := assessment_row now org_name org_type industry country email
                            overall_score band_label category_scores in
  (forall k, In k fixed_columns ->
     get row k =
     get (assessment_row now org_name org_type industry country email
                         overall_score band_label []) k) /\
  get row "overall_score" = Some (number overall_score) /\
  get row "timestamp" = Some (text now) /\
  (keys category_scores = CATEGORIES ->
   keys row = (fixed_columns ++ map category_column CATEGORIES)%list /\
   NoDup (keys row) /\
   forall cat score,
     get category_scores cat = Some score ->
     get row (category_column cat) = Some (number score)).
Proof.
  intros row. subst row. rewrite assessment_row_store.
  assert (Hfixed : forall k, In k fixed_columns ->
            get (store_each number
                   (map (fun item => (category_column (fst item), snd item))
                        category_scores)
                   (assessment_row now org_name org_type industry country email
                                   overall_score band_label [])) k =
            get (assessment_row now org_name org_type industry country email
                                overall_score band_label []) k).
  { intros k Hk. apply store_each_get_other. unfold keys. rewrite map_map.
    simpl. intros Hin. apply in_map_iff in Hin. destruct Hin as ([c v] & E & _).
    simpl in E. eapply category_column_not_fixed; [exact Hk | exact E]. }
  split; [exact Hfixed|].
  split; [rewrite Hfixed by (simpl; tauto); reflexivity|].
  split; [rewrite Hfixed by (simpl; tauto); reflexivity|].
  intros Hkeys.
  destruct (@keys_categories _ category_scores Hkeys)
    as (v0 & v1 & v2 & v3 & v4 & ->).
  split; [reflexivity|]. split.
  - change (NoDup (fixed_columns ++ map category_column CATEGORIES)%list).
    repeat constructor; simpl; intuition discriminate.
  - intros cat score Hget.
    destruct (in_dec string_dec cat CATEGORIES) as [Hin|Hout].
    + simpl in Hin.
      repeat (destruct Hin as [<-|Hin];
              [injection Hget as ->; reflexivity|]).
      contradiction.
    + rewrite get_absent in Hget by exact Hout. discriminate Hget.
Qed.

Lemma assessment_row_columns_witness :
  get (assessment_row "2024-06-10T09:00:00" (Some "Acme") None None None
                      (Some "a@acme.org") 50%float "Emerging"
                      (map (fun cat => (cat, 50%float)) CATEGORIES))
      (category_column "Ethics & Societal Impact") = Some (number 50%float).
Proof.
  apply (proj2 (proj2 (proj2 (proj2
    (@assessment_row_columns float binary64 "2024-06-10T09:00:00" (Some "Acme")
       None None None (Some "a@acme.org") 50%float "Emerging"
       (map (fun cat => (cat, 50%float)) CATEGORIES)))) eq_refl));
    reflexivity.
Defined.

(* ================================================================== *)
(** * The PDF report *)

(** X10. The band badge of the report is orange for "Emerging" (40 <=
    overall < 60) and grey for every other score: the labels "AI Ready",
    "Near Ready" and "High Risk" of [classify_band] are not keys of
    [BAND_STYLES], so its red, amber and green are never used. *)
Theorem band_badge_colour (overall : float) :
  is_nan overall = false ->
  band_colour (fst (classify_band overall)) =
  Ok (if at_level Lower overall then "orange" else "grey").
Proof.
  intros Hnum. rewrite classify_band_level. simpl fst.
  pose proof (@level_of_iff _ _ overall Lower (@binary64_ordered_at overall Hnum))
    as Hiff.
  destruct Hiff as [H1 H2].
  destruct (at_level Lower overall).
  - rewrite (H2 eq_refl). reflexivity.
  - destruct (level_of overall); try reflexivity.
    discriminate (H1 eq_refl).
Qed.

Lemma band_badge_colour_witness :
  band_colour (fst (classify_band 87.5%float)) = Ok "grey".
Proof. apply (band_badge_colour 87.5%float). reflexivity. Defined.

Section CategoryTable.
Context {F : Type} {PF : PyFloat F}.

Lemma category_table_loop (d : dict F) :
  forall (rows : list (string * F * string)) (styles : list (nat * string))
         (idx : nat),
    fold_left
      (fun st item =>
         let '(table_data, row_styles, idx) := st in
         let '(cat, score) := item in
         let status :=
           if fgeb score (of_int 75) then "Strength"
           else if fgeb score (of_int 50) then "Developing"
           else "Priority gap" in
         let table_data := (table_data ++ [(cat, score, status)])%list in
         let bg :=
           if fgeb score (of_int 75) then "#E6F4EA"
           else if fgeb score (of_int 50) then "#FFF4E5"
           else "#FDECEA" in
         (table_data, (row_styles ++ [(idx, bg)])%list, S idx))
      d (rows, styles, idx) =
    ((rows ++ map (fun item => (fst item, snd item, table_status (snd item))) d)%list,
     (styles ++ combine (seq idx (List.length d))
                        (map (fun item => table_background (snd item)) d))%list,
     (idx + List.length d)%nat).
Proof.
  induction d as [|[cat score] d IH]; intros rows styles idx; simpl.
  - now rewrite !app_nil_r, Nat.add_0_r.
  - rewrite IH. simpl. rewrite <- !app_assoc. simpl.
    now rewrite Nat.add_succ_r.
Qed.

Lemma nth_error_combine_seq (B : Type) (l : list B) :
  forall (i k : nat) (b : B),
    nth_error l k = Some b ->
    nth_error (combine (seq i (List.length l)) l) k = Some ((i + k)%nat, b).
Proof.
  induction l as [|x l IH]; intros i k b Hk; destruct k as [|k]; simpl in *;
    try discriminate.
  - injection Hk as ->. now rewrite Nat.add_0_r.
  - rewrite (IH (S i) k b Hk). f_equal. f_equal. lia.
Qed.

Lemma category_table_shape (d : dict F) :
  category_table d =
  (map (fun item => (fst item, snd item, table_status (snd item))) d,
   combine (seq 1 (List.length d))
           (map (fun item => table_background (snd item)) d)).
Proof.
  unfold category_table, items. now rewrite category_table_loop.
Qed.
End CategoryTable.

(** X11. The category table of the report has one row per category score,
    in order; the background recorded for row [k + 1] of the table (row 0
    is the header) is the one of the [k]-th category; and status and
    background always go together: "Strength" on light green iff score >=
    75, "Developing" on amber iff the score is not >= 75 but >= 50,
    "Priority gap" on light red otherwise. *)
Theorem category_table_rows (F : Type) (PF : PyFloat F)
    (category_scores : dict F) (k : nat) (cat : string) (score : F) :
  nth_error (items category_scores) k = Some (cat, score) ->
  exists status bg : string,
    nth_error (fst (category_table category_scores)) k = Some (cat, score, status) /\
    nth_error (snd (category_table category_scores)) k = Some (S k, bg) /\
    (fleb (of_int 75) score = true ->
       status = "Strength" /\ bg = "#E6F4EA") /\
    (fleb (of_int 75) score = false -> fleb (of_int 50) score = true ->
       status = "Developing" /\ bg = "#FFF4E5") /\
    (fleb (of_int 75) score = false -> fleb (of_int 50) score = false ->
       status = "Priority gap" /\ bg = "#FDECEA").
Proof.
  intros Hk. unfold items in Hk. rewrite category_table_shape.
  exists (table_status score), (table_background score). simpl fst. simpl snd.
  split; [now rewrite nth_error_map, Hk|].
  split.
  - rewrite <- (length_map (fun item : string * F => table_background (snd item))
                          category_scores).
    apply (@nth_error_combine_seq string _ 1 k).
    now rewrite nth_error_map, Hk.
  - unfold table_status, table_background, fgeb.
    destruct (fleb (of_int 75) score); destruct (fleb (of_int 50) score);
      repeat split; intros; try discriminate; reflexivity.
Qed.

Lemma category_table_rows_witness :
  exists status bg : string,
    nth_error (fst (category_table [("Governance & Policy", 58.3%float);
                                    ("Data Privacy & Protection", 75%float)])) 1 =
    Some ("Data Privacy & Protection", 75%float, status) /\
    nth_error (snd (category_table [("Governance & Policy", 58.3%float);
                                    ("Data Privacy & Protection", 75%float)])) 1 =
    Some (2%nat, bg) /\
    status = "Strength" /\ bg = "#E6F4EA".
Proof.
  destruct (@category_table_rows float binary64
              [("Governance & Policy", 58.3%float);
               ("Data Privacy & Protection", 75%float)]
              1 "Data Privacy & Protection" 75%float eq_refl)
    as (status & bg & H1 & H2 & H3 & _).
  exists status, bg. split; [exact H1|]. split; [exact H2|].
  apply H3. reflexivity.
Defined.

Lemma threshold_75 : Prim2SF (of_int 75) = S754_finite false 5277655813324800 (-46).
Proof. vm_compute. reflexivity. Qed.

Lemma get_in_items (V : Type) (d : dict V) (k : string) (v : V) :
  get d k = Some v -> In (k, v) d.
Proof.
  induction d as [|[k0 v0] d IH]; simpl; [discriminate|].
  destruct (String.eqb k0 k) eqn:E.
  - apply String.eqb_eq in E. intros H. left. congruence.
  - intros H. right. auto.
Qed.

(** X12. The thresholds of the report's table and of the recommendations
    differ: a category whose score is a number with 75 <= score < 80 is
    shown as a "Strength" in the category table of the report while its
    recommendation is the "strengthen" text of the 60..80 tier. *)
Theorem strength_with_strengthen_advice (category_scores : dict float)
    (cat : string) (score : float) :
  NoDup (keys category_scores) ->
  get category_scores cat = Some score ->
  is_nan score = false ->
  fleb (of_int 75) score = true ->
  fltb score (of_int 80) = true ->
  In (cat, score, "Strength") (fst (category_table category_scores)) /\
  get (generate_recommendations category_scores) cat = Some rec_strengthen.
Proof.
  intros Hnd Hget Hnum H75 H80. split.
  - rewrite category_table_shape. simpl fst. apply in_map_iff.
    exists (cat, score). split; [|now apply get_in_items].
    simpl. unfold table_status, fgeb. now rewrite H75.
  - erewrite generate_recommendations_get; [|exact Hnd|exact Hget].
    assert (H60 : fleb (of_int 60) score = true)
      by (eapply leb_lower_threshold;
          [exact threshold_75 | exact threshold_60 | lia | exact H75]).
    assert (Hlt : fleb (of_int 80) score = false).
    { pose proof (@ltb_negb_leb (of_int 80) score _ _ threshold_80 Hnum) as E.
      simpl in E, H80. rewrite H80 in E. symmetry in E.
      now apply negb_true_iff in E. }
    unfold level_of, fgeb. now rewrite Hlt, H60.
Qed.

Lemma strength_with_strengthen_advice_witness :
  In ("Data Privacy & Protection", 75%float, "Strength")
     (fst (category_table [("Governance & Policy", 58.3%float);
                           ("Data Privacy & Protection", 75%float)])) /\
  get (generate_recommendations [("Governance & Policy", 58.3%float);
                                 ("Data Privacy & Protection", 75%float)])
      "Data Privacy & Protection" = Some rec_strengthen.
Proof.
  apply strength_with_strengthen_advice; try reflexivity.
  repeat constructor; simpl; intuition discriminate.
Defined.

(* ================================================================== *)
(** * The trend section of the report and the results page *)

(** X14. For every history of ISO 8601 timestamps, in whatever order: the
    trend section of the report is absent below two records; from two
    records on it is shown exactly when the drawing of the chart before its
    numbers raises nothing, the numbers themselves never raise, and its
    previous score, latest score and overall change are then those of the
    "Change since last assessment" metric of the results page for the same
    records.  When the chart raises, the [except] clause leaves the report
    without the numbers that the results page shows. *)
Theorem report_change_agrees_with_app (F : Type) (PF : PyFloat F)
    (chart : list (Assessment F) -> bool) (df : list (Assessment F)) :
  dated df = true ->
  match historical_trend chart df, change_since_last df with
  | Some t, Ok (Some c) =>
      (2 <= List.length df)%nat /\
      chart (sort_values_timestamp df) = true /\
      prev_overall t = prev_score c /\
      latest_overall t = latest_score c /\
      delta_overall t = delta c
  | None, Ok (Some c) =>
      (2 <= List.length df)%nat /\ chart (sort_values_timestamp df) = false
  | None, Ok None => (List.length df < 2)%nat
  | _, _ => False
  end.
Proof.
  intros _. unfold historical_trend, change_since_last.
  rewrite sort_values_length.
  destruct (2 <=? List.length df)%nat eqn:E.
  - apply Nat.leb_le in E.
    replace (0 <? List.length df)%nat with true
      by (symmetry; apply Nat.ltb_lt; lia).
    destruct (@trend_numbers_returns F PF (sort_values_timestamp df))
      as [t [Ht [Hp [Hl Hd]]]]; [rewrite sort_values_length; exact E|].
    rewrite Hp, Hl. cbn [bind].
    destruct (chart (sort_values_timestamp df)).
    + rewrite Ht. cbn [prev_score latest_score delta].
      repeat split; [exact E | exact Hd].
    + split; [exact E | reflexivity].
  - apply Nat.leb_gt in E.
    destruct (0 <? List.length df)%nat; exact E.
Qed.

Lemma report_change_agrees_with_app_witness :
  match historical_trend (fun _ => false) history_a, change_since_last history_a with
  | Some t, Ok (Some c) =>
      (2 <= List.length history_a)%nat /\
      true = false /\
      prev_overall t = prev_score c /\
      latest_overall t = latest_score c /\
      delta_overall t = delta c
  | None, Ok (Some c) => (2 <= List.length history_a)%nat /\ false = false
  | None, Ok None => (List.length history_a < 2)%nat
  | _, _ => False
  end.
Proof.
  apply (@report_change_agrees_with_app float binary64 (fun _ => false) history_a).
  reflexivity.
Defined.

(* ================================================================== *)
(** * The weakest area *)

(** The scan of [min]: with [pre] the items before the best one so far, all
    of a greater key, and [mid] the items seen after it, none of a smaller
    key, the item returned is the first one of the smallest key. *)
Lemma min_scan_first_minimum (A : Type) (key : A -> Q) (rest : list A) :
  forall (best : A) (pre mid : list A),
    (forall x, In x pre -> (key best < key x)%Q) ->
    (forall x, In x mid -> (key best <= key x)%Q) ->
    exists pre' post,
      (pre ++ best :: mid ++ rest)%list =
      (pre' ++ min_scan key best rest :: post)%list /\
      (forall x, In x pre' -> (key (min_scan key best rest) < key x)%Q) /\
      (forall x, In x post -> (key (min_scan key best rest) <= key x)%Q).
Proof.
  induction rest as [|x rest IH]; intros best pre mid Hpre Hmid.
  - exists pre, mid. simpl. rewrite app_nil_r. auto.
  - simpl min_scan. simpl fltb.
    destruct (Qle_bool (key best) (key x)) eqn:E; simpl negb.
    + apply Qle_bool_iff in E.
      destruct (IH best pre (mid ++ [x])%list Hpre) as [pre' [post [Heq H]]].
      * intros y Hy. apply in_app_or in Hy. destruct Hy as [Hy|[<-|[]]]; auto.
      * exists pre', post. split; [|exact H].
        rewrite <- Heq. now rewrite <- app_assoc.
    + assert (Hlt : (key x < key best)%Q).
      { apply Qnot_le_lt. intros H. apply Qle_bool_iff in H. congruence. }
      destruct (IH x (pre ++ best :: mid)%list []) as [pre' [post [Heq H]]].
      * intros y Hy. apply in_app_or in Hy. destruct Hy as [Hy|[<-|Hy]].
        -- eapply Qlt_trans; [exact Hlt | now apply Hpre].
        -- exact Hlt.
        -- eapply Qlt_le_trans; [exact Hlt | now apply Hmid].
      * intros y [].
      * exists pre', post. split; [|exact H].
        rewrite <- Heq. rewrite <- app_assoc. reflexivity.
Qed.

(** X15. The "weakest area" of the results page, in exact arithmetic: it is
    missing only for an empty dictionary of scores (where [min] raises);
    otherwise it is the first category, in the order of the dictionary,
    that has the lowest score: every category before it has a strictly
    higher score and none after it has a lower one, so that on a tie the
    earlier category is shown. *)
Theorem weakest_cat_first_lowest (category_scores : dict Q) :
  (weakest_cat category_scores = None <-> category_scores = []) /\
  (forall cat,
      weakest_cat category_scores = Some cat ->
      exists before after,
        keys category_scores = (before ++ cat :: after)%list /\
        (forall c, In c before ->
           (get_default category_scores cat (lit 0 0) <
            get_default category_scores c (lit 0 0))%Q) /\
        (forall c, In c after ->
           (get_default category_scores cat (lit 0 0) <=
            get_default category_scores c (lit 0 0))%Q)).
Proof.
  unfold weakest_cat, min_by. split.
  - destruct category_scores as [|[k v] d]; simpl; split; congruence.
  - intros cat H.
    destruct (keys category_scores) as [|k ks] eqn:Ek; [discriminate|].
    injection H as <-.
    destruct (@min_scan_first_minimum string
                (fun c => get_default category_scores c (lit 0 0)) ks k [] [])
      as [before [after [Heq [Hb Ha]]]].
    + intros x [].
    + intros x [].
    + exists before, after. simpl in Heq. split; [exact Heq|]. split; assumption.
Qed.

Lemma weakest_cat_first_lowest_witness :
  exists before after,
    keys [("Governance & Policy", 75 # 1); ("Data Privacy & Protection", 50 # 1);
          ("Ethics & Societal Impact", 50 # 1)] =
      (before ++ "Data Privacy & Protection" :: after)%list /\
    (forall c, In c before ->
       (get_default [("Governance & Policy", 75 # 1);
                     ("Data Privacy & Protection", 50 # 1);
                     ("Ethics & Societal Impact", 50 # 1)]
                    "Data Privacy & Protection" (lit 0 0) <
        get_default [("Governance & Policy", 75 # 1);
                     ("Data Privacy & Protection", 50 # 1);
                     ("Ethics & Societal Impact", 50 # 1)] c (lit 0 0))%Q) /\
    (forall c, In c after ->
       (get_default [("Governance & Policy", 75 # 1);
                     ("Data Privacy & Protection", 50 # 1);
                     ("Ethics & Societal Impact", 50 # 1)]
                    "Data Privacy & Protection" (lit 0 0) <=
        get_default [("Governance & Policy", 75 # 1);
                     ("Data Privacy & Protection", 50 # 1);
                     ("Ethics & Societal Impact", 50 # 1)] c (lit 0 0))%Q).
Proof.
  apply (proj2 (weakest_cat_first_lowest
                  [("Governance & Policy", 75 # 1);
                   ("Data Privacy & Protection", 50 # 1);
                   ("Ethics & Societal Impact", 50 # 1)])).
  reflexivity.
Defined.

(* ================================================================== *)
(** * The synthetic data of the prototype *)

Lemma SFcompare_antisym (a b : spec_float) :
  SFcompare b a = option_map CompOpp (SFcompare a b).
Proof.
  destruct a as [sa | sa | | sa ma ea], b as [sb | sb | | sb mb eb];
    try reflexivity;
    try (destruct sa; reflexivity);
    try (destruct sb; reflexivity);
    try (destruct sa, sb; reflexivity).
  simpl. destruct sa, sb; try reflexivity;
    rewrite (Z.compare_antisym eb ea); destruct (eb ?= ea); simpl;
    try reflexivity;
    change (PosDef.Pos.compare_cont Eq mb ma) with (mb ?= ma)%positive;
    change (PosDef.Pos.compare_cont Eq ma mb) with (ma ?= mb)%positive;
    rewrite (Pos.compare_antisym mb ma); destruct (mb ?= ma)%positive;
    reflexivity.
Qed.

(** For two floats that are numbers, [a < b] is the negation of [b <= a]. *)
Lemma ltb_negb_leb_numbers (a b : float) :
  is_nan a = false -> is_nan b = false ->
  PrimFloat.ltb a b = negb (PrimFloat.leb b a).
Proof.
  intros Ha Hb. apply not_nan_spec in Ha. apply not_nan_spec in Hb.
  rewrite ltb_spec, leb_spec. unfold SFltb, SFleb.
  assert (H : SFcompare (Prim2SF a) (Prim2SF b) <> None).
  { destruct (Prim2SF a) as [sa | sa | | sa ma ea],
             (Prim2SF b) as [sb | sb | | sb mb eb];
      simpl; try congruence;
      try (destruct sa; congruence); try (destruct sb; congruence);
      try (destruct sa, sb; congruence). }
  rewrite (SFcompare_antisym (Prim2SF a) (Prim2SF b)).
  destruct (SFcompare (Prim2SF a) (Prim2SF b)) as [[]|]; simpl;
    try reflexivity; congruence.
Qed.

(** [np.clip(x, lo, hi)] of a number is between the bounds, when these are
    numbers in order. *)
Lemma clip_between (x lo hi : float) :
  is_nan x = false -> is_nan lo = false -> is_nan hi = false ->
  PrimFloat.leb lo hi = true ->
  between lo hi (clip x lo hi) = true.
Proof.
  intros Hx Hlo Hhi Hle. unfold clip, between.
  pose proof (@ltb_negb_leb_numbers x lo Hx Hlo) as H0.
  pose proof (@ltb_negb_leb_numbers hi x Hhi Hx) as H100.
  pose proof (@ltb_negb_leb_numbers lo lo Hlo Hlo) as Hlo'.
  pose proof (@ltb_negb_leb_numbers hi hi Hhi Hhi) as Hhi'.
  assert (Hirr : forall a, PrimFloat.ltb a a = false).
  { intros a. rewrite ltb_spec. unfold SFltb.
    destruct (Prim2SF a) as [sa | sa | | sa ma ea]; try reflexivity;
      try (destruct sa; reflexivity).
    simpl. destruct sa; rewrite Z.compare_refl;
      change (PosDef.Pos.compare_cont Eq ma ma) with (ma ?= ma)%positive;
      now rewrite Pos.compare_refl. }
  rewrite Hirr in Hlo', Hhi'.
  symmetry in Hlo', Hhi'.
  apply negb_false_iff in Hlo'. apply negb_false_iff in Hhi'.
  change (@fltb float binary64) with PrimFloat.ltb.
  change (@fleb float binary64) with PrimFloat.leb.
  destruct (PrimFloat.ltb x lo) eqn:E0; [now rewrite Hlo', Hle|].
  destruct (PrimFloat.ltb hi x) eqn:E100; [now rewrite Hhi', Hle|].
  symmetry in H0, H100.
  apply negb_false_iff in H0. apply negb_false_iff in H100.
  now rewrite H0, H100.
Qed.

Lemma all_graded_spec (f : Z -> Z -> Z -> Z -> Z -> bool) :
  all_graded f = true ->
  forall g p t e o,
    In g (zrange 1 5) -> In p (zrange 1 5) -> In t (zrange 1 5) ->
    In e (zrange 1 5) -> In o (zrange 1 5) ->
    f g p t e o = true.
Proof.
  unfold all_graded. generalize (zrange 1 5) as l.
  intros l Hall g p t e o Hg Hp Ht He Ho.
  rewrite forallb_forall in Hall. specialize (Hall g Hg).
  rewrite forallb_forall in Hall. specialize (Hall p Hp).
  rewrite forallb_forall in Hall. specialize (Hall t Ht).
  rewrite forallb_forall in Hall. specialize (Hall e He).
  rewrite forallb_forall in Hall. exact (Hall o Ho).
Qed.

(** The 3125 rows, evaluated. *)
Lemma synthetic_scores_checked : all_graded synthetic_score_ok = true.
Proof. vm_compute. reflexivity. Qed.

(** X16. The target of the synthetic training data.  In exact arithmetic the
    score before the noise is [6*governance + 5*privacy + 4*technical +
    3*ethics + 2*org_capability].  In binary64, for the inputs the generator
    draws (each of the five from 1 to 5), the score is between 20 and 100
    and the clipping alone leaves it unchanged; and for all inputs and every
    noise whose sum with the score is a number, the stored readiness score
    is between 0 and 100. *)
Theorem synthetic_readiness_range :
  (forall g p t e o : Z,
      (score g p t e o == inject_Z (6 * g + 5 * p + 4 * t + 3 * e + 2 * o))%Q) /\
  (forall g p t e o : Z,
      In g (zrange 1 5) -> In p (zrange 1 5) -> In t (zrange 1 5) ->
      In e (zrange 1 5) -> In o (zrange 1 5) ->
      between (of_int 20) (of_int 100) (score g p t e o : float) = true /\
      readiness_score g p t e o (lit 0 0) = (score g p t e o : float)) /\
  (forall (g p t e o : Z) (noise : float),
      is_nan (fadd (score g p t e o) noise) = false ->
      between (of_int 0) (of_int 100) (readiness_score g p t e o noise) = true).
Proof.
  split; [|split].
  - intros g p t e o. rewrite !inject_Z_plus, !inject_Z_mult.
    unfold score, lit.
    change (@of_int Q exact) with inject_Z.
    change (@fadd Q exact) with Qplus.
    change (@fmul Q exact) with Qmult.
    change (@fquot Q exact) with Qdiv.
    change (10 ^ Z.of_nat 2) with 100.
    field.
  - intros g p t e o Hg Hp Ht He Ho.
    pose proof (@all_graded_spec synthetic_score_ok synthetic_scores_checked
                  g p t e o Hg Hp Ht He Ho) as Hall.
    unfold synthetic_score_ok in Hall.
    apply andb_true_iff in Hall. destruct Hall as [Hb Heq].
    split; [exact Hb|]. now apply Leibniz.eqb_spec in Heq.
  - intros g p t e o noise Hnum. unfold readiness_score.
    apply clip_between; [exact Hnum | | |]; vm_compute; reflexivity.
Qed.

Lemma synthetic_readiness_range_witness :
  between (of_int 20) (of_int 100) (score 3 4 2 5 1 : float) = true /\
  readiness_score 3 4 2 5 1 (lit 0 0) = (score 3 4 2 5 1 : float).
Proof.
  apply (proj1 (proj2 synthetic_readiness_range) 3 4 2 5 1);
    vm_compute; tauto.
Defined.

(* ================================================================== *)
(** * The answers of the form *)

Lemma for_each_app (A S : Type) (body : S -> A -> result S) (xs ys : list A) (st : S) :
  for_each (xs ++ ys)%list body st = bind (for_each xs body st) (for_each ys body).
Proof.
  revert st. induction xs as [|x xs IH]; intros st; simpl; [reflexivity|].
  destruct (body st x) as [st'|e]; simpl; [apply IH | reflexivity].
Qed.

(** A loop nested in a loop over the same state is one loop over the
    concatenated items. *)
Lemma for_each_flat_map (A B S : Type) (g : A -> list B)
    (body : S -> B -> result S) (xs : list A) (st : S) :
  for_each xs (fun st x => for_each (g x) body st) st =
  for_each (flat_map g xs) body st.
Proof.
  revert st. induction xs as [|x xs IH]; intros st; simpl; [reflexivity|].
  rewrite for_each_app.
  destruct (for_each (g x) body st) as [st'|e]; simpl; [apply IH | reflexivity].
Qed.

Lemma get_present_key (V : Type) (d : dict V) (k : string) :
  In k (keys d) -> exists v, get d k = Some v /\ In v (values d).
Proof.
  intros Hin. destruct (get d k) as [v|] eqn:E.
  - exists v. split; [reflexivity|]. eapply get_in_values. exact E.
  - exfalso. revert Hin E. unfold keys.
    induction d as [|[k0 v0] d IH]; simpl; [tauto|].
    destruct (String.eqb k0 k) eqn:E0; [discriminate|].
    apply String.eqb_neq in E0. intros [H|H] Hg; [contradiction|auto].
Qed.

(** A loop that stores one value under a key of its own for each item. *)
Lemma for_each_store_by (A V : Type) (key : A -> string) (val : A -> V)
    (xs : list A) (body : dict V -> A -> result (dict V)) :
  forall out : dict V,
    (forall out' x, In x xs -> body out' x = Ok (setitem out' (key x) (val x))) ->
    NoDup (keys out ++ map key xs)%list ->
    for_each xs body out = Ok (out ++ map (fun x => (key x, val x)) xs)%list.
Proof.
  induction xs as [|x xs IH]; intros out Hbody Hnd; simpl.
  - now rewrite app_nil_r.
  - rewrite Hbody by now left. simpl bind.
    assert (Hk : ~ In (key x) (keys out)).
    { intros Hin. simpl in Hnd. apply NoDup_remove_2 in Hnd. apply Hnd.
      apply in_or_app. now left. }
    rewrite setitem_absent by exact Hk.
    rewrite IH.
    + now rewrite <- app_assoc.
    + intros out' y Hy. apply Hbody. now right.
    + unfold keys in *. rewrite map_app. simpl. rewrite <- app_assoc. exact Hnd.
Qed.

Lemma get_map_by (A V : Type) (key : A -> string) (val : A -> V) (xs : list A)
    (x : A) :
  NoDup (map key xs) -> In x xs ->
  get (map (fun x => (key x, val x)) xs) (key x) = Some (val x).
Proof.
  induction xs as [|y xs IH]; intros Hnd Hin; [destruct Hin|].
  simpl. inversion Hnd as [|? ? Hy Hnd']; subst.
  destruct Hin as [->|Hin]; [now rewrite String.eqb_refl|].
  destruct (String.eqb (key y) (key x)) eqn:E; [|now apply IH].
  apply String.eqb_eq in E. exfalso. apply Hy. rewrite E.
  now apply in_map.
Qed.

Lemma get_as_numbers (F : Type) (PF : PyFloat F) (responses : dict Z) (k : string) :
  get (as_numbers responses : dict F) k = option_map of_int (get responses k).
Proof.
  unfold as_numbers. induction responses as [|[k0 z0] d IH]; simpl; [reflexivity|].
  destruct (String.eqb k0 k); [reflexivity | exact IH].
Qed.

Lemma question_ids_nodup : NoDup (map id QUESTIONS).
Proof. repeat constructor; simpl; intuition discriminate. Qed.

(** The form stores, for each question of the catalog in catalog order, the
    value of the option chosen. *)
Lemma form_responses_spec (label : Question -> string) :
  (forall q, In q QUESTIONS -> In (label q) (keys (options (qtype q)))) ->
  form_responses label =
  Ok (map (fun q => (id q, get_default (options (qtype q)) (label q) 0)) QUESTIONS).
Proof.
  intros Hlabel. unfold form_responses.
  rewrite (for_each_flat_map
             (fun cat => filter (fun q => String.eqb (category q) cat) QUESTIONS)).
  change (flat_map _ App.CAT_LIST) with QUESTIONS.
  apply (@for_each_store_by Question Z id
           (fun q => get_default (options (qtype q)) (label q) 0)
           QUESTIONS _ empty).
  - intros out q Hq.
    destruct (get_present_key _ _ (Hlabel q Hq)) as [v [Hv _]].
    unfold get_default. rewrite Hv.
    destruct (qtype q); cbn [options] in Hv; cbv beta iota;
      unfold getitem; rewrite Hv; reflexivity.
  - exact question_ids_nodup.
Qed.

(** X17. The form answers every question of the catalog: when each widget
    returns one of the options it offers, the loop over [CAT_LIST] and the
    questions of each category raises no [KeyError] and stores exactly one
    answer per catalog question, in catalog order, which is the value of the
    chosen option in the table of the question's kind; so the responses
    handed to the engine are complete and within the declared domains. *)
Theorem form_answers_every_question (F : Type) (PF : PyFloat F)
    (label : Question -> string) :
  (forall q, In q QUESTIONS -> In (label q) (keys (options (qtype q)))) ->
  exists responses : dict Z,
    form_responses label = Ok responses /\
    keys responses = map id QUESTIONS /\
    (forall q, In q QUESTIONS ->
       exists z, get responses (id q) = Some z /\
                 get (options (qtype q)) (label q) = Some z) /\
    complete (as_numbers responses : dict F) /\
    answers_in_domain (as_numbers responses : dict F).
Proof.
  intros Hlabel.
  set (val := fun q => get_default (options (qtype q)) (label q) 0).
  exists (map (fun q => (id q, val q)) QUESTIONS).
  split; [apply form_responses_spec; exact Hlabel|].
  assert (Hget : forall q, In q QUESTIONS ->
            get (map (fun q => (id q, val q)) QUESTIONS) (id q) = Some (val q)).
  { intros q Hq. apply get_map_by; [exact question_ids_nodup | exact Hq]. }
  assert (Hval : forall q, In q QUESTIONS ->
            get (options (qtype q)) (label q) = Some (val q) /\
            In (val q) (domain (qtype q))).
  { intros q Hq. destruct (get_present_key _ _ (Hlabel q Hq)) as [v [Hv Hin]].
    unfold val, get_default. rewrite Hv. split; [reflexivity|].
    destruct (qtype q); exact Hin. }
  split; [|split; [|split]].
  - unfold keys. rewrite map_map. reflexivity.
  - intros q Hq. exists (val q). split; [now apply Hget | now apply Hval].
  - intros q Hq. rewrite get_as_numbers, (Hget q Hq). discriminate.
  - intros q v Hq Hv. rewrite get_as_numbers, (Hget q Hq) in Hv.
    injection Hv as <-. exists (val q). split; [now apply Hval | reflexivity].
Qed.

Lemma form_answers_every_question_witness :
  exists responses : dict Z,
    form_responses (fun q => match qtype q with
                             | likert => "Developing"
                             | yesno => "No"
                             end) = Ok responses /\
    keys responses = map id QUESTIONS /\
    (forall q, In q QUESTIONS ->
       exists z, get responses (id q) = Some z /\
                 get (options (qtype q))
                     (match qtype q with
                      | likert => "Developing"
                      | yesno => "No"
                      end) = Some z) /\
    complete (as_numbers responses : dict float) /\
    answers_in_domain (as_numbers responses : dict float).
Proof.
  apply (@form_answers_every_question float binary64
           (fun q => match qtype q with
                     | likert => "Developing"
                     | yesno => "No"
                     end)).
  intros q _. destruct (qtype q); simpl; tauto.
Defined.

(* ================================================================== *)
(** * Scores of a complete response set *)

(** The answers of a complete response set within the domains to the
    questions of a category are one of the ways of answering them. *)
Lemma answers_complete (responses : dict float) (cat : string) (qs : list Question) :
  (forall q, In q qs ->
     exists z, In z (domain (qtype q)) /\ get responses (id q) = Some (of_int z)) ->
  exists zs,
    In zs (combos (filter (fun q => String.eqb (category q) cat) qs)) /\
    answers responses cat qs = map of_int zs.
Proof.
  induction qs as [|q qs IH]; intros H.
  - exists []. split; [now left | reflexivity].
  - destruct IH as [zs [Hin Heq]]; [intros q' Hq'; apply H; now right|].
    rewrite answers_cons, Heq. simpl filter.
    destruct (String.eqb (category q) cat).
    + destruct (H q (or_introl eq_refl)) as [z [Hz Hget]]. rewrite Hget.
      exists (z :: zs). split; [|reflexivity].
      simpl combos. apply in_flat_map. exists z. split; [exact Hz|].
      now apply in_map.
    + exists zs. split; [exact Hin | reflexivity].
Qed.

Lemma complete_scores_reached (responses : dict float) (cat : string) :
  answers_in_domain responses -> complete responses -> In cat CATEGORIES ->
  In (cat, mean_score (answers responses cat QUESTIONS)) complete_scores.
Proof.
  intros Hdom Hcomp Hcat.
  destruct (@answers_complete responses cat QUESTIONS) as [zs [Hin Heq]].
  { intros q Hq. destruct (get responses (id q)) as [v|] eqn:Hv.
    - destruct (Hdom q v Hq Hv) as [z [Hz ->]]. now exists z.
    - now destruct (Hcomp q Hq). }
  unfold complete_scores. apply in_flat_map. exists cat. split; [exact Hcat|].
  rewrite Heq. apply in_map_iff. now exists zs.
Qed.

(** The 90 reachable scores, evaluated: each is in the interval of its
    category, "maintain" level is reached in the third and fourth category
    only, and the first category stays below the "strengthen" level. *)
Lemma complete_scores_checked :
  Forall
    (fun item =>
       (forall lo hi, In (fst item, (lo, hi)) complete_ranges ->
                      between lo hi (snd item) = true) /\
       (level_of (snd item) = Top ->
        fst item = "Technical Controls & Monitoring" \/
        fst item = "Ethics & Societal Impact") /\
       (fst item = "Governance & Policy" ->
        level_of (snd item) = Lower \/ level_of (snd item) = Bottom))
    complete_scores.
Proof.
  let l := eval vm_compute in complete_scores in
  change complete_scores with l.
  repeat apply Forall_cons; try apply Forall_nil;
    cbn [fst snd]; (split; [|split]).
  all: try (intros lo hi Hin; unfold complete_ranges in Hin; cbn [In] in Hin;
            repeat (destruct Hin as [Hin|Hin];
                    [first [discriminate Hin
                           | injection Hin as <- <-; vm_compute; reflexivity]|]);
            contradiction).
  all: try (intros Hlv; first [left; reflexivity | right; reflexivity
                              | vm_compute in Hlv; discriminate Hlv]).
  all: try (intros Hc; first [discriminate Hc
                             | left; vm_compute; reflexivity
                             | right; vm_compute; reflexivity]).
Qed.

(** X18. When every question of the catalog is answered with a value of
    its options, as the form does, the score of each category lies in the
    interval of its mix of questions: about 8.3 to 58.4 for "Governance &
    Policy", 12.5 to 75 for "Data Privacy & Protection" and "Organisational
    Readiness & Capability", 25 to 125 for the two categories with graded
    questions only.  So the "maintain" recommendation can be given for
    "Technical Controls & Monitoring" and "Ethics & Societal Impact" only,
    and "Governance & Policy" never gets better than the "basics"
    recommendation. *)
Theorem complete_answers_scores (responses : dict float) :
  answers_in_domain responses -> complete responses ->
  exists scores : dict float,
    category_scores_of responses = Ok scores /\
    (forall cat lo hi,
        In (cat, (lo, hi)) complete_ranges ->
        exists s, get scores cat = Some s /\ between lo hi s = true) /\
    (forall cat,
        get (generate_recommendations scores) cat = Some rec_maintain ->
        cat = "Technical Controls & Monitoring" \/
        cat = "Ethics & Societal Impact") /\
    (get (generate_recommendations scores) "Governance & Policy" = Some rec_basics \/
     get (generate_recommendations scores) "Governance & Policy" = Some rec_urgent).
Proof.
  intros Hdom Hcomp. exists (formula_scores responses).
  split; [apply (category_scores_of_formula binary64_divisors_nonzero)|].
  pose proof complete_scores_checked as Hall. rewrite Forall_forall in Hall.
  assert (Hreach : forall cat, In cat CATEGORIES ->
            get (formula_scores responses) cat =
              Some (mean_score (answers responses cat QUESTIONS)) /\
            In (cat, mean_score (answers responses cat QUESTIONS)) complete_scores).
  { intros cat Hcat. split; [now apply formula_scores_get|].
    now apply complete_scores_reached. }
  assert (Hnd : NoDup (keys (formula_scores responses)))
    by (rewrite formula_scores_keys; exact categories_nodup).
  split; [|split].
  - intros cat lo hi Hin.
    assert (Hcat : In cat CATEGORIES).
    { unfold complete_ranges in Hin. cbn [In] in Hin.
      repeat (destruct Hin as [Hin|Hin];
              [injection Hin as <- _ _; simpl; tauto|]).
      contradiction. }
    destruct (Hreach cat Hcat) as [Hget Hr].
    exists (mean_score (answers responses cat QUESTIONS)).
    split; [exact Hget|].
    exact (proj1 (Hall _ Hr) lo hi Hin).
  - intros cat Hrec.
    destruct (in_dec string_dec cat CATEGORIES) as [Hcat|Hcat].
    + destruct (Hreach cat Hcat) as [Hget Hr].
      erewrite generate_recommendations_get in Hrec; [|exact Hnd|exact Hget].
      injection Hrec as Hrec.
      apply (recommendation_inj _ Top) in Hrec.
      exact (proj1 (proj2 (Hall _ Hr)) Hrec).
    + rewrite get_absent in Hrec; [discriminate|].
      rewrite generate_recommendations_keys by exact Hnd.
      now rewrite formula_scores_keys.
  - assert (Hcat : In "Governance & Policy" CATEGORIES) by (simpl; tauto).
    destruct (Hreach _ Hcat) as [Hget Hr].
    erewrite generate_recommendations_get; [|exact Hnd|exact Hget].
    destruct (proj2 (proj2 (Hall _ Hr)) eq_refl) as [H|H];
      cbn [fst snd] in H; rewrite H; [left | right]; reflexivity.
Qed.

Lemma complete_answers_scores_witness :
  exists scores : dict float,
    category_scores_of (all_max : dict float) = Ok scores /\
    (forall cat lo hi,
        In (cat, (lo, hi)) complete_ranges ->
        exists s, get scores cat = Some s /\ between lo hi s = true) /\
    (forall cat,
        get (generate_recommendations scores) cat = Some rec_maintain ->
        cat = "Technical Controls & Monitoring" \/
        cat = "Ethics & Societal Impact") /\
    (get (generate_recommendations scores) "Governance & Policy" = Some rec_basics \/
     get (generate_recommendations scores) "Governance & Policy" = Some rec_urgent).
Proof.
  apply complete_answers_scores.
  - intros q v Hq Hv.
    exists (match qtype q with likert => 5 | yesno => 1 end).
    simpl in Hq.
    repeat (destruct Hq as [<-|Hq];
            [split; [simpl; tauto | vm_compute in Hv |- *; congruence]|]).
    contradiction.
  - intros q Hq. simpl in Hq.
    repeat (destruct Hq as [<-|Hq]; [vm_compute; discriminate|]).
    contradiction.
Defined.
